(** * PandasPlotBench: the plot-building pipeline of [vis_generator.py]

    A shallow embedding of [add_index_to_filename] and of the class
    [VisGenerator] (code assembly, notebook construction, result
    extraction and the merge of the results onto the dataset), together
    with the properties of the pipeline that the specification states. *)

From Stdlib Require Import ZArith Lia Ascii.
From stdpp Require Import gmap strings list pretty.

Local Open Scope Z_scope.
Local Open Scope stdpp_scope.

(** ** Python values the code works with *)

(** *** Strings *)

Module Py.

Definition LF : ascii := "010"%char.

(** The one-character string written ["\n"] in the source. *)
Definition nl : string := String LF "".

(** [c in chars] for a character. *)
Fixpoint mem_char (c : ascii) (chars : string) : bool :=
  match chars with
  | "" => false
  | String a r => if decide (a = c) then true else mem_char c r
  end.

(** [s.startswith(p)] *)
Fixpoint startswith (s p : string) {struct p} : bool :=
  match p, s with
  | "", _ => true
  | String a p', String b s' =>
      if decide (a = b) then startswith s' p' else false
  | String _ _, "" => false
  end.

(** [s.lstrip(chars)]: drops leading characters that occur in [chars]. *)
Fixpoint lstrip (chars s : string) : string :=
  match s with
  | "" => ""
  | String c r => if mem_char c chars then lstrip chars r else s
  end.

(** [s.rstrip(chars)] *)
Fixpoint rstrip (chars s : string) : string :=
  match s with
  | "" => ""
  | String c r =>
      match rstrip chars r with
      | "" => if mem_char c chars then "" else String c ""
      | r' => String c r'
      end
  end.

(** [s.split(sep)] for a separator of one character. *)
Fixpoint split (sep : ascii) (s : string) : list string :=
  match s with
  | "" => [""]
  | String c r =>
      if decide (c = sep) then "" :: split sep r
      else match split sep r with
           | h :: t => String c h :: t
           | [] => [String c ""]
           end
  end.

(** [sep.join(l)] *)
Fixpoint join (sep : string) (l : list string) : string :=
  match l with
  | [] => ""
  | x :: xs =>
      match xs with
      | [] => x
      | _ :: _ => x +:+ sep +:+ join sep xs
      end
  end.

(** [sub in s] for strings. *)
Fixpoint contains (sub s : string) : bool :=
  startswith s sub ||
  match s with
  | "" => false
  | String _ r => contains sub r
  end.

(** [s.replace(old, new)] for a non-empty [old]: left to right, without
    overlap.  [skip] counts the characters of a match still to drop. *)
Fixpoint replace_go (old new : string) (skip : nat) (s : string) : string :=
  match s with
  | "" => ""
  | String c r =>
      match skip with
      | S k => replace_go old new k r
      | O =>
          if startswith s old
          then new +:+ replace_go old new (Nat.pred (String.length old)) r
          else String c (replace_go old new 0 r)
      end
  end.

Definition replace (old new s : string) : string := replace_go old new 0 s.

Definition lower_char (c : ascii) : ascii :=
  let n := nat_of_ascii c in
  if (Nat.leb 65 n && Nat.leb n 90)%bool then ascii_of_nat (n + 32) else c.

(** [s.lower()] on ASCII letters. *)
Fixpoint lower (s : string) : string :=
  match s with
  | "" => ""
  | String c r => String (lower_char c) (lower r)
  end.

(** *** Integers and their decimal form *)

(** [str(n)] and [f"{n}"] for an [int]. *)
Definition str (n : Z) : string := pretty n.

(** The value of a decimal digit. *)
Definition digit (c : ascii) : option N := N.of_nat <$> Ascii.is_nat c.

(** The characters [int()] skips around a literal. *)
Definition whitespace : string :=
  String "009" (String "010" (String "011" (String "012" (String "013"
  (String "028" (String "029" (String "030" (String "031" " ")))))))).

(** Digits of a decimal literal, with single underscores allowed between
    digits; [prev] tells whether the previous character was a digit. *)
Fixpoint int_digits (acc : N) (prev : bool) (s : string) : option N :=
  match s with
  | "" => if prev then Some acc else None
  | String c r =>
      match digit c with
      | Some d => int_digits (acc * 10 + d)%N true r
      | None =>
          if decide (c = "_"%char) then
            if prev then int_digits acc false r else None
          else None
      end
  end.

(** [int(s)] on ASCII text: [None] stands for the [ValueError] of a malformed
    literal.  The digits and the blanks that Python takes from beyond ASCII
    are not read here, so [None] on a text with such characters says
    nothing about the program. *)
Definition int (s : string) : option Z :=
  let s := rstrip whitespace (lstrip whitespace s) in
  match s with
  | String "-" r => (λ n, - Z.of_N n) <$> int_digits 0 false r
  | String "+" r => Z.of_N <$> int_digits 0 false r
  | _ => Z.of_N <$> int_digits 0 false s
  end.

End Py.

(** *** Exceptions *)

Inductive PyError : Type :=
| FileNotFoundError (msg : string)
| ValueError
| KeyError (key : string)
| AttributeError.

(** A computation that returns a value or raises. *)
Inductive result (A : Type) : Type :=
| Ok (a : A)
| Raise (e : PyError).
Arguments Ok {A} a.
Arguments Raise {A} e.

Global Instance result_ret : MRet result := λ A a, Ok a.
Global Instance result_bind : MBind result := λ A B f r,
  match r with Ok a => f a | Raise e => Raise e end.
Global Instance result_fmap : FMap result := λ A B f r,
  match r with Ok a => Ok (f a) | Raise e => Raise e end.

(** The list comprehension / row-wise [apply] of a function that may raise:
    the first exception stops the traversal. *)
Fixpoint traverse {A B : Type} (f : A → result B) (l : list A) : result (list B) :=
  match l with
  | [] => Ok []
  | a :: rest => b ← f a; bs ← traverse f rest; Ok (b :: bs)
  end.

(** [df.apply(f, axis=1).tolist()]: the rows in order.  On a frame without
    rows [apply] gives back a frame, and a frame has no [tolist]. *)
Definition apply_tolist {A B : Type} (f : A → result B) (df : list A)
  : result (list B) :=
  match df with
  | [] => Raise AttributeError
  | _ :: _ => traverse f df
  end.

(** ** Paths and the file system *)

(** A [pathlib] path: the directory part and the final component.  The paths
    of the program are all built as [Path(folder) / filename]; the embedding
    covers a file name of one component ([one_component] below: not empty,
    without a slash, not a dot name), for which [pathlib] keeps the folder as
    the parent and the file name as the name. *)
Record Path : Type := { parent : string; name : string }.

Global Instance Path_eq_dec : EqDecision Path.
Proof. solve_decision. Defined.

Global Instance Path_countable : Countable Path.
Proof.
  refine (inj_countable' (λ p, (parent p, name p))
                         (λ t, {| parent := t.1; name := t.2 |}) _).
  by intros [].
Defined.

(** [Path(folder) / filename], for a file name of one component. *)
Definition joinpath (folder filename : string) : Path :=
  {| parent := folder; name := filename |}.

(** [str(PurePosixPath(p))], for a folder written the way [pathlib] prints it
    ([normal_folder] below); other spellings of a folder, such as [./data] or
    [data/], are printed by [pathlib] in that form and are not covered. *)
Definition posix (p : Path) : string := parent p +:+ "/" +:+ name p.

(** Splits a file name at its last dot: the part before it, and the part from
    the dot on. *)
Fixpoint rsplit_dot (s : string) : option (string * string) :=
  match s with
  | "" => None
  | String c r =>
      match rsplit_dot r with
      | Some (st, su) => Some (String c st, su)
      | None => if decide (c = "."%char) then Some ("", s) else None
      end
  end.

(** [p.suffix]: from the last dot of the name on, unless that dot starts or ends
    the name. *)
Definition suffix (p : Path) : string :=
  match rsplit_dot (name p) with
  | Some (st, su) =>
      if decide (st = "") then "" else if decide (su = ".") then "" else su
  | None => ""
  end.

(** [p.stem]: the name without its suffix. *)
Definition stem (p : Path) : string :=
  match rsplit_dot (name p) with
  | Some (st, su) =>
      if decide (st = "") then name p
      else if decide (su = ".") then name p else st
  | None => name p
  end.

(** [p.with_stem(s)], for a name that stays one component; [pathlib] raises
    [ValueError] for a new name that is empty or holds a slash. *)
Definition with_stem (p : Path) (s : string) : Path :=
  {| parent := parent p; name := s +:+ suffix p |}.

(** The files that exist. *)
Abbreviation FileSystem := (gset Path).

(** [p.exists()] *)
Definition path_exists (fs : FileSystem) (p : Path) : bool := bool_decide (p ∈ fs).

(** ** [add_index_to_filename] *)

(** The candidate of index [i]: [results_file_base.with_stem(stem + f"_{i}")]. *)
Definition indexed (results_file_base : Path) (i : nat) : Path :=
  with_stem results_file_base
    (stem results_file_base +:+ "_" +:+ Py.str (Z.of_nat i)).

(** The [while results_file.exists()] loop; [fuel] bounds its iterations. *)
Fixpoint add_index_loop (fs : FileSystem) (results_file_base : Path) (fuel : nat)
    (i : nat) (results_file : Path) (last_existing_file : option Path)
  : option (Path * option Path) :=
  if path_exists fs results_file then
    match fuel with
    | O => None
    | S fuel' =>
        let last_existing_file := Some results_file in
        let i := S i in
        let results_file := indexed results_file_base i in
        add_index_loop fs results_file_base fuel' i results_file last_existing_file
    end
  else Some (results_file, last_existing_file).

(** The file system is finite and the candidates differ from one another, so
    one iteration per existing file is enough fuel: the function always
    returns ([add_index_to_filename_first_unused] below). *)
Definition add_index_to_filename (fs : FileSystem)
    (folder filename postfix : string) : option (Path * option Path) :=
  let results_file_base := joinpath folder filename in
  let results_file_base :=
    with_stem results_file_base (stem results_file_base +:+ postfix) in
  let results_file :=
    with_stem results_file_base (stem results_file_base +:+ "_0") in
  add_index_loop fs results_file_base (size fs) 0 results_file None.

(** ** Notebooks (nbformat 4) *)

Inductive Output : Type :=
| Stream (name text : string)
| DisplayData (data : gmap string string)
| ExecuteResult (data : gmap string string)
| Error (ename evalue : string) (traceback : list string).

Definition output_type (o : Output) : string :=
  match o with
  | Stream _ _ => "stream"
  | DisplayData _ => "display_data"
  | ExecuteResult _ => "execute_result"
  | Error _ _ _ => "error"
  end.

Record Cell : Type := { cell_type : string; source : string; outputs : list Output }.

Record Notebook : Type := { cells : list Cell }.

(** [nbf.v4.new_code_cell(block)] *)
Definition new_code_cell (block : string) : Cell :=
  {| cell_type := "code"; source := block; outputs := [] |}.

(** ** The dataset rows and the extracted results *)

Module Item.
(** A row of the dataset, as [generate_code] reads it. *)
Record t : Type := { id : Z; code_data : string; code : string }.
End Item.

Module Outcome.
(** The dictionary [cell_res] of [parse_plots_notebook]. *)
Record t : Type :=
  { id : Z; error : string; plots_generated : list string; has_plot : bool }.
End Outcome.

(** ** [VisGenerator] *)

Record DictConfig : Type := { plotting_lib : string }.

Record VisGenerator : Type :=
  { output_folder : string;
    plots_nb_path : Path;
    config : option DictConfig;
    csv_folder : string }.

Definition csv_path_of (self : VisGenerator) (item : Item.t) : Path :=
  joinpath (csv_folder self) ("data-" +:+ Py.str (Item.id item) +:+ ".csv").

Fixpoint check_csv (fs : FileSystem) (self : VisGenerator) (dataset : list Item.t)
  : result unit :=
  match dataset with
  | [] => Ok tt
  | item :: rest =>
      let csv_path := csv_path_of self item in
      if negb (path_exists fs csv_path) then
        Raise (FileNotFoundError
                 ("Unpacked csv datafile not found on " +:+ posix csv_path))
      else check_csv fs self rest
  end.

(** [VisGenerator.__init__] *)
Definition init (fs : FileSystem) (output_folder : string) (dataset : list Item.t)
    (csv_folder : string) (config : option DictConfig) : result VisGenerator :=
  let self := {| output_folder := output_folder;
                 plots_nb_path := joinpath output_folder "all_plots.ipynb";
                 config := config;
                 csv_folder := csv_folder |} in
  _ ← check_csv fs self dataset;
  Ok self.

(** [build_new_nb]: one code cell per block; the notebook written to
    [plots_nb_path] is the value returned here. *)
Definition build_new_nb (blocks : list string) : Notebook :=
  {| cells := new_code_cell <$> blocks |}.

Definition is_mpl_family (plotting_lib : string) : bool :=
  Py.contains "matplotlib" plotting_lib || Py.contains "seaborn" plotting_lib.

Definition DQUOTE : string := String "034" "".

Definition generate_code (fs : FileSystem) (self : VisGenerator)
    (item : Item.t) (plotting_lib : string) : result string :=
  let csv_path := csv_path_of self item in
  if negb (path_exists fs csv_path) then
    Raise (FileNotFoundError
             ("Unpacked csv datafile not found on " +:+ posix csv_path))
  else
    let data_path_unix := posix csv_path in
    let data_load_code := Py.replace "data.csv" data_path_unix (Item.code_data item) in
    let generated_code := Item.code item in
    let code_blocks := ["# id = " +:+ Py.str (Item.id item)] in
    let code_blocks :=
      if is_mpl_family plotting_lib
      then code_blocks ++ ["%matplotlib inline"] else code_blocks in
    let code_blocks :=
      if Py.contains "plotly" plotting_lib
      then code_blocks ++ ["import plotly.io as pio";
                           "pio.renderers.default = " +:+ DQUOTE +:+ "png" +:+ DQUOTE]
      else code_blocks in
    let code_blocks := code_blocks ++ [data_load_code; generated_code] in
    let code_blocks :=
      if is_mpl_family plotting_lib
      then code_blocks ++ ["plt.rcParams.update(plt.rcParamsDefault)"]
      else code_blocks in
    let code_blocks :=
      if Py.contains "seaborn" plotting_lib
      then code_blocks ++ ["sns.reset_orig()"] else code_blocks in
    let code_blocks := code_blocks ++ ["%reset -f"] in
    let plot_code_nb := Py.join Py.nl code_blocks in
    Ok plot_code_nb.

Definition setup_block : string :=
  Py.join Py.nl
    ["# Setup";
     "!pip install lets-plot";
     "!jupyter nbextension install lets-plot --py --sys-prefix";
     "!jupyter nbextension enable lets-plot --py --sys-prefix"].

Definition is_error (o : Output) : bool :=
  match o with Error _ _ _ => true | _ => false end.

(** [build_plots] up to and including its call of [build_new_nb]: the
    notebook written to [plots_nb_path], not yet executed.  The row-wise
    [dataset.apply(self.generate_code, axis=1, ...).tolist()] is a traversal of
    the rows in order, and fails on a dataset without rows. *)
Definition build_plots_notebook (fs : FileSystem) (self : VisGenerator)
    (dataset : list Item.t) : result Notebook :=
  cfg ← match config self with Some c => Ok c | None => Raise AttributeError end;
  let plotting_lib := Py.lower (plotting_lib cfg) in
  let setup_cell :=
    if Py.contains "lets-plot" plotting_lib then [setup_block] else [] in
  plot_cells ← apply_tolist (λ item, generate_code fs self item plotting_lib) dataset;
  let plot_cells := setup_cell ++ plot_cells in
  Ok (build_new_nb plot_cells).

(** *** The executor *)

Section Executor.

Context {Kernel : Type}.

(** The kernel: the outputs of one source text and the state after it. *)
Variable run_cell : Kernel → string → Kernel * list Output.
Variable fresh_kernel : Kernel.

(** Modelled from the spec: the Sandboxed Executor, which is missing from the
    sources: [build_plots] launches it as the external command [jupyter
    nbconvert --execute --allow-errors --to notebook --inplace <path>].
    Following section 4.3 of the specification, the sub-units run in order in
    one kernel, the outputs of each are written back into it, and a fault of a
    sub-unit is recorded as an error record among its outputs.  Without
    [--allow-errors] the first fault aborts the run and nothing is written
    back ([None]); with it the run proceeds to the next sub-unit. *)
Fixpoint execute_cells (allow_errors : bool) (k : Kernel) (cs : list Cell)
  : option (list Cell) :=
  match cs with
  | [] => Some []
  | c :: rest =>
      if decide (cell_type c = "code") then
        let '(k', outs) := run_cell k (source c) in
        if existsb is_error outs && negb allow_errors then None
        else
          cons {| cell_type := cell_type c; source := source c; outputs := outs |}
            <$> execute_cells allow_errors k' rest
      else cons c <$> execute_cells allow_errors k rest
  end.

(** Modelled from the spec: the effect of the command line [cmd] of the
    executor on the notebook file it names: the notebook after the call. *)
Definition nbconvert (cmd : string) (nb : Notebook) : Notebook :=
  if Py.contains "--execute" cmd then
    match execute_cells (Py.contains "--allow-errors" cmd) fresh_kernel (cells nb) with
    | Some cs => {| cells := cs |}
    | None => nb
    end
  else nb.

(** [build_plots]: returns the notebook found at [plots_nb_path] after the
    call; the exit status of the command is dropped, as in the source. *)
Definition build_plots (fs : FileSystem) (self : VisGenerator)
    (dataset : list Item.t) : result Notebook :=
  nb ← build_plots_notebook fs self dataset;
  let cmd := "jupyter nbconvert --execute --allow-errors --to notebook --inplace "
             +:+ DQUOTE +:+ posix (plots_nb_path self) +:+ DQUOTE in
  Ok (nbconvert cmd nb).

End Executor.

(** *** [parse_plots_notebook] *)

(** One step of the loop over [cell["outputs"]]; the state is
    [cell_res["error"]], [images] and [img_num]. *)
Definition scan_output (st : string * list string * nat) (output : Output)
  : string * list string * nat :=
  let '(err, images, img_num) := st in
  match output with
  | Error ename evalue _ => (ename +:+ ": " +:+ evalue, images, img_num)
  | DisplayData data =>
      match data !! "image/png" with
      | Some image => (err, images ++ [image], S img_num)
      | None => st
      end
  | _ => st
  end.

(** The body of the loop over [nb.cells]: [None] is [continue]. *)
Definition parse_cell (cell : Cell) : result (option Outcome.t) :=
  if negb (bool_decide (cell_type cell = "code")) then Ok None
  else
    let code := Py.lstrip Py.nl (source cell) in
    if negb (Py.startswith code "# id = ") then Ok None
    else
      match Py.int (Py.lstrip "# id = " (default "" (head (Py.split Py.LF code)))) with
      | None => Raise ValueError
      | Some idx =>
          let '(err, images, _) :=
            fold_left scan_output (outputs cell) ("", @nil string, O) in
          Ok (Some {| Outcome.id := idx;
                      Outcome.error := err;
                      Outcome.plots_generated := images;
                      Outcome.has_plot := Nat.ltb 0 (length images) |})
      end.

Fixpoint parse_cells (cs : list Cell) (plot_results : list Outcome.t)
  : result (list Outcome.t) :=
  match cs with
  | [] => Ok plot_results
  | cell :: rest =>
      r ← parse_cell cell;
      parse_cells rest
        (match r with Some cell_res => plot_results ++ [cell_res] | None => plot_results end)
  end.

(** The list [plot_results] that the function wraps into a data frame (see
    [pd_DataFrame]). *)
Definition parse_plots_notebook (nb : Notebook) : result (list Outcome.t) :=
  parse_cells (cells nb) [].

(** *** Data frames and the merge of [draw_plots] *)

Inductive Value : Type :=
| VInt (z : Z)
| VStr (s : string)
| VBool (b : bool)
| VList (l : list string)
| NaN.

Global Instance Value_eq_dec : EqDecision Value.
Proof. solve_decision. Defined.

(** Column labels, and the rows as lists of cells in column order. *)
Record DataFrame : Type := { columns : list string; rows : list (list Value) }.

(** The cells of a result other than its id, in the order of its keys. *)
Definition result_cells (r : Outcome.t) : list Value :=
  [VStr (Outcome.error r); VList (Outcome.plots_generated r);
   VBool (Outcome.has_plot r)].

(** [pd.DataFrame(plot_results)]: the columns are the keys of the dictionaries;
    an empty list gives a frame without columns. *)
Definition pd_DataFrame (plot_results : list Outcome.t) : DataFrame :=
  match plot_results with
  | [] => {| columns := []; rows := [] |}
  | _ :: _ =>
      {| columns := ["id"; "error"; "plots_generated"; "has_plot"];
         rows := (λ r, VInt (Outcome.id r) :: result_cells r) <$> plot_results |}
  end.

(** [row[c]]: the cell under the first column labelled [c]. *)
Definition cell_at (cols : list string) (row : list Value) (c : string) : option Value :=
  '(i, _) ← list_find (λ x, x = c) cols; row !! i.

(** Keeps the positions of [l] whose label passes [keep]. *)
Fixpoint select {A : Type} (keep : string → bool) (cols : list string) (l : list A)
  : list A :=
  match cols, l with
  | c :: cols', x :: l' =>
      if keep c then x :: select keep cols' l' else select keep cols' l'
  | _, _ => []
  end.

(** [a.intersection(b)] on column indexes. *)
Definition index_intersection (a b : list string) : list string :=
  filter (λ c, c ∈ b) (remove_dups a).

(** [idx.drop(label)] *)
Definition index_drop (label : string) (idx : list string) : result (list string) :=
  if decide (label ∈ idx) then Ok (filter (λ c, c ≠ label) idx)
  else Raise (KeyError label).

(** [df.drop(columns=labels)] *)
Definition df_drop (labels : list string) (df : DataFrame) : result DataFrame :=
  match list_find (λ c, c ∉ columns df) labels with
  | Some (_, c) => Raise (KeyError c)
  | None =>
      let keep c := bool_decide (c ∉ labels) in
      Ok {| columns := filter (λ c, c ∉ labels) (columns df);
            rows := select keep (columns df) <$> rows df |}
  end.

(** The cells of the column [c], from the first row to the last. *)
Definition column_cells (df : DataFrame) (c : string) : list (option Value) :=
  (λ row, cell_at (columns df) row c) <$> rows df.

Definition is_int_cell (v : option Value) : bool :=
  match v with Some (VInt _) => true | _ => false end.

Definition is_str_cell (v : option Value) : bool :=
  match v with Some (VStr _) => true | _ => false end.

(** The label [c] occurs once among the columns. *)
Definition unique_label (c : string) (cols : list string) : bool :=
  bool_decide (length (filter (λ x, x = c) cols) = 1%nat).

(** Key columns that [merge] refuses to join: one of strings (dtype
    [object]) and one of integers (dtype [int64]), neither empty. *)
Definition keys_clash (l r : list (option Value)) : bool :=
  negb (bool_decide (l = [])) && negb (bool_decide (r = [])) &&
  ((forallb is_str_cell l && forallb is_int_cell r) ||
   (forallb is_int_cell l && forallb is_str_cell r)).

(** [left.merge(right, on=key, how="left")]: a column label other than the key
    that both frames carry gets the suffix [_x] on the left and [_y] on the
    right; a left row without a match is padded with missing values.  The key
    label must be there ([KeyError]) and occur once ([ValueError]) in both
    frames.  The key columns of the program hold integers; of the checks that
    pandas makes on the types of the key columns the embedding has the one
    that refuses strings against integers ([ValueError]); key columns of other
    or mixed kinds are not covered. *)
Definition df_merge_left (key : string) (left right : DataFrame) : result DataFrame :=
  if negb (bool_decide (key ∈ columns left) && bool_decide (key ∈ columns right))
  then Raise (KeyError key)
  else if negb (unique_label key (columns left) && unique_label key (columns right))
  then Raise ValueError
  else if keys_clash (column_cells left key) (column_cells right key)
  then Raise ValueError
  else
    let overlap c := bool_decide (c ≠ key ∧ c ∈ columns left ∧ c ∈ columns right) in
    let not_key c := bool_decide (c ≠ key) in
    let rcols := filter (λ c, c ≠ key) (columns right) in
    let merged_row (l : list Value) : list (list Value) :=
      match filter (λ r, cell_at (columns right) r key = cell_at (columns left) l key)
                   (rows right) with
      | [] => [l ++ replicate (length rcols) NaN]
      | ms => (λ r, l ++ select not_key (columns right) r) <$> ms
      end in
    Ok {| columns :=
            ((λ c, if overlap c then c +:+ "_x" else c) <$> columns left) ++
            ((λ c, if overlap c then c +:+ "_y" else c) <$> rcols);
          rows := mbind (M := list) merged_row (rows left) |}.

(** The last three statements of [draw_plots]: the columns that [response]
    brings again are removed from [dataset], then [response] is joined on. *)
Definition merge_response (dataset response : DataFrame) : result DataFrame :=
  common_cols ← index_drop "id" (index_intersection (columns dataset) (columns response));
  dataset ← df_drop common_cols dataset;
  df_merge_left "id" dataset response.

(** ** Views used by the statements *)

(** A sub-unit that the extractor considers: a code cell whose source, after
    its leading newlines, begins with the id marker. *)
Definition marked (c : Cell) : bool :=
  bool_decide (cell_type c = "code") &&
  Py.startswith (Py.lstrip Py.nl (source c)) "# id = ".

(** The [image/png] payloads of the display-data outputs, in emission order. *)
Definition png_images (outs : list Output) : list string :=
  omap (λ o, match o with
             | DisplayData data => data !! "image/png"
             | _ => None
             end) outs.

(** [nb'] holds the cells of [nb] with the same kind and source, whatever their
    outputs: what an execution of [nb] leaves behind. *)
Definition same_code (nb nb' : Notebook) : Prop :=
  Forall2 (λ c c', cell_type c' = cell_type c ∧ source c' = source c)
          (cells nb) (cells nb').

(** [k] newline characters. *)
Fixpoint blank_lines (k : nat) : string :=
  match k with
  | O => ""
  | S k' => String Py.LF (blank_lines k')
  end.

Fixpoint all_chars (P : ascii → bool) (s : string) : bool :=
  match s with
  | "" => true
  | String c r => P c && all_chars P r
  end.

Definition is_digit (c : ascii) : bool := bool_decide (is_Some (Py.digit c)).

(** A character of the decimal form of an integer. *)
Definition int_char (c : ascii) : bool := is_digit c || bool_decide (c = "-"%char).

(** The marker line of the item [z]. *)
Definition marker (z : Z) : string := "# id = " +:+ Py.str z.

(** The state of the scan of a sub-unit's outputs, from its start. *)
Definition scan (outs : list Output) : string * list string * nat :=
  fold_left scan_output outs ("", [], O).

(** The rest of a source text after its marker line: nothing, or a newline and
    further lines. *)
Definition after_marker (rest : option string) : string :=
  match rest with
  | None => ""
  | Some t => Py.nl +:+ t
  end.

(** A sub-unit whose code faulted twice, and one with pictures and a fault. *)
Definition two_errors_cell : Cell :=
  {| cell_type := "code";
     source := "# id = 8";
     outputs := [Error "NameError" "name 'df' is not defined" [];
                 Error "ZeroDivisionError" "division by zero" []] |}.

Definition plots_then_error_cell : Cell :=
  {| cell_type := "code";
     source := "# id = 7" +:+ Py.nl +:+ "%matplotlib inline";
     outputs := [DisplayData {[ "image/png" := "iVBORw0KGgo="; "text/plain" := "<Figure>" ]};
                 Stream "stdout" "done";
                 ExecuteResult {[ "image/png" := "AAAA" ]};
                 DisplayData {[ "text/html" := "<div/>" ]};
                 DisplayData {[ "image/png" := "R0lGODlh" ]};
                 Error "ValueError" "x and y must have same first dimension" []] |}.

(** The lines that library set-up and tear-down contribute to a snippet. *)
Definition setup_lines (plotting_lib : string) : list string :=
  (if is_mpl_family plotting_lib then ["%matplotlib inline"] else []) ++
  (if Py.contains "plotly" plotting_lib
   then ["import plotly.io as pio";
         "pio.renderers.default = " +:+ DQUOTE +:+ "png" +:+ DQUOTE]
   else []).

Definition teardown_lines (plotting_lib : string) : list string :=
  (if is_mpl_family plotting_lib
   then ["plt.rcParams.update(plt.rcParamsDefault)"] else []) ++
  (if Py.contains "seaborn" plotting_lib then ["sns.reset_orig()"] else []).

(** The data-loading code of an item, with the path of its data file. *)
Definition data_load_code (self : VisGenerator) (item : Item.t) : string :=
  Py.replace "data.csv" (posix (csv_path_of self item)) (Item.code_data item).

(** The scenario of the specification: item 7 plots, item 8 divides by zero. *)
Definition demo_fs : FileSystem :=
  {[ joinpath "data" "data-7.csv"; joinpath "data" "data-8.csv";
     joinpath "out" "plots_d_m_matplotlib_0.ipynb";
     joinpath "out" "plots_d_m_matplotlib_1.ipynb" ]}.

Definition demo_dataset : list Item.t :=
  [ {| Item.id := 7; Item.code_data := "df = pd.read_csv('data.csv')";
       Item.code := "df.plot()" |};
    {| Item.id := 8; Item.code_data := "df = pd.read_csv('data.csv')";
       Item.code := "1/0" |} ].

Definition demo_config : DictConfig := {| plotting_lib := "matplotlib" |}.

Definition demo_generator : VisGenerator :=
  {| output_folder := "out";
     plots_nb_path := joinpath "out" "all_plots.ipynb";
     config := Some demo_config;
     csv_folder := "data" |}.

(** A generator in the state in which [draw_plots] calls [build_plots]: the
    notebook path is the one that [add_index_to_filename] returned. *)
Definition lets_plot_generator : VisGenerator :=
  {| output_folder := "out";
     plots_nb_path := joinpath "out" "plots_d_m_lets-plot_0.ipynb";
     config := Some {| plotting_lib := "Lets-Plot" |};
     csv_folder := "data" |}.

Definition running_generator : VisGenerator :=
  {| output_folder := "out";
     plots_nb_path := joinpath "out" "plots_d_m_matplotlib_2.ipynb";
     config := Some demo_config;
     csv_folder := "data" |}.

Definition demo_built : Notebook :=
  match build_plots_notebook demo_fs demo_generator demo_dataset with
  | Ok nb => nb
  | Raise _ => {| cells := [] |}
  end.

(** The built unit after a run: item 7 displayed a picture, item 8 faulted. *)
Definition demo_executed : Notebook :=
  {| cells :=
       zip_with (λ c outs, {| cell_type := cell_type c; source := source c;
                              outputs := outs |})
                (cells demo_built)
                [ [DisplayData {[ "image/png" := "iVBORw0KGgo=" ]}];
                  [Error "ZeroDivisionError" "division by zero" []] ] |}.

(** The base path that [add_index_to_filename] puts the index on. *)
Definition results_file_base (folder filename postfix : string) : Path :=
  with_stem (joinpath folder filename) (stem (joinpath folder filename) +:+ postfix).

(** The kernel state after the sub-units [cs] have run from the state [k]. *)
Definition kernel_after {Kernel : Type}
    (run_cell : Kernel → string → Kernel * list Output) (k : Kernel) (cs : list Cell)
  : Kernel :=
  fold_left (λ k c, if decide (cell_type c = "code")
                    then (run_cell k (source c)).1 else k) cs k.

(** A kernel for the scenario: it counts the sub-units it has run, faults on a
    division by zero and displays a picture otherwise. *)
Definition demo_run_cell (k : nat) (src : string) : nat * list Output :=
  (S k,
   if Py.contains "1/0" src
   then [Error "ZeroDivisionError" "division by zero" []]
   else [DisplayData {[ "image/png" := "iVBORw0KGgo=" ]}]).

(** The columns that the results bring besides the id. *)
Definition result_columns : list string := ["error"; "plots_generated"; "has_plot"].

(** A file name that [Path(folder) / filename] takes as one component. *)
Definition one_component (filename : string) : bool :=
  negb (bool_decide (filename = "")) && negb (bool_decide (filename = ".")) &&
  negb (bool_decide (filename = "..")) && negb (Py.contains "/" filename).

(** A folder written the way [pathlib] prints it: after an optional leading
    slash, components separated by single slashes, none of them empty or a
    single dot. *)
Definition normal_folder (folder : string) : bool :=
  let relative := match folder with
                  | String "/" r => r
                  | _ => folder
                  end in
  forallb (λ c, negb (bool_decide (c = "")) && negb (bool_decide (c = ".")))
          (Py.split "/"%char relative).

(** Every row has one cell per column. *)
Definition rectangular (df : DataFrame) : Prop :=
  Forall (λ row, length row = length (columns df)) (rows df).

(** The id column holds integers, as the ids of the items do. *)
Definition int_ids (df : DataFrame) : Prop :=
  Forall (λ row, is_int_cell (cell_at (columns df) row "id") = true) (rows df).

(** The cells of a dataset row that the merge keeps. *)
Definition kept_cells (dataset : DataFrame) (row : list Value) : list Value :=
  select (λ c, bool_decide (c ∉ result_columns)) (columns dataset) row.

(** The results whose id is the id of a dataset row. *)
Definition results_of (dataset : DataFrame) (row : list Value)
    (plot_results : list Outcome.t) : list Outcome.t :=
  filter (λ r, cell_at (columns dataset) row "id" = Some (VInt (Outcome.id r)))
         plot_results.

(** The rows that a dataset row becomes: one per result of its id, or one
    padded with missing values when there is none. *)
Definition merged_rows (dataset : DataFrame) (plot_results : list Outcome.t)
    (row : list Value) : list (list Value) :=
  match results_of dataset row plot_results with
  | [] => [kept_cells dataset row ++ [NaN; NaN; NaN]]
  | ms => (λ r, kept_cells dataset row ++ result_cells r) <$> ms
  end.

(** A dataset merged once before, and the results of two runs. *)
Definition demo_frame : DataFrame :=
  {| columns := ["id"; "task"; "error"; "has_plot"; "model"];
     rows := [ [VInt 7; VStr "bar chart"; VStr "stale"; VBool false; VStr "m"];
               [VInt 8; VStr "line chart"; NaN; NaN; VStr "m"] ] |}.

Definition demo_results : list Outcome.t :=
  [ {| Outcome.id := 7; Outcome.error := "";
       Outcome.plots_generated := ["iVBORw0KGgo="]; Outcome.has_plot := true |} ].

(** ** Further functions of the sources *)

(** *** JSON-lines files: [read_jsonl], [save_jsonl], [read_responses] *)

Definition CR : ascii := "013"%char.

(** A text as read in text mode: [\r\n] and a lone [\r] arrive as [\n]. *)
Fixpoint translate_newlines (s : string) : string :=
  match s with
  | "" => ""
  | String c r =>
      if decide (c = CR) then
        match r with
        | "" => Py.nl
        | String c' r' =>
            if decide (c' = Py.LF) then String Py.LF (translate_newlines r')
            else String Py.LF (translate_newlines r)
        end
      else String c (translate_newlines r)
  end.

(** [for line in f]: the lines of a text, each with its newline; the last one
    may lack it. *)
Fixpoint file_lines (s : string) : list string :=
  match s with
  | "" => []
  | String c r =>
      if decide (c = Py.LF) then Py.nl :: file_lines r
      else match file_lines r with
           | [] => [String c ""]
           | l :: ls => String c l :: ls
           end
  end.

(** The text files, by path, with their contents. *)
Abbreviation Files := (gmap Path string).

Section Jsonl.

(** The entries and their JSON form are those of the [json] library:
    [json_dumps] is the text that [json.dump(entry, f)] writes or the exception
    it raises, [json_loads] is [json.loads]. *)
Context {Entry : Type}.
Variable json_dumps : Entry → result string.
Variable json_loads : string → result Entry.

(** [read_jsonl]; the message of the exception for a missing file is the
    path. *)
Definition read_jsonl (files : Files) (file_path : Path) : result (list Entry) :=
  match files !! file_path with
  | None => Raise (FileNotFoundError (posix file_path))
  | Some content => traverse json_loads (file_lines (translate_newlines content))
  end.

(** The text that the loop of [save_jsonl] has written after [data]. *)
Fixpoint jsonl_text (data : list Entry) : result string :=
  match data with
  | [] => Ok ""
  | entry :: rest =>
      line ← json_dumps entry;
      text ← jsonl_text rest;
      Ok (line +:+ Py.nl +:+ text)
  end.

(** [save_jsonl]: the files after the call, in a folder that exists.  When an
    entry cannot be written the exception is returned (the file, left with
    the entries before it, is not described). *)
Definition save_jsonl (files : Files) (data : list Entry) (file_path : Path)
  : result Files :=
  text ← jsonl_text data;
  Ok (<[file_path := text]> files).

(** An entry that the [json] library writes on one line and reads back. *)
Definition round_trips (entry : Entry) : Prop :=
  ∃ line, json_dumps entry = Ok line ∧
          all_chars (λ c, negb (bool_decide (c = Py.LF))) line = true ∧
          all_chars (λ c, negb (bool_decide (c = CR))) line = true ∧
          json_loads (line +:+ Py.nl) = Ok entry.

(** The key of an entry: [entry["id"]] when ["id" in entry]. *)
Context `{Countable K}.
Variable entry_id : Entry → option K.

Definition read_responses (files : Files)
    (responses_file : option Path) (responses : option (list Entry))
  : result (gmap K Entry) :=
  match responses_file, responses with
  | None, None => Raise ValueError
  | _, _ =>
      responses ← match responses, responses_file with
                  | Some l, _ => Ok l
                  | None, Some f => read_jsonl files f
                  | None, None => Raise ValueError
                  end;
      let responses_dict :=
        fold_left (λ d entry, match entry_id entry with
                              | Some k => <[k := entry]> d
                              | None => d
                              end) responses (∅ : gmap K Entry) in
      Ok responses_dict
  end.

End Jsonl.

(** *** The name of the notebook in [draw_plots] *)

(** The file name that [draw_plots] passes to [add_index_to_filename], from the
    values [dataset["model"].iloc[0]] and [dataset["data_descriptor"].iloc[0]]
    and the configured library tag. *)
Definition plots_filename (model data_descriptor plotting_lib : string) : string :=
  let model_name := Py.replace "/" "__" model in
  let plot_lib := default "" (head (Py.split " "%char plotting_lib)) in
  "plots_" +:+ data_descriptor +:+ "_" +:+ model_name +:+ "_" +:+ plot_lib +:+ ".ipynb".

(** *** [vllm_engine.py] *)

(** [check_files_exist] *)
Definition check_files_exist (fs : FileSystem) (folder_path : string)
    (filenames : list string) : bool :=
  let existing_files := (λ filename, path_exists fs (joinpath folder_path filename))
                          <$> filenames in
  forallb (λ b, b) existing_files.

(** What [json.load] finds in a file that parses: an object (here with string
    values) or another JSON value. *)
Inductive JsonDoc : Type :=
| JObject (d : gmap string string)
| JOther.

(** [get_model_name_and_path], for a model given as a path with a directory
    part.  [json_files] holds the files that parse as JSON.  Opening a file
    that does not exist raises [FileNotFoundError], loading one that does not
    parse raises [ValueError], and [.get] on a value that is not an object
    raises [AttributeError].  The test [if config_path.exists:] of the source
    names the method without calling it, so it always succeeds. *)
Definition get_model_name_and_path (fs : FileSystem)
    (json_files : gmap Path JsonDoc)
    (model_name_or_path : Path) (model_name : option string)
  : result (option string * option string) :=
  let tokenizer_files :=
    ["tokenizer_config.json"; "special_tokens_map.json"; "tokenizer.json"] in
  let tok_files_exist :=
    check_files_exist fs (posix model_name_or_path) tokenizer_files in
  let tok_name_or_path := None in
  if negb (path_exists fs model_name_or_path) then
    let model_name := Some (posix model_name_or_path) in
    Ok (model_name, tok_name_or_path)
  else
    let config_path := joinpath (posix model_name_or_path) "config.json" in
    config_data ←
      (if negb (path_exists fs config_path)
       then Raise (FileNotFoundError (posix config_path))
       else match json_files !! config_path with
            | Some (JObject d) => Ok d
            | Some JOther => Raise AttributeError
            | None => Raise ValueError
            end);
    let model_name :=
      match config_data !! "_name_or_path" with
      | Some n => Some n
      | None => model_name
      end in
    match tok_files_exist, model_name with
    | false, None => Raise AttributeError
    | true, None => Ok (Some (posix model_name_or_path), tok_name_or_path)
    | _, Some n => Ok (model_name, Some n)
    end.

(** [VllmEngine.batch_output]: the dictionaries are read in the order of their
    items; [batched_output[key].append(value)] on a [defaultdict(list)]. *)
Definition batch_output {V : Type} (outputs : list (list (string * V)))
  : gmap string (list V) :=
  fold_left
    (λ batched_output d,
       fold_left (λ batched '(key, value),
                    <[key := default [] (batched !! key) ++ [value]]> batched)
                 d batched_output)
    outputs ∅.

(** ** Views used by the further statements *)

(** The id that the extractor reads from the first line of a sub-unit. *)
Definition marker_id (c : Cell) : option Z :=
  Py.int (Py.lstrip "# id = "
            (default "" (head (Py.split Py.LF (Py.lstrip Py.nl (source c)))))).

(** A letter of the ASCII alphabet. *)
Definition ascii_letter (c : ascii) : bool :=
  let n := nat_of_ascii c in
  (Nat.leb 65 n && Nat.leb n 90) || (Nat.leb 97 n && Nat.leb n 122).

(** The values that the dictionaries of [outputs] hold under [key], in order. *)
Definition values_of {V : Type} (key : string) (outputs : list (list (string * V)))
  : list V :=
  snd <$> filter (λ kv, kv.1 = key) (mjoin outputs).

(** The number of rows that a dataset row becomes in the merge. *)
Definition row_copies (dataset : DataFrame) (plot_results : list Outcome.t)
    (row : list Value) : nat :=
  Nat.max 1 (length (results_of dataset row plot_results)).

(** JSON for integers: the decimal form. *)
Definition int_dumps (z : Z) : result string := Ok (Py.str z).

Definition int_loads (s : string) : result Z :=
  match Py.int s with
  | Some z => Ok z
  | None => Raise ValueError
  end.

(** * Facts about the string operations *)

Section StringFacts.
Implicit Types (s t u p : string) (c : ascii).

Lemma sapp_cons c s t : String c s +:+ t = String c (s +:+ t).
Proof. reflexivity. Qed.

Lemma sapp_nil_l s : "" +:+ s = s.
Proof. reflexivity. Qed.

Lemma sapp_nil_r s : s +:+ "" = s.
Proof. induction s as [|c s IH]; [done|]. by rewrite sapp_cons, IH. Qed.

Lemma sapp_assoc s t u : (s +:+ t) +:+ u = s +:+ t +:+ u.
Proof. induction s as [|c s IH]; [done|]. by rewrite !sapp_cons, IH. Qed.

Lemma slength_app s t :
  String.length (s +:+ t) = (String.length s + String.length t)%nat.
Proof. induction s as [|c s IH]; [done|]. rewrite sapp_cons. simpl. by rewrite IH. Qed.

Lemma sapp_inj_r s t u : s +:+ u = t +:+ u → s = t.
Proof.
  revert t. induction s as [|c s IH]; intros [|d t] H; [done| | |].
  - apply (f_equal String.length) in H.
    rewrite sapp_nil_l, sapp_cons in H. simpl in H.
    rewrite slength_app in H. lia.
  - apply (f_equal String.length) in H.
    rewrite sapp_nil_l, sapp_cons in H. simpl in H.
    rewrite slength_app in H. lia.
  - rewrite !sapp_cons in H. injection H as -> H. f_equal. by apply IH.
Qed.

Lemma all_chars_app P s t :
  all_chars P (s +:+ t) = all_chars P s && all_chars P t.
Proof.
  induction s as [|c s IH]; [done|]. rewrite sapp_cons. simpl.
  by rewrite IH, andb_assoc.
Qed.

Lemma all_chars_impl (P Q : ascii → bool) s :
  (∀ c, P c = true → Q c = true) → all_chars P s = true → all_chars Q s = true.
Proof.
  intros HPQ. induction s as [|c s IH]; [done|]. simpl.
  rewrite !andb_true_iff. intros [? ?]. auto.
Qed.

Lemma startswith_app p s : Py.startswith (p +:+ s) p = true.
Proof.
  induction p as [|c p IH]; [done|]. rewrite sapp_cons. simpl.
  by rewrite decide_True.
Qed.

Lemma startswith_app_l s t p :
  Py.startswith s p = true → Py.startswith (s +:+ t) p = true.
Proof.
  revert s. induction p as [|c p IH]; intros [|d s]; try done.
  rewrite sapp_cons. simpl. case_decide; [|done]. apply IH.
Qed.

Lemma contains_app_l sub s t :
  Py.contains sub s = true → Py.contains sub (s +:+ t) = true.
Proof.
  induction s as [|c s IH].
  - simpl. rewrite orb_false_r. intros H. destruct sub; [|done].
    by destruct t.
  - rewrite sapp_cons. cbn [Py.contains]. rewrite !orb_true_iff.
    intros [H|H]; [left|right; auto].
    by apply (startswith_app_l (String c s)).
Qed.

Lemma lstrip_skip chars p s :
  all_chars (λ c, Py.mem_char c chars) p = true →
  Py.lstrip chars (p +:+ s) = Py.lstrip chars s.
Proof.
  induction p as [|c p IH]; [done|]. rewrite sapp_cons. simpl.
  rewrite andb_true_iff. intros [Hc Hp]. rewrite Hc. auto.
Qed.

Lemma lstrip_stop chars c s :
  Py.mem_char c chars = false → Py.lstrip chars (String c s) = String c s.
Proof. intros H. simpl. by rewrite H. Qed.

Lemma rstrip_id chars s :
  all_chars (λ c, negb (Py.mem_char c chars)) s = true → Py.rstrip chars s = s.
Proof.
  induction s as [|c s IH]; [done|]. simpl. rewrite andb_true_iff.
  intros [Hc Hs]. rewrite (IH Hs). destruct s; [|done].
  by destruct (Py.mem_char c chars).
Qed.

Lemma split_nonempty sep s : Py.split sep s ≠ [].
Proof.
  destruct s as [|c s]; [done|]. simpl. case_decide; [done|].
  by destruct (Py.split sep s).
Qed.

Lemma split_no_sep sep s :
  all_chars (λ c, negb (bool_decide (c = sep))) s = true → Py.split sep s = [s].
Proof.
  induction s as [|c s IH]; [done|]. simpl. rewrite andb_true_iff.
  intros [Hc Hs]. apply negb_true_iff, bool_decide_eq_false in Hc.
  rewrite decide_False by done. by rewrite (IH Hs).
Qed.

Lemma split_app sep s t :
  Py.split sep (s +:+ String sep t) = Py.split sep s ++ Py.split sep t.
Proof.
  induction s as [|c s IH].
  - rewrite sapp_nil_l. simpl. by rewrite decide_True.
  - rewrite sapp_cons. simpl. case_decide; [by rewrite IH|].
    rewrite IH. pose proof (split_nonempty sep s).
    by destruct (Py.split sep s).
Qed.

Lemma nl_app s : Py.nl +:+ s = String Py.LF s.
Proof. reflexivity. Qed.

Lemma pyjoin_cons sep x y l :
  Py.join sep (x :: y :: l) = x +:+ sep +:+ Py.join sep (y :: l).
Proof. reflexivity. Qed.

(** Splitting a text joined with newlines gives the lines of its blocks. *)
Lemma split_join (l : list string) :
  l ≠ [] → Py.split Py.LF (Py.join Py.nl l) = mjoin (Py.split Py.LF <$> l).
Proof.
  induction l as [|x [|y l] IH]; intros Hne; [done| |].
  - simpl. by rewrite (right_id_L [] (++)).
  - rewrite pyjoin_cons, nl_app, split_app.
    rewrite IH by done. reflexivity.
Qed.

End StringFacts.

(** * Facts about decimal numerals *)

Section DecimalFacts.

Lemma digit_pretty_N_char (d : N) :
  (d < 10)%N → Py.digit (pretty_N_char d) = Some d.
Proof.
  intros Hd.
  assert (d = 0 ∨ d = 1 ∨ d = 2 ∨ d = 3 ∨ d = 4 ∨ d = 5 ∨ d = 6 ∨ d = 7
          ∨ d = 8 ∨ d = 9)%N as Hcases by lia.
  repeat (destruct Hcases as [->|Hcases]; [reflexivity|]). by subst.
Qed.

(** The digits that [pretty_N_go] puts in front of [s] read back as [x]. *)
Lemma pretty_N_go_digits (x : N) :
  (0 < x)%N → ∀ s, ∃ ds,
    pretty_N_go x s = ds +:+ s ∧ ds ≠ "" ∧ all_chars is_digit ds = true ∧
    ∀ acc b r, Py.int_digits acc b (ds +:+ r)
               = Py.int_digits (acc * 10 ^ N.of_nat (String.length ds) + x)%N true r.
Proof.
  induction (N.lt_wf_0 x) as [x _ IH]. intros Hx s.
  rewrite pretty_N_go_step by done.
  pose proof (N.mod_lt x 10 ltac:(done)) as Hmod.
  pose proof (digit_pretty_N_char _ Hmod) as Hdig.
  set (c := pretty_N_char (x `mod` 10)) in *.
  destruct (decide (x `div` 10 = 0)%N) as [Hz|Hnz].
  - rewrite Hz, pretty_N_go_0. exists (String c ""). split_and!; try done.
    + simpl. unfold is_digit. rewrite Hdig. by rewrite bool_decide_eq_true_2.
    + intros acc b r. rewrite sapp_cons, sapp_nil_l. simpl. rewrite Hdig.
      f_equal. pose proof (N.div_mod x 10 ltac:(done)) as Hx10.
      clear -Hx10 Hz. lia.
  - destruct (IH (x `div` 10)%N) with (s := String c s)
      as (ds & Heq & Hne & Hall & Hread).
    { apply N.div_lt; lia. }
    { by apply N.neq_0_lt_0. }
    exists (ds +:+ String c ""). split_and!.
    + by rewrite Heq, sapp_assoc.
    + destruct ds; [done|]. by rewrite sapp_cons.
    + rewrite all_chars_app, Hall. simpl. unfold is_digit. rewrite Hdig.
      by rewrite bool_decide_eq_true_2.
    + intros acc b r. rewrite sapp_assoc, sapp_cons, sapp_nil_l, Hread.
      simpl. rewrite Hdig. f_equal. rewrite slength_app. simpl.
      replace (N.of_nat (String.length ds + 1)) with (N.succ (N.of_nat (String.length ds))) by lia.
      rewrite N.pow_succ_r'. pose proof (N.div_mod x 10 ltac:(done)) as Hx10.
      clear -Hx10. lia.
Qed.

Lemma str_spec (z : Z) :
  ∃ ds, Py.str z = (if bool_decide (z < 0) then "-" else "") +:+ ds ∧
        ds ≠ "" ∧ all_chars is_digit ds = true ∧
        Py.int_digits 0 false ds = Some (Z.abs_N z).
Proof.
  destruct z as [|p|p].
  - exists "0". by split_and!.
  - destruct (pretty_N_go_digits (Npos p) ltac:(done) "") as (ds & Heq & Hne & Hall & Hread).
    exists ds. split_and!; try done.
    + rewrite bool_decide_eq_false_2 by lia. rewrite sapp_nil_l.
      unfold Py.str, pretty, pretty_Z, pretty, pretty_positive, pretty, pretty_N.
      rewrite decide_False by done. by rewrite Heq, sapp_nil_r.
    + specialize (Hread 0%N false ""). rewrite sapp_nil_r in Hread.
      rewrite Hread. simpl. f_equal.
  - destruct (pretty_N_go_digits (Npos p) ltac:(done) "") as (ds & Heq & Hne & Hall & Hread).
    exists ds. split_and!; try done.
    + rewrite bool_decide_eq_true_2 by lia.
      unfold Py.str, pretty, pretty_Z, pretty, pretty_positive, pretty, pretty_N.
      rewrite decide_False by done. by rewrite Heq, sapp_nil_r.
    + specialize (Hread 0%N false ""). rewrite sapp_nil_r in Hread.
      rewrite Hread. simpl. f_equal.
Qed.

Lemma str_chars (z : Z) : all_chars int_char (Py.str z) = true.
Proof.
  destruct (str_spec z) as (ds & -> & _ & Hall & _).
  rewrite all_chars_app. apply andb_true_iff. split.
  - by case_bool_decide.
  - revert Hall. apply all_chars_impl. intros c Hc. unfold int_char.
    by rewrite Hc.
Qed.

Lemma str_nonempty (z : Z) : ∃ c r, Py.str z = String c r ∧ int_char c = true.
Proof.
  pose proof (str_chars z) as Hall.
  destruct (str_spec z) as (ds & Heq & Hne & _ & _).
  destruct (Py.str z) as [|c r] eqn:E.
  - destruct ds; [done|]. by case_bool_decide.
  - exists c, r. split; [done|]. simpl in Hall. by apply andb_true_iff in Hall as [? _].
Qed.

End DecimalFacts.

(** * Facts about the id marker *)

Section MarkerFacts.

Lemma int_char_cases (c : ascii) :
  int_char c = true →
  Py.mem_char c Py.whitespace = false ∧ Py.mem_char c "# id = " = false ∧
  c ≠ Py.LF ∧ (is_digit c = true ∨ c = "-"%char).
Proof.
  destruct c as [[] [] [] [] [] [] [] []]; vm_compute; intros H;
    try discriminate H; split_and!; (done || (by left) || (by right)).
Qed.

Lemma str_no_LF (z : Z) :
  all_chars (λ c, negb (bool_decide (c = Py.LF))) (Py.str z) = true.
Proof.
  generalize (str_chars z). apply all_chars_impl. intros c Hc.
  apply int_char_cases in Hc as (_ & _ & Hc & _).
  by rewrite bool_decide_eq_false_2.
Qed.

(** [int(str(z)) == z] *)
Lemma int_str (z : Z) : Py.int (Py.str z) = Some z.
Proof.
  unfold Py.int.
  assert (Py.rstrip Py.whitespace (Py.lstrip Py.whitespace (Py.str z)) = Py.str z) as ->.
  { destruct (str_nonempty z) as (c & r & E & Hc).
    pose proof (str_chars z) as Hall. rewrite E in *.
    apply int_char_cases in Hc as (Hws & _).
    rewrite lstrip_stop by done. apply rstrip_id.
    revert Hall. apply all_chars_impl. intros d Hd.
    apply int_char_cases in Hd as (-> & _). done. }
  destruct (str_spec z) as (ds & -> & Hne & Hall & Hread).
  case_bool_decide as Hz.
  - rewrite sapp_cons, sapp_nil_l, Hread. simpl. f_equal. lia.
  - rewrite sapp_nil_l. destruct ds as [|c r]; [done|].
    assert (is_digit c = true) as Hc.
    { simpl in Hall. by apply andb_true_iff in Hall as [? _]. }
    transitivity (Z.of_N <$> Py.int_digits 0 false (String c r)).
    { clear -Hc.
      destruct c as [[] [] [] [] [] [] [] []]; vm_compute in Hc;
        try discriminate Hc; reflexivity. }
    rewrite Hread. simpl. f_equal. lia.
Qed.

Lemma marker_no_LF (z : Z) :
  all_chars (λ c, negb (bool_decide (c = Py.LF))) (marker z) = true.
Proof. unfold marker. rewrite all_chars_app, str_no_LF. done. Qed.

Lemma lstrip_marker (z : Z) : Py.lstrip "# id = " (marker z) = Py.str z.
Proof.
  unfold marker. rewrite lstrip_skip by done.
  destruct (str_nonempty z) as (c & r & -> & Hc).
  apply int_char_cases in Hc as (_ & Hm & _). by apply lstrip_stop.
Qed.

Lemma first_line_marker (z : Z) (tail : string) :
  tail = "" ∨ (∃ t, tail = Py.nl +:+ t) →
  head (Py.split Py.LF (marker z +:+ tail)) = Some (marker z).
Proof.
  intros [->|[t ->]].
  - rewrite sapp_nil_r, split_no_sep by apply marker_no_LF. done.
  - rewrite nl_app, split_app, split_no_sep by apply marker_no_LF. done.
Qed.

Lemma lstrip_nl_marker (z : Z) (tail : string) :
  Py.lstrip Py.nl (marker z +:+ tail) = marker z +:+ tail.
Proof. reflexivity. Qed.

Lemma lstrip_blank_lines (k : nat) (s : string) :
  Py.lstrip Py.nl (blank_lines k +:+ s) = Py.lstrip Py.nl s.
Proof.
  induction k as [|k IH]; [done|]. cbn [blank_lines]. rewrite sapp_cons.
  by rewrite <- IH.
Qed.

(** The extractor reads the id back from a marker line. *)
Lemma read_marker (z : Z) (tail : string) :
  tail = "" ∨ (∃ t, tail = Py.nl +:+ t) →
  Py.startswith (marker z +:+ tail) "# id = " = true ∧
  Py.int (Py.lstrip "# id = "
            (default "" (head (Py.split Py.LF (marker z +:+ tail))))) = Some z.
Proof.
  intros Htail. split.
  - unfold marker. rewrite sapp_assoc. apply startswith_app.
  - rewrite first_line_marker by done.
    change (Py.int (Py.lstrip "# id = " (marker z)) = Some z).
    by rewrite lstrip_marker, int_str.
Qed.

End MarkerFacts.

(** * Facts about the extractor *)

Section ExtractorFacts.
Implicit Types (c : Cell) (cs : list Cell) (outs : list Output).

Lemma is_error_output_type (o : Output) :
  is_error o = true ↔ output_type o = "error".
Proof. by destruct o. Qed.

Lemma scan_output_images st o :
  (scan_output st o).1.2 =
  st.1.2 ++ png_images [o].
Proof.
  destruct st as [[err images] n]. destruct o as [| data | |]; simpl;
    try by rewrite (right_id_L [] (++)).
  unfold png_images. simpl. destruct (data !! "image/png"); simpl; [done|].
  by rewrite (right_id_L [] (++)).
Qed.

Lemma fold_scan_images outs st :
  (fold_left scan_output outs st).1.2 = st.1.2 ++ png_images outs.
Proof.
  revert st. induction outs as [|o outs IH]; intros st; simpl.
  - by rewrite (right_id_L [] (++)).
  - rewrite IH, scan_output_images. rewrite <- (assoc_L (++)). f_equal.
    unfold png_images. simpl. by destruct (match o with DisplayData data => data !! "image/png" | _ => None end).
Qed.

Lemma fold_scan_no_error outs st :
  existsb is_error outs = false →
  (fold_left scan_output outs st).1.1 = st.1.1.
Proof.
  revert st. induction outs as [|o outs IH]; intros st; [done|]. simpl.
  rewrite orb_false_iff. intros [Ho Houts]. rewrite IH by done.
  destruct st as [[err images] n]. destruct o as [| data | |]; try done.
  simpl. by destruct (data !! "image/png").
Qed.

Lemma fold_scan_last_error pre ename evalue tb post st :
  existsb is_error post = false →
  (fold_left scan_output (pre ++ Error ename evalue tb :: post) st).1.1
  = ename +:+ ": " +:+ evalue.
Proof.
  intros Hpost. rewrite fold_left_app. simpl.
  rewrite fold_scan_no_error by done.
  by destruct (fold_left scan_output pre st) as [[err images] n].
Qed.

Lemma parse_cell_unmarked c : marked c = false → parse_cell c = Ok None.
Proof.
  unfold marked, parse_cell. intros H. apply andb_false_iff in H as [H|H].
  - by rewrite H.
  - rewrite H. by destruct (bool_decide _).
Qed.

Lemma parse_cell_marked c :
  marked c = true →
  parse_cell c =
  match Py.int (Py.lstrip "# id = "
          (default "" (head (Py.split Py.LF (Py.lstrip Py.nl (source c)))))) with
  | None => Raise ValueError
  | Some idx =>
      Ok (Some {| Outcome.id := idx;
                  Outcome.error := (scan (outputs c)).1.1;
                  Outcome.plots_generated := png_images (outputs c);
                  Outcome.has_plot := Nat.ltb 0 (length (png_images (outputs c))) |})
  end.
Proof.
  unfold marked, parse_cell. intros H. apply andb_true_iff in H as [H1 H2].
  rewrite H1, H2. simpl. destruct (Py.int _); [|done].
  pose proof (fold_scan_images (outputs c) ("", [], O)) as Himg.
  unfold scan. destruct (fold_left scan_output (outputs c) _) as [[err images] n].
  simpl in *. by subst.
Qed.

Lemma parse_cell_Some c r :
  parse_cell c = Ok (Some r) →
  marked c = true ∧
  Outcome.error r = (scan (outputs c)).1.1 ∧
  Outcome.plots_generated r = png_images (outputs c) ∧
  Outcome.has_plot r = Nat.ltb 0 (length (png_images (outputs c))).
Proof.
  intros H. destruct (marked c) eqn:Hm.
  - rewrite parse_cell_marked in H by done. destruct (Py.int _); [|done].
    by simplify_eq.
  - by rewrite parse_cell_unmarked in H.
Qed.

Lemma parse_cells_acc cs acc :
  parse_cells cs acc = (λ l, acc ++ l) <$> parse_cells cs [].
Proof.
  revert acc. induction cs as [|c cs IH]; intros acc; simpl.
  - by rewrite (right_id_L [] (++)).
  - destruct (parse_cell c) as [[r|]|e]; simpl; [|by apply IH|done].
    rewrite (IH (acc ++ [r])), (IH [r]).
    destruct (parse_cells cs []); simpl; [|done]. by rewrite <- (assoc_L (++)).
Qed.

(** Cells that are not marked leave no trace in the result. *)
Lemma parse_cells_filter cs :
  parse_cells cs [] = parse_cells (filter (λ c, marked c = true) cs) [].
Proof.
  induction cs as [|c cs IH]; [done|]. rewrite filter_cons.
  destruct (decide (marked c = true)) as [Hm|Hm].
  - simpl. destruct (parse_cell c) as [[r|]|e]; simpl; try done.
    by rewrite (parse_cells_acc cs), (parse_cells_acc (filter _ cs)), IH.
  - apply not_true_is_false in Hm. simpl. by rewrite parse_cell_unmarked.
Qed.

Lemma parse_cells_Ok cs res :
  parse_cells cs [] = Ok res ↔
  Forall2 (λ c r, parse_cell c = Ok (Some r)) (filter (λ c, marked c = true) cs) res.
Proof.
  revert res. induction cs as [|c cs IH]; intros res.
  - simpl. split; [intros [= <-]; constructor | by inversion 1].
  - rewrite filter_cons. destruct (decide (marked c = true)) as [Hm|Hm].
    + cbn [parse_cells]. destruct (parse_cell c) as [[r|]|e] eqn:Hc.
      * cbn. rewrite parse_cells_acc.
        destruct (parse_cells cs []) as [res'|e] eqn:Hcs; cbn.
        -- split.
           ++ intros [= <-]. constructor; [done|]. by apply IH.
           ++ intros (r' & res'' & Hr & Hres & ->)%Forall2_cons_inv_l.
              apply IH in Hres. congruence.
        -- split; [done|].
           intros (r' & res'' & Hr & Hres & ->)%Forall2_cons_inv_l.
           by apply IH in Hres.
      * rewrite parse_cell_marked in Hc by done. by destruct (Py.int _).
      * cbn. split; [done|].
        intros (r' & res'' & Hr & Hres & ->)%Forall2_cons_inv_l. congruence.
    + apply not_true_is_false in Hm. cbn [parse_cells].
      rewrite parse_cell_unmarked by done. cbn. apply IH.
Qed.

End ExtractorFacts.

(** * The extractor *)

(** C2 (as stated, refuted): with two error records in the outputs of a marked
    sub-unit, the error field of its Outcome is not the text of the first one. *)
Lemma first_error_does_not_win :
  ∃ r, parse_plots_notebook {| cells := [two_errors_cell] |} = Ok [r] ∧
       head (outputs two_errors_cell)
         = Some (Error "NameError" "name 'df' is not defined" []) ∧
       Outcome.error r = "ZeroDivisionError: division by zero" ∧
       Outcome.error r ≠ "NameError" +:+ ": " +:+ "name 'df' is not defined".
Proof. eexists. split_and!; [reflexivity|reflexivity|reflexivity|discriminate]. Qed.

(** C2 (amended): for every marked sub-unit whose outputs contain error
    records, the error field of its Outcome is ["<ename>: <evalue>"] of the
    LAST error record in output order, however many error records precede it. *)
Theorem last_error_wins (nb : Notebook) (res : list Outcome.t) :
  parse_plots_notebook nb = Ok res →
  Forall2 (λ c r, ∀ pre ename evalue tb post,
             outputs c = pre ++ Error ename evalue tb :: post →
             existsb is_error post = false →
             Outcome.error r = ename +:+ ": " +:+ evalue)
          (filter (λ c, marked c = true) (cells nb)) res.
Proof.
  intros H. apply parse_cells_Ok in H. induction H as [|c r cs rs Hc _ IH].
  - constructor.
  - constructor; [|exact IH].
    intros pre ename evalue tb post Houts Hpost.
    apply parse_cell_Some in Hc as (_ & -> & _). unfold scan. rewrite Houts.
    by apply fold_scan_last_error.
Qed.

Lemma last_error_wins_witness :
  parse_plots_notebook {| cells := [two_errors_cell] |}
  = Ok [{| Outcome.id := 8; Outcome.error := "ZeroDivisionError: division by zero";
           Outcome.plots_generated := []; Outcome.has_plot := false |}] ∧
  Forall2 (λ c r, ∀ pre ename evalue tb post,
             outputs c = pre ++ Error ename evalue tb :: post →
             existsb is_error post = false →
             Outcome.error r = ename +:+ ": " +:+ evalue)
          (filter (λ c, marked c = true) (cells {| cells := [two_errors_cell] |}))
          [{| Outcome.id := 8; Outcome.error := "ZeroDivisionError: division by zero";
              Outcome.plots_generated := []; Outcome.has_plot := false |}].
Proof.
  split; [reflexivity|].
  apply (last_error_wins {| cells := [two_errors_cell] |}). reflexivity.
Defined.

(** C3: for every marked sub-unit, [plots_generated] of its Outcome is the list
    of the image/png payloads of its display-data outputs, in emission order,
    and [has_plot] holds exactly when that list is not empty. *)
Theorem plots_generated_and_has_plot (nb : Notebook) (res : list Outcome.t) :
  parse_plots_notebook nb = Ok res →
  Forall2 (λ c r, Outcome.plots_generated r = png_images (outputs c) ∧
                  (Outcome.has_plot r = true ↔ Outcome.plots_generated r ≠ []))
          (filter (λ c, marked c = true) (cells nb)) res.
Proof.
  intros H. apply parse_cells_Ok in H. induction H as [|c r cs rs Hc _ IH].
  - constructor.
  - constructor; [|exact IH].
    apply parse_cell_Some in Hc as (_ & _ & -> & ->). split; [done|].
    destruct (png_images (outputs c)); simpl; [|done].
    split; [discriminate|done].
Qed.

Lemma plots_generated_and_has_plot_witness :
  parse_plots_notebook {| cells := [plots_then_error_cell; two_errors_cell] |}
  = Ok [{| Outcome.id := 7;
           Outcome.error := "ValueError: x and y must have same first dimension";
           Outcome.plots_generated := ["iVBORw0KGgo="; "R0lGODlh"];
           Outcome.has_plot := true |};
        {| Outcome.id := 8; Outcome.error := "ZeroDivisionError: division by zero";
           Outcome.plots_generated := []; Outcome.has_plot := false |}] ∧
  Forall2 (λ c r, Outcome.plots_generated r = png_images (outputs c) ∧
                  (Outcome.has_plot r = true ↔ Outcome.plots_generated r ≠ []))
          (filter (λ c, marked c = true)
                  (cells {| cells := [plots_then_error_cell; two_errors_cell] |}))
          [{| Outcome.id := 7;
              Outcome.error := "ValueError: x and y must have same first dimension";
              Outcome.plots_generated := ["iVBORw0KGgo="; "R0lGODlh"];
              Outcome.has_plot := true |};
           {| Outcome.id := 8; Outcome.error := "ZeroDivisionError: division by zero";
              Outcome.plots_generated := []; Outcome.has_plot := false |}].
Proof.
  split; [reflexivity|].
  apply (plots_generated_and_has_plot
           {| cells := [plots_then_error_cell; two_errors_cell] |}).
  reflexivity.
Defined.

(** C10: leading newlines are stripped before the test for the marker: a code
    sub-unit whose source is blank lines followed by [# id = <id>] (alone or
    with further lines) is recognised and yields the Outcome of that id, also
    when the marker is not at the very start of the source. *)
Theorem marker_found_after_blank_lines
    (k : nat) (z : Z) (rest : option string) (outs : list Output) :
  let src := blank_lines k +:+ marker z +:+ after_marker rest in
  let c := {| cell_type := "code"; source := src; outputs := outs |} in
  marked c = true ∧
  (∃ r, parse_plots_notebook {| cells := [c] |} = Ok [r] ∧ Outcome.id r = z) ∧
  Py.startswith (String Py.LF src) "# id = " = false ∧
  marked {| cell_type := "code"; source := String Py.LF src; outputs := outs |} = true.
Proof.
  intros src c.
  assert (after_marker rest = "" ∨ ∃ t, after_marker rest = Py.nl +:+ t) as Htail.
  { destruct rest; [right; by eexists|by left]. }
  destruct (read_marker z _ Htail) as [Hstart Hint].
  assert (Py.lstrip Py.nl src = marker z +:+ after_marker rest) as Hstrip.
  { unfold src. by rewrite lstrip_blank_lines. }
  assert (marked c = true) as Hm.
  { unfold marked, c. cbn [cell_type source]. by rewrite Hstrip, Hstart. }
  split_and!; [done| |done|].
  - unfold parse_plots_notebook. cbn [cells parse_cells].
    rewrite parse_cell_marked by done. unfold c at 1. cbn [source].
    rewrite Hstrip, Hint. by eexists.
  - unfold marked. cbn [cell_type source].
    change (Py.lstrip Py.nl (String Py.LF src)) with (Py.lstrip Py.nl src).
    by rewrite Hstrip, Hstart.
Qed.

(** * Facts about the assembler *)

Section AssemblerFacts.
Implicit Types (fs : FileSystem) (self : VisGenerator) (item : Item.t).

Lemma traverse_Ok {A B : Type} (f : A → result B) (l : list A) (bs : list B) :
  traverse f l = Ok bs ↔ Forall2 (λ a b, f a = Ok b) l bs.
Proof.
  revert bs. induction l as [|a l IH]; intros bs; simpl.
  - split; [intros [= <-]; constructor|by inversion 1].
  - destruct (f a) as [b|e] eqn:Ha; simpl.
    + destruct (traverse f l) as [bs'|e] eqn:Hl; simpl.
      * split.
        -- intros [= <-]. constructor; [done|]. by apply IH.
        -- intros (b' & bs'' & Hb & Hbs & ->)%Forall2_cons_inv_l.
           apply IH in Hbs. congruence.
      * split; [done|].
        intros (b' & bs'' & Hb & Hbs & ->)%Forall2_cons_inv_l.
        by apply IH in Hbs.
    + split; [done|].
      intros (b' & bs'' & Hb & Hbs & ->)%Forall2_cons_inv_l. congruence.
Qed.

Lemma traverse_Raise {A B : Type} (f : A → result B) (l : list A) (P : PyError → Prop) :
  (∀ a, a ∈ l → (∃ b, f a = Ok b) ∨ (∃ e, f a = Raise e ∧ P e)) →
  (∃ a e, a ∈ l ∧ f a = Raise e) →
  ∃ e, traverse f l = Raise e ∧ P e.
Proof.
  induction l as [|a l IH]; intros Hall (a' & e' & Hin & He').
  - by apply elem_of_nil in Hin.
  - simpl. destruct (Hall a ltac:(left)) as [[b Hb]|(e & He & HP)].
    + rewrite Hb. simpl.
      destruct IH as (e & -> & HP).
      * intros x Hx. apply Hall. by right.
      * apply elem_of_cons in Hin as [->|Hin]; [congruence|eauto].
      * eauto.
    + rewrite He. eauto.
Qed.

Lemma apply_tolist_nonempty {A B : Type} (f : A → result B) (l : list A) :
  l ≠ [] → apply_tolist f l = traverse f l.
Proof. by destruct l. Qed.

Lemma apply_tolist_Ok {A B : Type} (f : A → result B) (l : list A) (bs : list B) :
  apply_tolist f l = Ok bs ↔ l ≠ [] ∧ traverse f l = Ok bs.
Proof.
  destruct l as [|a l]; [by split; [|intros [? _]]|].
  unfold apply_tolist. by split; [|intros [_ ?]].
Qed.

Lemma check_csv_Ok fs self dataset :
  check_csv fs self dataset = Ok tt ↔
  Forall (λ item, path_exists fs (csv_path_of self item) = true) dataset.
Proof.
  induction dataset as [|item dataset IH]; simpl.
  - split; [constructor|done].
  - destruct (path_exists fs (csv_path_of self item)) eqn:He; simpl.
    + rewrite IH. split; [by constructor|by inversion 1].
    + split; [done|]. inversion 1; congruence.
Qed.

Lemma check_csv_missing fs self dataset item :
  item ∈ dataset → path_exists fs (csv_path_of self item) = false →
  ∃ msg, check_csv fs self dataset = Raise (FileNotFoundError msg).
Proof.
  induction dataset as [|item' dataset IH]; intros Hin Hmiss.
  - by apply elem_of_nil in Hin.
  - simpl. destruct (path_exists fs (csv_path_of self item')) eqn:He; simpl.
    + apply elem_of_cons in Hin as [->|Hin]; [congruence|auto].
    + eauto.
Qed.

Lemma init_Ok fs output_folder dataset csv_dir config self :
  init fs output_folder dataset csv_dir config = Ok self →
  self = {| output_folder := output_folder;
            plots_nb_path := joinpath output_folder "all_plots.ipynb";
            config := config;
            csv_folder := csv_dir |} ∧
  Forall (λ item, path_exists fs (csv_path_of self item) = true) dataset.
Proof.
  unfold init. destruct (check_csv _ _ _) as [[]|e] eqn:Hc; [|done].
  simpl. intros [= <-]. split; [done|]. by apply check_csv_Ok.
Qed.

Lemma generate_code_missing fs self item plotting_lib :
  path_exists fs (csv_path_of self item) = false →
  ∃ msg, generate_code fs self item plotting_lib = Raise (FileNotFoundError msg).
Proof. intros H. unfold generate_code. rewrite H. simpl. eauto. Qed.

Lemma generate_code_cases fs self item plotting_lib :
  (∃ code, generate_code fs self item plotting_lib = Ok code) ∨
  (∃ e, generate_code fs self item plotting_lib = Raise e ∧
        ∃ msg, e = FileNotFoundError msg).
Proof.
  unfold generate_code. destruct (path_exists fs _); simpl; eauto.
Qed.

(** The blocks of a snippet, in order. *)
Lemma generate_code_blocks fs self item plotting_lib :
  path_exists fs (csv_path_of self item) = true →
  generate_code fs self item plotting_lib
  = Ok (Py.join Py.nl
          (marker (Item.id item) :: setup_lines plotting_lib ++
           [data_load_code self item; Item.code item] ++
           teardown_lines plotting_lib ++ ["%reset -f"])).
Proof.
  intros H. unfold generate_code, setup_lines, teardown_lines, is_mpl_family.
  rewrite H. cbn [negb].
  destruct (Py.contains "matplotlib" plotting_lib),
           (Py.contains "seaborn" plotting_lib),
           (Py.contains "plotly" plotting_lib); reflexivity.
Qed.

Lemma generate_code_marker fs self item plotting_lib code :
  generate_code fs self item plotting_lib = Ok code →
  ∃ t, code = marker (Item.id item) +:+ Py.nl +:+ t.
Proof.
  destruct (path_exists fs (csv_path_of self item)) eqn:He.
  - rewrite generate_code_blocks by done. intros [= <-].
    destruct (setup_lines plotting_lib) as [|x l]; eexists; apply pyjoin_cons.
  - destruct (generate_code_missing fs self item plotting_lib He) as [msg ->].
    done.
Qed.

(** A generated snippet is a marked sub-unit, and its id is read back. *)
Lemma parse_generated_cell fs self item plotting_lib code outs c :
  generate_code fs self item plotting_lib = Ok code →
  cell_type c = "code" → source c = code → outputs c = outs →
  marked c = true ∧ ∃ r, parse_cell c = Ok (Some r) ∧ Outcome.id r = Item.id item.
Proof.
  intros [t ->]%generate_code_marker Htype Hsrc Houts.
  destruct (read_marker (Item.id item) (Py.nl +:+ t)) as [Hstart Hint]; [eauto|].
  assert (marked c = true) as Hm.
  { unfold marked. rewrite Htype, Hsrc. by rewrite lstrip_nl_marker, Hstart. }
  split; [done|]. rewrite parse_cell_marked by done.
  rewrite Hsrc, lstrip_nl_marker, Hint. by eexists.
Qed.

End AssemblerFacts.

(** * The assembler and the unit builder *)

Lemma lines_of_plain_blocks (l : list string) :
  Forall (λ s, all_chars (λ c, negb (bool_decide (c = Py.LF))) s = true) l →
  mjoin (Py.split Py.LF <$> l) = l.
Proof.
  induction 1 as [|s l Hs _ IH]; [done|].
  rewrite fmap_cons. cbn [mjoin list_join]. rewrite split_no_sep by done.
  simpl. f_equal. exact IH.
Qed.

Lemma setup_lines_plain (plotting_lib : string) :
  Forall (λ s, all_chars (λ c, negb (bool_decide (c = Py.LF))) s = true)
         (setup_lines plotting_lib).
Proof.
  unfold setup_lines.
  destruct (is_mpl_family plotting_lib), (Py.contains "plotly" plotting_lib);
    repeat constructor.
Qed.

Lemma teardown_lines_plain (plotting_lib : string) :
  Forall (λ s, all_chars (λ c, negb (bool_decide (c = Py.LF))) s = true)
         (teardown_lines plotting_lib).
Proof.
  unfold teardown_lines.
  destruct (is_mpl_family plotting_lib), (Py.contains "seaborn" plotting_lib);
    repeat constructor.
Qed.

(** C6: the first line of an assembled snippet is the marker [# id = <id>] of
    its item, from which the id is read back; the set-up lines of the library
    come before the data-loading and the generated code, the tear-down lines
    after them, and the reset of the namespace is the last line. *)
Theorem generate_code_layout
    (fs : FileSystem) (self : VisGenerator) (item : Item.t) (plotting_lib : string) :
  path_exists fs (csv_path_of self item) = true →
  ∃ code,
    generate_code fs self item plotting_lib = Ok code ∧
    Py.split Py.LF code =
      ["# id = " +:+ Py.str (Item.id item)] ++ setup_lines plotting_lib ++
      Py.split Py.LF (data_load_code self item) ++
      Py.split Py.LF (Item.code item) ++
      teardown_lines plotting_lib ++ ["%reset -f"] ∧
    head (Py.split Py.LF code) = Some ("# id = " +:+ Py.str (Item.id item)) ∧
    Py.int (Py.lstrip "# id = " ("# id = " +:+ Py.str (Item.id item)))
    = Some (Item.id item) ∧
    last (Py.split Py.LF code) = Some "%reset -f".
Proof.
  intros Hcsv. rewrite generate_code_blocks by done. eexists. split; [done|].
  assert (Py.split Py.LF
            (Py.join Py.nl
               (marker (Item.id item) :: setup_lines plotting_lib ++
                [data_load_code self item; Item.code item] ++
                teardown_lines plotting_lib ++ ["%reset -f"]))
          = [marker (Item.id item)] ++ setup_lines plotting_lib ++
            Py.split Py.LF (data_load_code self item) ++
            Py.split Py.LF (Item.code item) ++
            teardown_lines plotting_lib ++ ["%reset -f"]) as ->.
  { rewrite split_join by done.
    rewrite fmap_cons, !fmap_app. cbn [mjoin list_join].
    rewrite split_no_sep by apply marker_no_LF.
    change (list_join (list string)) with (@mjoin list _ string).
    rewrite !join_app.
    rewrite (lines_of_plain_blocks (setup_lines _)) by apply setup_lines_plain.
    rewrite (lines_of_plain_blocks (teardown_lines _)) by apply teardown_lines_plain.
    cbn [fmap list_fmap mjoin list_join app].
    rewrite (right_id_L [] (++)). rewrite <- !(assoc_L (++)). reflexivity. }
  split_and!; [done|done| |].
  - fold (marker (Item.id item)). by rewrite lstrip_marker, int_str.
  - rewrite !(assoc_L (++)). apply last_snoc.
Qed.

Lemma generate_code_layout_witness :
  path_exists demo_fs (csv_path_of demo_generator {| Item.id := 7; Item.code_data := "df = pd.read_csv('data.csv')"; Item.code := "df.plot()" |}) = true ∧
  ∃ code,
    generate_code demo_fs demo_generator
      {| Item.id := 7; Item.code_data := "df = pd.read_csv('data.csv')";
         Item.code := "df.plot()" |} "seaborn plotly" = Ok code ∧
    Py.split Py.LF code =
      ["# id = " +:+ Py.str 7] ++ setup_lines "seaborn plotly" ++
      Py.split Py.LF (data_load_code demo_generator
         {| Item.id := 7; Item.code_data := "df = pd.read_csv('data.csv')";
            Item.code := "df.plot()" |}) ++
      Py.split Py.LF "df.plot()" ++
      teardown_lines "seaborn plotly" ++ ["%reset -f"] ∧
    head (Py.split Py.LF code) = Some ("# id = " +:+ Py.str 7) ∧
    Py.int (Py.lstrip "# id = " ("# id = " +:+ Py.str 7)) = Some 7 ∧
    last (Py.split Py.LF code) = Some "%reset -f".
Proof.
  split; [reflexivity|].
  apply (generate_code_layout demo_fs demo_generator
           {| Item.id := 7; Item.code_data := "df = pd.read_csv('data.csv')";
              Item.code := "df.plot()" |} "seaborn plotly").
  reflexivity.
Defined.

Lemma build_plots_notebook_Ok
    (fs : FileSystem) (self : VisGenerator) (cfg : DictConfig)
    (dataset : list Item.t) (nb : Notebook) :
  config self = Some cfg →
  build_plots_notebook fs self dataset = Ok nb →
  ∃ blocks,
    Forall2 (λ item block,
               generate_code fs self item (Py.lower (plotting_lib cfg)) = Ok block)
            dataset blocks ∧
    nb = build_new_nb
           ((if Py.contains "lets-plot" (Py.lower (plotting_lib cfg))
             then [setup_block] else []) ++ blocks).
Proof.
  intros Hcfg. unfold build_plots_notebook. rewrite Hcfg. cbn -[apply_tolist].
  destruct (apply_tolist _ dataset) as [blocks|e] eqn:Ht; cbn; [|done].
  intros [= <-]. exists blocks. split; [|done].
  apply apply_tolist_Ok in Ht as [_ Ht]. by apply traverse_Ok.
Qed.

Lemma build_plots_notebook_returns
    (fs : FileSystem) (self : VisGenerator) (cfg : DictConfig) (dataset : list Item.t) :
  config self = Some cfg →
  dataset ≠ [] →
  Forall (λ item, path_exists fs (csv_path_of self item) = true) dataset →
  ∃ nb, build_plots_notebook fs self dataset = Ok nb.
Proof.
  intros Hcfg Hne Hall. unfold build_plots_notebook. rewrite Hcfg. cbn -[apply_tolist].
  rewrite apply_tolist_nonempty by done. clear Hne.
  destruct (traverse _ dataset) as [blocks|e] eqn:Ht; cbn; [by eexists|].
  exfalso. revert e Ht. induction Hall as [|item dataset Hitem _ IH]; [done|].
  intros e. cbn [traverse]. rewrite generate_code_blocks by done. cbn.
  destruct (traverse _ dataset) as [bs|e'] eqn:Ht; cbn; [done|].
  intros _. by eapply IH.
Qed.

(** C7: the notebook built from [n] items holds exactly [n] code sub-units, one
    per item in the order of the items; with the lets-plot tag it holds [n+1],
    the one-time set-up sub-unit first and the [n] item sub-units after it.
    This holds for a generator in any state with a configuration, whatever its
    notebook path, once the data files of the items exist; the dataset has at
    least one row (on a frame without rows [build_plots] raises, see
    [build_plots_notebook_empty]). *)
Theorem build_plots_notebook_cells
    (fs : FileSystem) (self : VisGenerator) (cfg : DictConfig)
    (dataset : list Item.t) :
  config self = Some cfg →
  dataset ≠ [] →
  Forall (λ item, path_exists fs (csv_path_of self item) = true) dataset →
  ∃ nb blocks,
    build_plots_notebook fs self dataset = Ok nb ∧
    Forall2 (λ item block,
               generate_code fs self item (Py.lower (plotting_lib cfg)) = Ok block)
            dataset blocks ∧
    Forall (λ c, cell_type c = "code") (cells nb) ∧
    source <$> cells nb =
      (if Py.contains "lets-plot" (Py.lower (plotting_lib cfg))
       then [setup_block] else []) ++ blocks ∧
    length (cells nb) =
      ((if Py.contains "lets-plot" (Py.lower (plotting_lib cfg)) then 1 else 0)
       + length dataset)%nat.
Proof.
  intros Hcfg Hne Hcsv.
  destruct (build_plots_notebook_returns fs self cfg dataset Hcfg Hne Hcsv) as [nb Hnb].
  destruct (build_plots_notebook_Ok fs self cfg dataset nb Hcfg Hnb)
    as (blocks & Hblocks & ->).
  exists (build_new_nb ((if Py.contains "lets-plot" (Py.lower (plotting_lib cfg))
                             then [setup_block] else []) ++ blocks)), blocks.
  split_and!; [done|done| | |].
  - unfold build_new_nb. cbn [cells]. apply Forall_fmap, Forall_true. done.
  - unfold build_new_nb. cbn [cells]. rewrite <- list_fmap_compose.
    apply list_fmap_id.
  - unfold build_new_nb. cbn [cells].
    rewrite length_fmap, length_app, (Forall2_length _ _ _ Hblocks).
    by destruct (Py.contains _ _).
Qed.

Lemma build_plots_notebook_cells_witness :
  config lets_plot_generator = Some {| plotting_lib := "Lets-Plot" |} ∧
  demo_dataset ≠ [] ∧
  Forall (λ item, path_exists demo_fs (csv_path_of lets_plot_generator item) = true)
         demo_dataset ∧
  ∃ nb blocks,
    build_plots_notebook demo_fs lets_plot_generator demo_dataset = Ok nb ∧
    Forall2 (λ item block,
               generate_code demo_fs lets_plot_generator item (Py.lower "Lets-Plot")
               = Ok block)
            demo_dataset blocks ∧
    Forall (λ c, cell_type c = "code") (cells nb) ∧
    source <$> cells nb =
      (if Py.contains "lets-plot" (Py.lower "Lets-Plot")
       then [setup_block] else []) ++ blocks ∧
    length (cells nb) =
      ((if Py.contains "lets-plot" (Py.lower "Lets-Plot") then 1 else 0)
       + length demo_dataset)%nat.
Proof.
  assert (demo_dataset ≠ []) as Hne by done.
  assert (Forall (λ item, path_exists demo_fs (csv_path_of lets_plot_generator item)
                          = true) demo_dataset) as Hcsv
    by (repeat constructor).
  split_and!; [reflexivity|exact Hne|exact Hcsv|].
  exact (build_plots_notebook_cells demo_fs lets_plot_generator
           {| plotting_lib := "Lets-Plot" |} demo_dataset eq_refl Hne Hcsv).
Defined.

(** On a dataset without rows nothing is built: [apply] returns a frame, and
    the call of [tolist] on it raises. *)
Lemma build_plots_notebook_empty (fs : FileSystem) (self : VisGenerator) :
  is_Some (config self) →
  build_plots_notebook fs self [] = Raise AttributeError.
Proof. intros [cfg Hcfg]. unfold build_plots_notebook. by rewrite Hcfg. Qed.

(** C8: when the data file [data-<id>.csv] of an item of the dataset is
    missing, the construction of the harness raises [FileNotFoundError] (the
    check runs over every item, before anything is assembled), and so does the
    assembly of that item, and with it the assembly of the whole unit. *)
Theorem missing_csv_raises
    (fs : FileSystem) (output_folder csv_dir : string) (cfg : option DictConfig)
    (dataset : list Item.t) (item : Item.t) :
  item ∈ dataset →
  path_exists fs (joinpath csv_dir ("data-" +:+ Py.str (Item.id item) +:+ ".csv"))
  = false →
  (∃ msg, init fs output_folder dataset csv_dir cfg = Raise (FileNotFoundError msg)) ∧
  (∀ self plotting_lib,
     csv_folder self = csv_dir →
     (∃ msg, generate_code fs self item plotting_lib = Raise (FileNotFoundError msg)) ∧
     (is_Some (config self) →
      ∃ msg, build_plots_notebook fs self dataset = Raise (FileNotFoundError msg))).
Proof.
  intros Hin Hmiss. split.
  - unfold init.
    edestruct (check_csv_missing fs) as [msg ->]; [exact Hin|exact Hmiss|].
    by eexists.
  - intros self lib Hdir.
    assert (path_exists fs (csv_path_of self item) = false) as Hmiss'.
    { unfold csv_path_of. by rewrite Hdir. }
    split; [by apply generate_code_missing|].
    intros [c Hc]. unfold build_plots_notebook. rewrite Hc. cbn -[apply_tolist].
    rewrite apply_tolist_nonempty by (intros ->; by apply elem_of_nil in Hin).
    edestruct (traverse_Raise
                 (λ item, generate_code fs self item (Py.lower (plotting_lib c)))
                 dataset (λ e, ∃ msg, e = FileNotFoundError msg))
      as (e & -> & msg & ->).
    + intros a _. apply generate_code_cases.
    + destruct (generate_code_missing fs self item (Py.lower (plotting_lib c)) Hmiss')
        as [msg Hmsg]. eauto.
    + by eexists.
Qed.

Lemma missing_csv_raises_witness :
  {| Item.id := 9; Item.code_data := "pd.read_csv('data.csv')"; Item.code := "df.plot()" |}
    ∈ demo_dataset ++
      [{| Item.id := 9; Item.code_data := "pd.read_csv('data.csv')"; Item.code := "df.plot()" |}] ∧
  path_exists demo_fs (joinpath "data" ("data-" +:+ Py.str 9 +:+ ".csv")) = false ∧
  (∃ msg, init demo_fs "out"
            (demo_dataset ++
             [{| Item.id := 9; Item.code_data := "pd.read_csv('data.csv')"; Item.code := "df.plot()" |}])
            "data" (Some demo_config) = Raise (FileNotFoundError msg)) ∧
  (∀ self plotting_lib,
     csv_folder self = "data" →
     (∃ msg, generate_code demo_fs self
               {| Item.id := 9; Item.code_data := "pd.read_csv('data.csv')"; Item.code := "df.plot()" |}
               plotting_lib = Raise (FileNotFoundError msg)) ∧
     (is_Some (config self) →
      ∃ msg, build_plots_notebook demo_fs self
               (demo_dataset ++
                [{| Item.id := 9; Item.code_data := "pd.read_csv('data.csv')"; Item.code := "df.plot()" |}])
             = Raise (FileNotFoundError msg))).
Proof.
  assert ({| Item.id := 9; Item.code_data := "pd.read_csv('data.csv')"; Item.code := "df.plot()" |}
            ∈ demo_dataset ++
              [{| Item.id := 9; Item.code_data := "pd.read_csv('data.csv')"; Item.code := "df.plot()" |}])
    as Hin.
  { apply elem_of_app. right. apply list_elem_of_singleton. reflexivity. }
  assert (path_exists demo_fs (joinpath "data" ("data-" +:+ Py.str 9 +:+ ".csv")) = false)
    as Hmiss by reflexivity.
  split; [exact Hin|]. split; [exact Hmiss|].
  exact (missing_csv_raises demo_fs "out" "data" (Some demo_config) _ _ Hin Hmiss).
Defined.

(** * From the built unit to the extracted Outcomes *)

Lemma build_plots_notebook_inv
    (fs : FileSystem) (self : VisGenerator) (dataset : list Item.t) (built : Notebook) :
  build_plots_notebook fs self dataset = Ok built →
  ∃ cfg blocks,
    config self = Some cfg ∧
    Forall2 (λ item block,
               generate_code fs self item (Py.lower (plotting_lib cfg)) = Ok block)
            dataset blocks ∧
    built = build_new_nb
              ((if Py.contains "lets-plot" (Py.lower (plotting_lib cfg))
                then [setup_block] else []) ++ blocks).
Proof.
  intros H. destruct (config self) as [cfg|] eqn:Hcfg.
  - destruct (build_plots_notebook_Ok fs self cfg dataset built Hcfg H)
      as (blocks & ? & ?). by exists cfg, blocks.
  - unfold build_plots_notebook in H. by rewrite Hcfg in H.
Qed.

Lemma parse_item_cells
    (fs : FileSystem) (self : VisGenerator) (plotting_lib : string)
    (dataset : list Item.t) (cs : list Cell) :
  Forall2 (λ item c, cell_type c = "code" ∧
                     generate_code fs self item plotting_lib = Ok (source c))
          dataset cs →
  filter (λ c, marked c = true) cs = cs ∧
  ∃ res, parse_cells cs [] = Ok res ∧ Outcome.id <$> res = Item.id <$> dataset.
Proof.
  induction 1 as [|item c dataset cs [Htype Hcode] _ (Hfilter & res & Hres & Hids)].
  - split; [done|]. by exists [].
  - destruct (parse_generated_cell fs self item plotting_lib (source c) (outputs c) c)
      as (Hm & r & Hr & Hid); [done..|].
    split.
    + rewrite filter_cons, decide_True by done. by rewrite Hfilter.
    + exists (r :: res). cbn [parse_cells]. rewrite Hr. cbn.
      rewrite parse_cells_acc, Hres. cbn. split; [done|]. by rewrite Hid, Hids.
Qed.

(** What an execution of a built unit holds: the sub-units of the items, each
    with the code of its item, after the set-up sub-unit if there is one. *)
Lemma executed_unit_cells
    (fs : FileSystem) (self : VisGenerator) (dataset : list Item.t)
    (built nb : Notebook) :
  build_plots_notebook fs self dataset = Ok built →
  same_code built nb →
  ∃ cfg prefix cs,
    config self = Some cfg ∧
    cells nb = prefix ++ cs ∧
    Forall (λ c, marked c = false) prefix ∧
    Forall2 (λ item c, cell_type c = "code" ∧
                       generate_code fs self item (Py.lower (plotting_lib cfg))
                       = Ok (source c))
            dataset cs.
Proof.
  intros (cfg & blocks & Hcfg & Hblocks & ->)%build_plots_notebook_inv Hsame.
  unfold same_code, build_new_nb in Hsame. cbn [cells] in Hsame.
  rewrite fmap_app in Hsame.
  apply Forall2_app_inv_l in Hsame as (prefix & cs & Hprefix & Hcs & Hnb).
  exists cfg, prefix, cs. split_and!; [done|done| |].
  - destruct (Py.contains "lets-plot" _).
    + apply Forall2_fmap_l in Hprefix.
      apply Forall2_cons_inv_l in Hprefix as (c & l & [Ht Hs] & Hnil & ->).
      apply Forall2_nil_inv_l in Hnil as ->. constructor; [|constructor].
      unfold marked. cbn [new_code_cell cell_type source] in Ht, Hs.
      rewrite Ht, Hs. reflexivity.
    + apply Forall2_nil_inv_l in Hprefix as ->. constructor.
  - apply Forall2_fmap_l in Hcs. clear -Hblocks Hcs.
    revert cs Hcs. induction Hblocks as [|item block dataset blocks Hb _ IH];
      intros cs Hcs.
    + apply Forall2_nil_inv_l in Hcs as ->. constructor.
    + apply Forall2_cons_inv_l in Hcs as (c & cs' & [Ht Hs] & Hcs & ->).
      cbn [new_code_cell cell_type source] in Ht, Hs.
      constructor; [|by apply IH]. by rewrite Ht, Hs.
Qed.

Lemma filter_unmarked_prefix (prefix cs : list Cell) :
  Forall (λ c, marked c = false) prefix →
  filter (λ c, marked c = true) (prefix ++ cs) = filter (λ c, marked c = true) cs.
Proof.
  induction 1 as [|c prefix Hc _ IH]; [done|].
  cbn [app]. rewrite filter_cons, decide_False by congruence. exact IH.
Qed.

(** C9: extraction considers the marked sub-units only: the others, such as
    the set-up sub-unit, non-code cells and stray cells, change neither the
    result nor its success; and from an executed unit of the pipeline it
    returns the ids of the items of the dataset, in order: no id is invented. *)
Theorem extraction_invents_no_id
    (fs : FileSystem) (self : VisGenerator) (dataset : list Item.t)
    (built nb : Notebook) :
  build_plots_notebook fs self dataset = Ok built →
  same_code built nb →
  (∀ any : Notebook,
     parse_plots_notebook any
     = parse_plots_notebook {| cells := filter (λ c, marked c = true) (cells any) |} ∧
     (Forall (λ c, marked c = false) (cells any) → parse_plots_notebook any = Ok [])) ∧
  marked (new_code_cell setup_block) = false ∧
  ∃ res,
    parse_plots_notebook nb = Ok res ∧
    Outcome.id <$> res = Item.id <$> dataset ∧
    ∀ r, r ∈ res → ∃ item, item ∈ dataset ∧ Item.id item = Outcome.id r.
Proof.
  intros Hbuilt Hsame. split_and!.
  - intros any. unfold parse_plots_notebook. cbn [cells]. split.
    + apply parse_cells_filter.
    + intros Hall. rewrite parse_cells_filter.
      replace (filter (λ c, marked c = true) (cells any)) with (@nil Cell); [done|].
      symmetry. rewrite <- (right_id_L [] (++) (cells any)).
      by rewrite filter_unmarked_prefix.
  - reflexivity.
  - destruct (executed_unit_cells fs self dataset built nb Hbuilt Hsame)
      as (cfg & prefix & cs & Hcfg & Hnb & Hprefix & Hcs).
    destruct (parse_item_cells _ _ _ _ _ Hcs) as (Hfilter & res & Hres & Hids).
    exists res. split_and!; [|done|].
    + unfold parse_plots_notebook. rewrite parse_cells_filter, Hnb.
      rewrite filter_unmarked_prefix, Hfilter by done. exact Hres.
    + intros r Hr.
      assert (Outcome.id r ∈ Item.id <$> dataset) as Hin.
      { rewrite <- Hids. by apply list_elem_of_fmap_2. }
      apply list_elem_of_fmap in Hin as (item & Hid & Hitem). eauto.
Qed.

Lemma extraction_invents_no_id_witness :
  build_plots_notebook demo_fs demo_generator demo_dataset = Ok demo_built ∧
  same_code demo_built demo_executed ∧
  ∃ res,
    parse_plots_notebook demo_executed = Ok res ∧
    Outcome.id <$> res = Item.id <$> demo_dataset ∧
    ∀ r, r ∈ res → ∃ item, item ∈ demo_dataset ∧ Item.id item = Outcome.id r.
Proof.
  assert (build_plots_notebook demo_fs demo_generator demo_dataset = Ok demo_built)
    as Hbuilt by reflexivity.
  assert (same_code demo_built demo_executed) as Hsame
    by (repeat constructor).
  split; [exact Hbuilt|]. split; [exact Hsame|].
  apply (extraction_invents_no_id demo_fs demo_generator demo_dataset
           demo_built demo_executed Hbuilt Hsame).
Defined.

(** The scenario of the specification, run through the extractor. *)
Example demo_outcomes :
  parse_plots_notebook demo_executed
  = Ok [ {| Outcome.id := 7; Outcome.error := "";
            Outcome.plots_generated := ["iVBORw0KGgo="]; Outcome.has_plot := true |};
         {| Outcome.id := 8; Outcome.error := "ZeroDivisionError: division by zero";
            Outcome.plots_generated := []; Outcome.has_plot := false |} ].
Proof. reflexivity. Qed.

(** * File versioning *)

Section Versioning.
Variable fs : FileSystem.
Variable base : Path.

Lemma indexed_name (i : nat) :
  name (indexed base i)
  = stem base +:+ "_" +:+ Py.str (Z.of_nat i) +:+ suffix base.
Proof. unfold indexed, with_stem. cbn [name]. by rewrite !sapp_assoc. Qed.

Lemma indexed_inj : Inj (=) (=) (indexed base).
Proof.
  intros i j H. apply (f_equal name) in H. rewrite !indexed_name in H.
  apply (inj (String.app _)) in H. apply (inj (String.app _)) in H.
  apply sapp_inj_r in H. unfold Py.str in H. apply (inj pretty) in H. lia.
Qed.

(** No more candidates can exist than there are files. *)
Lemma existing_candidates_bound (n : nat) :
  (∀ j, (j < n)%nat → indexed base j ∈ fs) → (n ≤ size fs)%nat.
Proof.
  intros Hall.
  assert (NoDup (indexed base <$> seq 0 n)) as Hnodup.
  { apply NoDup_fmap_2; [apply indexed_inj|apply NoDup_seq]. }
  rewrite <- (length_seq n 0) at 1.
  rewrite <- (length_fmap (indexed base)).
  rewrite <- (size_list_to_set (C := gset Path)) by done.
  apply subseteq_size. intros p Hp. apply elem_of_list_to_set in Hp.
  apply list_elem_of_fmap in Hp as (j & -> & Hj). apply elem_of_seq in Hj.
  apply Hall. lia.
Qed.

(** The loop stops at the first candidate that does not exist. *)
Lemma add_index_loop_spec (fuel i : nat) (last : option Path) :
  (∀ j, (j < i)%nat → indexed base j ∈ fs) →
  (size fs ≤ i + fuel)%nat →
  ∃ k, (i ≤ k)%nat ∧
       (indexed base k ∉ fs) ∧
       (∀ j, (j < k)%nat → indexed base j ∈ fs) ∧
       (add_index_loop fs base fuel i (indexed base i) last
        = Some (indexed base k,
                if decide (k = i) then last else Some (indexed base (Nat.pred k)))).
Proof.
  revert i last. induction fuel as [|fuel IH]; intros i last Hbelow Hfuel.
  - cbn [add_index_loop]. unfold path_exists. case_bool_decide as Hin.
    + exfalso. assert (S i ≤ size fs)%nat as Hb; [|lia].
      apply existing_candidates_bound. intros j Hj.
      destruct (decide (j = i)) as [->|]; [done|]. apply Hbelow. lia.
    + exists i. split_and!; [done|done|done|]. by rewrite decide_True.
  - cbn [add_index_loop]. unfold path_exists. case_bool_decide as Hin.
    + destruct (IH (S i) (Some (indexed base i))) as (k & Hk & Hfree & Hall & ->).
      * intros j Hj. destruct (decide (j = i)) as [->|]; [done|].
        apply Hbelow. lia.
      * lia.
      * exists k. split_and!; [lia|done|done|].
        rewrite (decide_False (P := k = i)) by lia.
        case_decide as Hk'; [|done]. subst k. done.
    + exists i. split_and!; [done|done|done|]. by rewrite decide_True.
Qed.

End Versioning.

(** C4: for a file name of one component and a postfix without a slash (any
    other postfix makes [with_stem] raise), [add_index_to_filename] returns the
    candidate path of the first index [0, 1, 2, ...] that no existing file
    carries, found by probing from 0 on; the returned path does not exist; when
    the files of the indices [0..m] exist and the next one does not, the index
    is [m+1], and it is 0 when the file of index 0 does not exist. *)
Theorem add_index_to_filename_first_unused
    (fs : FileSystem) (folder filename postfix : string) :
  one_component filename = true →
  Py.contains "/" postfix = false →
  ∃ k : nat,
    add_index_to_filename fs folder filename postfix
    = Some (indexed (results_file_base folder filename postfix) k,
            if decide (k = O) then None
            else Some (indexed (results_file_base folder filename postfix) (Nat.pred k))) ∧
    parent (indexed (results_file_base folder filename postfix) k) = folder ∧
    name (indexed (results_file_base folder filename postfix) k)
    = stem (results_file_base folder filename postfix) +:+ "_" +:+
      Py.str (Z.of_nat k) +:+ suffix (results_file_base folder filename postfix) ∧
    path_exists fs (indexed (results_file_base folder filename postfix) k) = false ∧
    (∀ j, (j < k)%nat →
          path_exists fs (indexed (results_file_base folder filename postfix) j) = true) ∧
    (∀ m, (∀ j, (j ≤ m)%nat →
                path_exists fs (indexed (results_file_base folder filename postfix) j) = true) →
          path_exists fs (indexed (results_file_base folder filename postfix) (S m)) = false →
          k = S m) ∧
    (path_exists fs (indexed (results_file_base folder filename postfix) O) = false →
     k = O).
Proof.
  intros _ _.
  set (base := results_file_base folder filename postfix).
  destruct (add_index_loop_spec fs base (size fs) 0 None) as (k & _ & Hfree & Hbelow & Hloop).
  { intros j Hj. lia. }
  { lia. }
  exists k. split_and!.
  - exact Hloop.
  - reflexivity.
  - apply indexed_name.
  - unfold path_exists. by apply bool_decide_eq_false.
  - intros j Hj. unfold path_exists. apply bool_decide_eq_true. by apply Hbelow.
  - intros m Hm Hnext. unfold path_exists in *.
    apply bool_decide_eq_false in Hnext.
    destruct (decide (k = S m)) as [|Hne]; [done|]. exfalso.
    destruct (decide (k < S m)%nat) as [Hlt|Hge].
    + apply Hfree. specialize (Hm k ltac:(lia)). by apply bool_decide_eq_true in Hm.
    + apply Hnext, Hbelow. lia.
  - intros H0. unfold path_exists in H0. apply bool_decide_eq_false in H0.
    destruct k as [|k]; [done|]. exfalso. apply H0, Hbelow. lia.
Qed.

Lemma add_index_to_filename_first_unused_witness :
  one_component "plots_d_m_matplotlib.ipynb" = true ∧
  Py.contains "/" "_v2" = false ∧
  ∃ k : nat,
    add_index_to_filename demo_fs "out" "plots_d_m_matplotlib.ipynb" "_v2"
    = Some (indexed (results_file_base "out" "plots_d_m_matplotlib.ipynb" "_v2") k,
            if decide (k = O) then None
            else Some (indexed (results_file_base "out" "plots_d_m_matplotlib.ipynb" "_v2")
                               (Nat.pred k))) ∧
    path_exists demo_fs
      (indexed (results_file_base "out" "plots_d_m_matplotlib.ipynb" "_v2") k) = false.
Proof.
  assert (one_component "plots_d_m_matplotlib.ipynb" = true) as H1
    by (vm_compute; reflexivity).
  assert (Py.contains "/" "_v2" = false) as H2 by reflexivity.
  split_and!; [exact H1|exact H2|].
  destruct (add_index_to_filename_first_unused demo_fs "out"
              "plots_d_m_matplotlib.ipynb" "_v2" H1 H2)
    as (k & Hres & _ & _ & Hfree & _).
  exists k. split; [exact Hres|exact Hfree].
Defined.

(** Two runs were stored already: the third gets the index 2. *)
Example add_index_to_filename_demo :
  add_index_to_filename demo_fs "out" "plots_d_m_matplotlib.ipynb" ""
  = Some (joinpath "out" "plots_d_m_matplotlib_2.ipynb",
          Some (joinpath "out" "plots_d_m_matplotlib_1.ipynb")).
Proof. reflexivity. Qed.

(** * The executor *)

Section ExecutorFacts.
Context {Kernel : Type}.
Variable run_cell : Kernel → string → Kernel * list Output.
Variable fresh_kernel : Kernel.

(** With [--allow-errors] every sub-unit runs, each in the kernel state left
    by all the sub-units before it. *)
Lemma execute_cells_allow_errors (k : Kernel) (cs : list Cell) :
  ∃ cs',
    execute_cells run_cell true k cs = Some cs' ∧
    Forall2 (λ c c', cell_type c' = cell_type c ∧ source c' = source c) cs cs' ∧
    ∀ j c', cs' !! j = Some c' → cell_type c' = "code" →
            outputs c' = (run_cell (kernel_after run_cell k (take j cs)) (source c')).2.
Proof.
  revert k. induction cs as [|c cs IH]; intros k.
  - exists []. split_and!; [done|constructor|]. intros j c' Hj. by destruct j.
  - cbn [execute_cells]. case_decide as Hcode.
    + destruct (run_cell k (source c)) as [k' outs] eqn:Hrun.
      rewrite andb_false_r. destruct (IH k') as (cs' & -> & Hsame & Houts).
      eexists. split_and!; [done|by constructor|].
      intros [|j] c' Hj Hc'.
      * cbn in Hj. simplify_eq. cbn. by rewrite Hrun.
      * cbn in Hj. rewrite (Houts j c' Hj Hc'). cbn [take kernel_after fold_left].
        rewrite decide_True by done. by rewrite Hrun.
    + destruct (IH k) as (cs' & -> & Hsame & Houts).
      eexists. split_and!; [done|by constructor|].
      intros [|j] c' Hj Hc'.
      * cbn in Hj. simplify_eq.
      * cbn in Hj. rewrite (Houts j c' Hj Hc'). cbn [take kernel_after fold_left].
        by rewrite decide_False by done.
Qed.

Lemma nbconvert_command_flags (path : string) :
  Py.contains "--execute"
    ("jupyter nbconvert --execute --allow-errors --to notebook --inplace "
     +:+ DQUOTE +:+ path +:+ DQUOTE) = true ∧
  Py.contains "--allow-errors"
    ("jupyter nbconvert --execute --allow-errors --to notebook --inplace "
     +:+ DQUOTE +:+ path +:+ DQUOTE) = true.
Proof. split; by apply contains_app_l. Qed.

Lemma last_error_record (outs : list Output) :
  existsb is_error outs = true →
  ∃ pre ename evalue tb post,
    outs = pre ++ Error ename evalue tb :: post ∧ existsb is_error post = false.
Proof.
  induction outs as [|o outs IH]; [done|]. cbn [existsb].
  destruct (existsb is_error outs) eqn:Hrest.
  - intros _. destruct IH as (pre & en & ev & tb & post & -> & Hpost); [done|].
    by exists (o :: pre), en, ev, tb, post.
  - rewrite orb_false_r. destruct o as [| | |en ev tb]; try done. intros _.
    by exists [], en, ev, tb, outs.
Qed.

Lemma error_text_nonempty (ename evalue : string) : ename +:+ ": " +:+ evalue ≠ "".
Proof. by destruct ename. Qed.

Lemma error_field_iff (c : Cell) (r : Outcome.t) :
  parse_cell c = Ok (Some r) →
  Outcome.error r ≠ "" ↔ existsb is_error (outputs c) = true.
Proof.
  intros (_ & -> & _)%parse_cell_Some. unfold scan. split.
  - intros Hne. destruct (existsb is_error (outputs c)) eqn:He; [done|].
    by rewrite fold_scan_no_error in Hne.
  - intros (pre & en & ev & tb & post & -> & Hpost)%last_error_record.
    rewrite fold_scan_last_error by done. apply error_text_nonempty.
Qed.

End ExecutorFacts.

(** C1: in the unit built from the items of a dataset and run by the command of
    [build_plots], every sub-unit is executed, each in the kernel state left by
    all the sub-units before it whether they faulted or not; every item yields
    an Outcome, in order; and the error field of an Outcome is non-empty
    exactly when the outputs of its own sub-unit hold an error record.  The
    generator is in any state with a configuration, whatever its notebook
    path; the data files of the items exist and the dataset has at least one
    row, without which [build_plots] raises before anything is run. *)
Theorem fault_does_not_stop_the_unit {Kernel : Type}
    (run_cell : Kernel → string → Kernel * list Output) (fresh_kernel : Kernel)
    (fs : FileSystem) (self : VisGenerator) (cfg : DictConfig)
    (dataset : list Item.t) :
  config self = Some cfg →
  dataset ≠ [] →
  Forall (λ item, path_exists fs (csv_path_of self item) = true) dataset →
  ∃ built nb res,
    build_plots_notebook fs self dataset = Ok built ∧
    build_plots run_cell fresh_kernel fs self dataset = Ok nb ∧
    same_code built nb ∧
    (∀ j c, cells nb !! j = Some c →
            outputs c
            = (run_cell (kernel_after run_cell fresh_kernel (take j (cells built)))
                        (source c)).2) ∧
    parse_plots_notebook nb = Ok res ∧
    Outcome.id <$> res = Item.id <$> dataset ∧
    Forall2 (λ c r, Outcome.error r ≠ "" ↔ existsb is_error (outputs c) = true)
            (filter (λ c, marked c = true) (cells nb)) res.
Proof.
  intros Hcfg0 Hne Hcsv.
  destruct (build_plots_notebook_returns fs self cfg dataset Hcfg0 Hne Hcsv)
    as [built Hbuilt].
  destruct (execute_cells_allow_errors run_cell fresh_kernel (cells built))
    as (cs' & Hexec & Hsame & Houts).
  destruct (nbconvert_command_flags (posix (plots_nb_path self))) as [Hflag1 Hflag2].
  assert (build_plots run_cell fresh_kernel fs self dataset = Ok {| cells := cs' |})
    as Hrun.
  { unfold build_plots. rewrite Hbuilt. unfold mbind, result_bind, nbconvert.
    by rewrite Hflag1, Hflag2, Hexec. }
  assert (same_code built {| cells := cs' |}) as Hsame' by exact Hsame.
  destruct (executed_unit_cells fs self dataset built _ Hbuilt Hsame')
    as (cfg' & prefix & cs & Hcfg & Hnb & Hprefix & Hcs).
  destruct (parse_item_cells _ _ _ _ _ Hcs) as (Hfilter & res & Hres & Hids).
  assert (parse_plots_notebook {| cells := cs' |} = Ok res) as Hparse.
  { unfold parse_plots_notebook. rewrite parse_cells_filter, Hnb.
    rewrite filter_unmarked_prefix, Hfilter by done. exact Hres. }
  exists built, {| cells := cs' |}, res. split_and!; try done.
  - intros j c Hj. apply Houts; [done|].
    destruct (build_plots_notebook_inv _ _ _ _ Hbuilt) as (? & blocks & _ & _ & Hb).
    destruct (Forall2_lookup_r _ _ _ _ _ Hsame Hj) as (c0 & Hc0 & Ht & _).
    rewrite Ht. rewrite Hb in Hc0. unfold build_new_nb in Hc0. cbn [cells] in Hc0.
    apply list_lookup_fmap_Some in Hc0 as (b & -> & _). done.
  - apply parse_cells_Ok in Hparse. eapply Forall2_impl; [exact Hparse|].
    intros c r. apply error_field_iff.
Qed.

Lemma fault_does_not_stop_the_unit_witness :
  config running_generator = Some demo_config ∧
  reverse demo_dataset ≠ [] ∧
  Forall (λ item, path_exists demo_fs (csv_path_of running_generator item) = true)
         (reverse demo_dataset) ∧
  ∃ built nb res,
    build_plots_notebook demo_fs running_generator (reverse demo_dataset) = Ok built ∧
    build_plots demo_run_cell O demo_fs running_generator (reverse demo_dataset) = Ok nb ∧
    same_code built nb ∧
    (∀ j c, cells nb !! j = Some c →
            outputs c
            = (demo_run_cell (kernel_after demo_run_cell O (take j (cells built)))
                             (source c)).2) ∧
    parse_plots_notebook nb = Ok res ∧
    Outcome.id <$> res = Item.id <$> reverse demo_dataset ∧
    Forall2 (λ c r, Outcome.error r ≠ "" ↔ existsb is_error (outputs c) = true)
            (filter (λ c, marked c = true) (cells nb)) res.
Proof.
  assert (reverse demo_dataset ≠ []) as Hne by done.
  assert (Forall (λ item, path_exists demo_fs (csv_path_of running_generator item)
                          = true) (reverse demo_dataset)) as Hcsv
    by (repeat constructor).
  split_and!; [reflexivity|exact Hne|exact Hcsv|].
  exact (fault_does_not_stop_the_unit demo_run_cell O demo_fs running_generator
           demo_config (reverse demo_dataset) eq_refl Hne Hcsv).
Defined.

(** Item 8 faults first; item 7, after it, still runs and plots. *)
Example isolation_demo :
  (nb ← build_plots demo_run_cell O demo_fs demo_generator (reverse demo_dataset);
   parse_plots_notebook nb)
  = Ok [ {| Outcome.id := 8; Outcome.error := "ZeroDivisionError: division by zero";
            Outcome.plots_generated := []; Outcome.has_plot := false |};
         {| Outcome.id := 7; Outcome.error := "";
            Outcome.plots_generated := ["iVBORw0KGgo="]; Outcome.has_plot := true |} ].
Proof. reflexivity. Qed.

(** * The merge *)

Section FrameFacts.
Context {A : Type}.
Implicit Types (cols : list string) (row : list Value).

Lemma filter_ext_in (P Q : string → Prop)
    `{∀ x, Decision (P x)} `{∀ x, Decision (Q x)} cols :
  (∀ c, c ∈ cols → P c ↔ Q c) → filter P cols = filter Q cols.
Proof.
  induction cols as [|c cols IH]; intros Hext; [done|].
  rewrite !filter_cons.
  rewrite IH by (intros x Hx; apply Hext; by right).
  destruct (decide (P c)) as [HP|HP], (decide (Q c)) as [HQ|HQ]; try done.
  - exfalso. apply HQ, Hext; [by left|done].
  - exfalso. apply HP, Hext; [by left|done].
Qed.

Lemma select_ext_in (keep1 keep2 : string → bool) cols (l : list A) :
  (∀ c, c ∈ cols → keep1 c = keep2 c) → select keep1 cols l = select keep2 cols l.
Proof.
  revert l. induction cols as [|c cols IH]; intros l Hext; [done|].
  destruct l as [|x l]; [done|]. cbn [select].
  rewrite (Hext c) by (by left).
  rewrite (IH l) by (intros x' Hx'; apply Hext; by right). done.
Qed.

Lemma fmap_id_in (f : string → string) cols :
  (∀ c, c ∈ cols → f c = c) → f <$> cols = cols.
Proof.
  induction cols as [|c cols IH]; intros Hid; [done|].
  rewrite fmap_cons, (Hid c) by (by left). f_equal.
  apply IH. intros x Hx. apply Hid. by right.
Qed.

Lemma length_select (P : string → Prop) `{∀ x, Decision (P x)} cols (l : list A) :
  length l = length cols →
  length (select (λ c, bool_decide (P c)) cols l) = length (filter P cols).
Proof.
  revert l. induction cols as [|c cols IH]; intros [|x l] Hlen; try done.
  cbn [select]. rewrite filter_cons.
  injection Hlen as Hlen. specialize (IH l Hlen).
  destruct (decide (P c)).
  - rewrite bool_decide_eq_true_2 by done. cbn [length]. by rewrite IH.
  - rewrite bool_decide_eq_false_2 by done. exact IH.
Qed.


Lemma filter_none_in (P : string → Prop) `{∀ x, Decision (P x)} cols :
  (∀ c, c ∈ cols → ¬ P c) → filter P cols = [].
Proof.
  induction cols as [|c cols IH]; intros Hall; [done|].
  rewrite filter_cons, decide_False by (apply Hall; by left).
  apply IH. intros x Hx. apply Hall. by right.
Qed.

End FrameFacts.

Section MergeFacts.
Implicit Types (cols : list string) (row : list Value) (c : string).

Lemma bind_fmap_rows {B C D : Type} (g : B → C) (f : C → list D) (l : list B) :
  (g <$> l) ≫= f = l ≫= (λ x, f (g x)).
Proof. induction l as [|x l IH]; [done|]. cbn. by rewrite <- IH. Qed.

Lemma bind_ext_in {B C : Type} (f g : B → list C) (l : list B) :
  (∀ x, x ∈ l → f x = g x) → l ≫= f = l ≫= g.
Proof.
  induction l as [|x l IH]; intros Hext; [done|]. cbn.
  rewrite (Hext x) by (by left). f_equal.
  apply IH. intros y Hy. apply Hext. by right.
Qed.

Lemma filter_fmap_rows {B C : Type} (f : B → C) (P : C → Prop)
    `{∀ y, Decision (P y)} (l : list B) :
  filter P (f <$> l) = f <$> filter (λ x, P (f x)) l.
Proof.
  induction l as [|x l IH]; [done|].
  rewrite fmap_cons, !filter_cons, IH. by destruct (decide (P (f x))).
Qed.

Lemma cell_at_cons c x cols v row :
  cell_at (x :: cols) (v :: row) c
  = if decide (x = c) then Some v else cell_at cols row c.
Proof.
  unfold cell_at. cbn [list_find]. case_decide; [done|].
  destruct (list_find (λ y, y = c) cols) as [[i y]|]; done.
Qed.


(** A kept column reads the same cell after the drop. *)
Lemma cell_at_select (P : string → Prop) `{∀ x, Decision (P x)} c cols row :
  length row = length cols → P c →
  cell_at (filter P cols) (select (λ x, bool_decide (P x)) cols row) c
  = cell_at cols row c.
Proof.
  intros Hlen HP. revert row Hlen.
  induction cols as [|x cols IH]; intros [|v row] Hlen; try done.
  injection Hlen as Hlen. cbn [select]. rewrite filter_cons, (cell_at_cons c x cols).
  destruct (decide (P x)) as [Hx|Hx].
  - rewrite bool_decide_eq_true_2 by done. rewrite cell_at_cons.
    case_decide; [done|]. by apply IH.
  - rewrite bool_decide_eq_false_2 by done.
    rewrite decide_False by congruence. by apply IH.
Qed.


Lemma unique_label_NoDup c cols :
  NoDup cols → c ∈ cols → unique_label c cols = true.
Proof.
  intros Hnd Hc. unfold unique_label. apply bool_decide_eq_true.
  induction Hnd as [|x cols Hx Hnd IH]; [by apply elem_of_nil in Hc|].
  rewrite filter_cons. apply elem_of_cons in Hc as [<-|Hc].
  - rewrite decide_True by done. cbn [length]. f_equal.
    rewrite (filter_none_in (λ y, y = c) cols); [done|]. by intros y Hy ->.
  - rewrite decide_False; [by apply IH|]. by intros ->.
Qed.

Lemma keys_clash_int (l r : list (option Value)) :
  Forall (λ v, is_int_cell v = true) l → Forall (λ v, is_int_cell v = true) r →
  keys_clash l r = false.
Proof.
  intros Hl Hr. unfold keys_clash.
  destruct Hl as [|v l Hv _]; [done|]. destruct Hr as [|w r Hw _].
  - by rewrite andb_false_r.
  - cbn [forallb]. destruct v as [[]|], w as [[]|]; try done.
    by rewrite !andb_false_r.
Qed.

End MergeFacts.

(** The frames that the join receives: the dataset without the columns that
    the results bring again. *)
Lemma merge_response_dropped (dataset : DataFrame) (r0 : Outcome.t) (rs : list Outcome.t) :
  "id" ∈ columns dataset →
  merge_response dataset (pd_DataFrame (r0 :: rs))
  = df_merge_left "id"
      {| columns := filter (λ c, c ∉ result_columns) (columns dataset);
         rows := kept_cells dataset <$> rows dataset |}
      (pd_DataFrame (r0 :: rs)).
Proof.
  intros Hid. unfold merge_response. cbn [pd_DataFrame columns].
  set (rcols := ["id"; "error"; "plots_generated"; "has_plot"]).
  set (inter := index_intersection (columns dataset) rcols).
  assert ("id" ∈ inter) as Hinter.
  { unfold inter, index_intersection. apply list_elem_of_filter.
    split; [by left|by apply elem_of_remove_dups]. }
  unfold index_drop. rewrite decide_True by done. cbn [mbind result_bind].
  set (common := filter (λ c, c ≠ "id") inter).
  assert (∀ c, c ∈ common ↔ c ∈ columns dataset ∧ c ∈ result_columns) as Hcommon.
  { intros c. unfold common, inter, index_intersection.
    rewrite !list_elem_of_filter, elem_of_remove_dups.
    unfold rcols, result_columns. rewrite !elem_of_cons, !elem_of_nil.
    split.
    - intros (Hne & Hc & Hd). split; [done|]. destruct Hc as [->|Hc]; done.
    - intros (Hd & Hc). split_and!; [|by right|done].
      intros ->. by destruct Hc as [|[|[|]]]. }
  unfold df_drop.
  assert (list_find (λ c, c ∉ columns dataset) common = None) as ->.
  { apply list_find_None, Forall_forall. intros c Hc Hn.
    apply Hn. by apply Hcommon in Hc as [? _]. }
  cbn [mbind result_bind].
  assert (∀ c, c ∈ columns dataset → c ∉ common ↔ c ∉ result_columns) as Hkeep.
  { intros c Hc. rewrite Hcommon. split; [intros H ?; by apply H|by intros H [_ ?]]. }
  rewrite (filter_ext_in (λ c, c ∉ common) (λ c, c ∉ result_columns)) by done.
  assert (select (λ c, bool_decide (c ∉ common)) (columns dataset) <$> rows dataset
          = kept_cells dataset <$> rows dataset) as ->.
  { apply list_fmap_ext. intros _ row _. apply select_ext_in.
    intros c Hc. apply bool_decide_ext. by apply Hkeep. }
  reflexivity.
Qed.

Lemma merge_response_spec (dataset : DataFrame) (r0 : Outcome.t) (rs : list Outcome.t) :
  "id" ∈ columns dataset → NoDup (columns dataset) → rectangular dataset →
  int_ids dataset →
  merge_response dataset (pd_DataFrame (r0 :: rs))
  = Ok {| columns := filter (λ c, c ∉ result_columns) (columns dataset) ++ result_columns;
          rows := rows dataset ≫= merged_rows dataset (r0 :: rs) |}.
Proof.
  intros Hid Hnodup Hrect Hints. rewrite merge_response_dropped by done.
  cbn [pd_DataFrame].
  set (rcols := ["id"; "error"; "plots_generated"; "has_plot"]).
  set (kcols := filter (λ c, c ∉ result_columns) (columns dataset)).
  assert ("id" ∉ result_columns) as Hid_rc.
  { unfold result_columns. rewrite !elem_of_cons, elem_of_nil. by intros [|[|[|]]]. }
  assert ("id" ∈ kcols) as Hid_k by (by apply list_elem_of_filter).
  assert (∀ row, row ∈ rows dataset →
            cell_at kcols (kept_cells dataset row) "id"
            = cell_at (columns dataset) row "id") as Hkept_id.
  { intros row Hrow. unfold kept_cells, kcols.
    apply (cell_at_select (λ c, c ∉ result_columns)); [|done].
    unfold rectangular in Hrect. rewrite Forall_forall in Hrect. by apply Hrect. }
  unfold df_merge_left. cbn [columns rows].
  rewrite (bool_decide_eq_true_2 ("id" ∈ kcols)) by done.
  rewrite (bool_decide_eq_true_2 ("id" ∈ rcols)) by (by left).
  rewrite (unique_label_NoDup "id" kcols) by (done || by apply NoDup_filter).
  change (unique_label "id" rcols) with true.
  rewrite keys_clash_int; cycle 1.
  { unfold column_cells. cbn [columns rows]. apply Forall_fmap, Forall_fmap.
    unfold int_ids in Hints. rewrite Forall_forall in Hints |- *.
    intros row Hrow. cbn. rewrite Hkept_id by done. by apply Hints. }
  { unfold column_cells. cbn [columns rows]. apply Forall_fmap, Forall_fmap.
    by apply Forall_true. }
  cbn [andb negb].
  change (filter (λ c, c ≠ "id") rcols) with result_columns.
  f_equal. f_equal.
  - f_equal.
    + apply fmap_id_in. intros c Hc. rewrite bool_decide_eq_false_2; [done|].
      intros (Hne & _ & Hrc). apply list_elem_of_filter in Hc as [Hc _].
      apply Hc. unfold rcols in Hrc. apply elem_of_cons in Hrc as [->|Hrc]; done.
    + apply fmap_id_in. intros c Hc. rewrite bool_decide_eq_false_2; [done|].
      intros (_ & Hk & _). by apply list_elem_of_filter in Hk as [Hk _].
  - rewrite bind_fmap_rows. apply bind_ext_in. intros row Hrow.
    assert (length row = length (columns dataset)) as Hlen.
    { unfold rectangular in Hrect. rewrite Forall_forall in Hrect. by apply Hrect. }
    rewrite filter_fmap_rows. unfold merged_rows, results_of.
    rewrite (list_filter_iff _
               (λ r, cell_at (columns dataset) row "id" = Some (VInt (Outcome.id r)))).
    2:{ intros r. unfold kept_cells, kcols.
        rewrite (cell_at_select (λ c, c ∉ result_columns)) by done.
        change (cell_at rcols (VInt (Outcome.id r) :: result_cells r) "id")
          with (Some (VInt (Outcome.id r))). split; congruence. }
    destruct (filter _ (r0 :: rs)) as [|m ms]; [done|].
    assert (∀ l : list Outcome.t,
              (λ r, kept_cells dataset row ++
                    select (λ c, bool_decide (c ≠ "id")) rcols r) <$>
              ((λ r, VInt (Outcome.id r) :: result_cells r) <$> l)
              = (λ r, kept_cells dataset row ++ result_cells r) <$> l) as Hgen.
    { intros l. rewrite <- list_fmap_compose. by apply list_fmap_ext. }
    exact (Hgen (m :: ms)).
Qed.

Lemma kept_columns_spec (dataset : DataFrame) (c : string) :
  c ∈ filter (λ c, c ∉ result_columns) (columns dataset)
  ↔ c ∈ columns dataset ∧ c ∉ result_columns.
Proof. rewrite list_elem_of_filter. tauto. Qed.

Lemma length_kept_cells (dataset : DataFrame) (row : list Value) :
  length row = length (columns dataset) →
  length (kept_cells dataset row)
  = length (filter (λ c, c ∉ result_columns) (columns dataset)).
Proof. intros Hlen. unfold kept_cells. by apply length_select. Qed.






(** The stale [error] and [has_plot] columns are replaced; item 8, which has no
    Outcome, stays, with missing values. *)
Example merge_demo :
  merge_response demo_frame (pd_DataFrame demo_results)
  = Ok {| columns := ["id"; "task"; "model"; "error"; "plots_generated"; "has_plot"];
          rows := [ [VInt 7; VStr "bar chart"; VStr "m";
                     VStr ""; VList ["iVBORw0KGgo="]; VBool true];
                    [VInt 8; VStr "line chart"; VStr "m"; NaN; NaN; NaN] ] |}.
Proof. reflexivity. Qed.

(** * Further properties of the extractor *)

Lemma parse_cell_cases (c : Cell) :
  (marked c = false ∧ parse_cell c = Ok None) ∨
  (marked c = true ∧ marker_id c = None ∧ parse_cell c = Raise ValueError) ∨
  (marked c = true ∧ ∃ r, marker_id c = Some (Outcome.id r) ∧ parse_cell c = Ok (Some r)).
Proof.
  destruct (marked c) eqn:Hm.
  - right. rewrite parse_cell_marked by done. unfold marker_id.
    destruct (Py.int _) as [idx|].
    + right. split; [done|]. eexists. split; [|reflexivity]. reflexivity.
    + left. done.
  - left. split; [done|]. by apply parse_cell_unmarked.
Qed.

Lemma parse_cells_raise (cs : list Cell) (e : PyError) :
  parse_cells cs [] = Raise e ↔
  e = ValueError ∧ Exists (λ c, marked c = true ∧ marker_id c = None) cs.
Proof.
  revert e. induction cs as [|c cs IH]; intros e; cbn [parse_cells].
  - split; [done|]. intros [_ Hex]. by apply Exists_nil in Hex.
  - destruct (parse_cell_cases c) as [[Hm ->]|[(Hm & Hid & ->)|(Hm & r & Hid & ->)]].
    + cbn. rewrite IH. split; intros [He Hex]; (split; [done|]).
      * by right.
      * apply Exists_cons in Hex as [[? _]|?]; [congruence|done].
    + cbn. split.
      * intros [= <-]. split; [done|]. by left.
      * by intros [-> _].
    + cbn. rewrite parse_cells_acc.
      destruct (parse_cells cs []) as [res|e'] eqn:Hcs; cbn.
      * split; [done|]. intros [He Hex].
        apply Exists_cons in Hex as [[_ ?]|Hex]; [congruence|].
        assert (Ok res = Raise e) as Habs by (apply IH; done). done.
      * split.
        -- intros [= <-]. destruct (proj1 (IH e') eq_refl) as [-> Hex].
           split; [done|]. by right.
        -- intros [-> Hex]. apply Exists_cons in Hex as [[_ ?]|Hex]; [congruence|].
           by apply (IH ValueError).
Qed.

Lemma letter_char_facts (c : ascii) :
  ascii_letter c = true →
  Py.mem_char c Py.whitespace = false ∧ Py.digit c = None ∧
  c ≠ "_"%char ∧ c ≠ "-"%char ∧ c ≠ "+"%char.
Proof.
  destruct c as [[] [] [] [] [] [] [] []]; vm_compute; intros H;
    try discriminate H; by split_and!.
Qed.

Lemma some_char_impl (P Q : ascii → bool) (s : string) :
  (∀ c, P c = true → Q c = true) →
  all_chars (λ c, negb (P c)) s = false → all_chars (λ c, negb (Q c)) s = false.
Proof.
  intros HPQ. induction s as [|c s IH]; [done|]. cbn [all_chars].
  destruct (P c) eqn:HP; [by rewrite (HPQ c HP)|].
  cbn [negb andb]. intros Hs. by rewrite (IH Hs), andb_false_r.
Qed.

Lemma lstrip_keeps (P : ascii → bool) (chars s : string) :
  (∀ c, P c = true → Py.mem_char c chars = false) →
  all_chars (λ c, negb (P c)) s = false →
  all_chars (λ c, negb (P c)) (Py.lstrip chars s) = false.
Proof.
  intros HP. induction s as [|c s IH]; [done|]. cbn [Py.lstrip].
  destruct (Py.mem_char c chars) eqn:Hm; [|done]. cbn [all_chars].
  destruct (P c) eqn:HPc; [by rewrite (HP c HPc) in Hm|]. exact IH.
Qed.

Lemma rstrip_keeps (P : ascii → bool) (chars s : string) :
  (∀ c, P c = true → Py.mem_char c chars = false) →
  all_chars (λ c, negb (P c)) s = false →
  all_chars (λ c, negb (P c)) (Py.rstrip chars s) = false.
Proof.
  intros HP. induction s as [|c s IH]; [done|]. cbn [Py.rstrip all_chars].
  destruct (P c) eqn:HPc.
  - intros _. destruct (Py.rstrip chars s).
    + rewrite (HP c HPc). cbn [all_chars]. by rewrite HPc.
    + cbn [all_chars]. by rewrite HPc.
  - cbn [negb andb]. intros Hs. specialize (IH Hs).
    destruct (Py.rstrip chars s) as [|d r]; [done|].
    cbn [all_chars] in *. by rewrite HPc.
Qed.

Lemma int_digits_letter (acc : N) (prev : bool) (s : string) :
  all_chars (λ c, negb (ascii_letter c)) s = false → Py.int_digits acc prev s = None.
Proof.
  revert acc prev. induction s as [|c s IH]; intros acc prev; [done|].
  cbn [all_chars Py.int_digits]. destruct (ascii_letter c) eqn:Hc.
  - intros _. destruct (letter_char_facts c Hc) as (_ & -> & Hu & _).
    by rewrite decide_False.
  - cbn [negb andb]. intros Hs. destruct (Py.digit c); [by apply IH|].
    case_decide; [|done]. destruct prev; [by apply IH|done].
Qed.

(** [int] refuses a text with a letter in it. *)
Lemma int_letter (s : string) :
  all_chars (λ c, negb (ascii_letter c)) s = false → Py.int s = None.
Proof.
  intros Hs. unfold Py.int.
  assert (all_chars (λ c, negb (ascii_letter c))
            (Py.rstrip Py.whitespace (Py.lstrip Py.whitespace s)) = false) as Ht.
  { apply rstrip_keeps, lstrip_keeps; try done;
      intros c Hc; by destruct (letter_char_facts c Hc). }
  destruct (Py.rstrip Py.whitespace (Py.lstrip Py.whitespace s)) as [|c r]; [done|].
  destruct (decide (c = "-"%char)) as [->|Hminus].
  { cbn [all_chars] in Ht. by rewrite int_digits_letter. }
  destruct (decide (c = "+"%char)) as [->|Hplus].
  { cbn [all_chars] in Ht. by rewrite int_digits_letter. }
  transitivity (Z.of_N <$> Py.int_digits 0 false (String c r)).
  { clear -Hminus Hplus.
    destruct c as [[] [] [] [] [] [] [] []]; try done; reflexivity. }
  by rewrite int_digits_letter.
Qed.

(** X1: one marked sub-unit whose id cannot be read makes the whole extraction
    fail: when the text after the marker, on the first line, holds a letter
    (one that [lstrip] does not strip, so other than [i] and [d]), the call
    raises [ValueError], whatever the other cells are, and no Outcome of any
    cell is returned. *)
Theorem extraction_fails_on_malformed_marker
    (before after : list Cell) (k : nat) (text : string) (rest : option string)
    (outs : list Output) :
  all_chars (λ c, negb (bool_decide (c = Py.LF))) text = true →
  all_chars (λ c, negb (ascii_letter c && negb (Py.mem_char c "# id = "))) text = false →
  parse_plots_notebook
    {| cells := before ++
                {| cell_type := "code";
                   source := blank_lines k +:+ "# id = " +:+ text +:+ after_marker rest;
                   outputs := outs |} :: after |}
  = Raise ValueError.
Proof.
  intros Hline Hletter.
  set (c := {| cell_type := "code";
               source := blank_lines k +:+ "# id = " +:+ text +:+ after_marker rest;
               outputs := outs |}).
  set (line := "# id = " +:+ text).
  assert (Py.lstrip Py.nl (source c) = line +:+ after_marker rest) as Hstrip.
  { unfold c, line. cbn [source]. rewrite lstrip_blank_lines, sapp_assoc. reflexivity. }
  assert (head (Py.split Py.LF (line +:+ after_marker rest)) = Some line) as Hhead.
  { assert (all_chars (λ c, negb (bool_decide (c = Py.LF))) line = true) as Hl.
    { unfold line. by rewrite all_chars_app, Hline. }
    destruct rest as [t|]; cbn [after_marker].
    - by rewrite nl_app, split_app, split_no_sep.
    - by rewrite sapp_nil_r, split_no_sep. }
  assert (marked c = true) as Hm.
  { unfold marked. rewrite Hstrip. unfold line. rewrite sapp_assoc.
    by rewrite startswith_app. }
  assert (marker_id c = None) as Hid.
  { unfold marker_id. rewrite Hstrip, Hhead. cbn [default from_option id].
    unfold line. rewrite lstrip_skip by done. apply int_letter.
    apply (some_char_impl (λ c, ascii_letter c && negb (Py.mem_char c "# id = "))).
    - by intros a [? _]%andb_true_iff.
    - apply lstrip_keeps; [|done].
      intros a [_ Ha]%andb_true_iff. by apply negb_true_iff in Ha. }
  unfold parse_plots_notebook. cbn [cells]. apply parse_cells_raise.
  split; [done|]. apply Exists_app. right. by left.
Qed.

Lemma extraction_fails_on_malformed_marker_witness :
  all_chars (λ c, negb (bool_decide (c = Py.LF))) "seven" = true ∧
  all_chars (λ c, negb (ascii_letter c && negb (Py.mem_char c "# id = "))) "seven"
  = false ∧
  parse_plots_notebook
    {| cells := [plots_then_error_cell] ++
                {| cell_type := "code";
                   source := blank_lines 1 +:+ "# id = " +:+ "seven"
                             +:+ after_marker (Some "df.plot()");
                   outputs := [] |} :: [two_errors_cell] |}
  = Raise ValueError.
Proof.
  assert (all_chars (λ c, negb (bool_decide (c = Py.LF))) "seven" = true) as H1
    by reflexivity.
  assert (all_chars (λ c, negb (ascii_letter c && negb (Py.mem_char c "# id = ")))
                    "seven" = false) as H2 by reflexivity.
  split_and!; [exact H1|exact H2|].
  exact (extraction_fails_on_malformed_marker [plots_then_error_cell] [two_errors_cell]
           1 "seven" (Some "df.plot()") [] H1 H2).
Defined.

Lemma marker_char_not_LF (c : ascii) :
  Py.mem_char c "# id = " = true → negb (bool_decide (c = Py.LF)) = true.
Proof.
  intros H. apply negb_true_iff, bool_decide_eq_false. intros ->. done.
Qed.

(** X2: the id is read with [lstrip("# id = ")], which strips a set of
    characters: after the marker, any further run of the characters [#], [=],
    [i], [d] and space in front of the number is ignored. *)
Theorem marker_padding_is_stripped
    (pad : string) (z : Z) (rest : option string) (outs : list Output) :
  all_chars (λ c, Py.mem_char c "# id = ") pad = true →
  ∃ r, parse_plots_notebook
         {| cells := [{| cell_type := "code";
                         source := "# id = " +:+ pad +:+ Py.str z +:+ after_marker rest;
                         outputs := outs |}] |} = Ok [r] ∧
       Outcome.id r = z.
Proof.
  intros Hpad.
  set (line := "# id = " +:+ pad +:+ Py.str z).
  set (c := {| cell_type := "code"; source := "# id = " +:+ pad +:+ Py.str z +:+ after_marker rest;
               outputs := outs |}).
  assert (source c = line +:+ after_marker rest) as Hsrc.
  { unfold c, line. cbn [source]. by rewrite !sapp_assoc. }
  assert (all_chars (λ c, negb (bool_decide (c = Py.LF))) line = true) as Hline.
  { unfold line. rewrite !all_chars_app, str_no_LF, andb_true_r.
    apply andb_true_iff. split; [done|].
    revert Hpad. apply all_chars_impl, marker_char_not_LF. }
  assert (head (Py.split Py.LF (line +:+ after_marker rest)) = Some line) as Hhead.
  { destruct rest as [t|]; cbn [after_marker].
    - by rewrite nl_app, split_app, split_no_sep.
    - by rewrite sapp_nil_r, split_no_sep. }
  assert (Py.lstrip Py.nl (source c) = line +:+ after_marker rest) as Hstrip.
  { by rewrite Hsrc. }
  assert (marked c = true) as Hm.
  { unfold marked. rewrite Hstrip. unfold line. rewrite sapp_assoc.
    by rewrite startswith_app. }
  unfold parse_plots_notebook. cbn [cells parse_cells].
  rewrite parse_cell_marked by done. rewrite Hstrip, Hhead. cbn [default from_option id].
  assert (Py.lstrip "# id = " line = Py.str z) as ->.
  { unfold line. rewrite <- sapp_assoc. rewrite lstrip_skip.
    - destruct (str_nonempty z) as (a & s & -> & Ha).
      apply int_char_cases in Ha as (_ & Hm' & _). by apply lstrip_stop.
    - by rewrite all_chars_app, Hpad. }
  rewrite int_str. by eexists.
Qed.

Lemma marker_padding_is_stripped_witness :
  all_chars (λ c, Py.mem_char c "# id = ") "= #id " = true ∧
  ∃ r, parse_plots_notebook
         {| cells := [{| cell_type := "code";
                         source := "# id = " +:+ "= #id " +:+ Py.str 12 +:+ after_marker (Some "x = 1");
                         outputs := [] |}] |} = Ok [r] ∧
       Outcome.id r = 12.
Proof.
  split; [reflexivity|].
  apply (marker_padding_is_stripped "= #id " 12 (Some "x = 1") []). reflexivity.
Defined.

Lemma png_images_app (outs1 outs2 : list Output) :
  png_images (outs1 ++ outs2) = png_images outs1 ++ png_images outs2.
Proof. unfold png_images. apply omap_app. Qed.

(** X3: the error field of an Outcome is empty exactly when its sub-unit has
    no error record, and an error record does not stop the collection of
    images: those displayed after it are in [plots_generated] as well. *)
Theorem error_does_not_stop_image_collection (nb : Notebook) (res : list Outcome.t) :
  parse_plots_notebook nb = Ok res →
  Forall2 (λ c r,
             (Outcome.error r = "" ↔ existsb is_error (outputs c) = false) ∧
             ∀ pre ename evalue tb post,
               outputs c = pre ++ Error ename evalue tb :: post →
               Outcome.plots_generated r = png_images pre ++ png_images post)
          (filter (λ c, marked c = true) (cells nb)) res.
Proof.
  intros H. apply parse_cells_Ok in H.
  eapply Forall2_impl; [exact H|]. intros c r Hc. split.
  - pose proof (error_field_iff c r Hc) as Hiff.
    split.
    + intros Herr. destruct (existsb is_error (outputs c)); [|done].
      exfalso. by apply (proj2 Hiff).
    + intros Hnone. destruct (decide (Outcome.error r = "")) as [|Hne]; [done|].
      apply Hiff in Hne. congruence.
  - intros pre ename evalue tb post Houts.
    apply parse_cell_Some in Hc as (_ & _ & -> & _).
    rewrite Houts, png_images_app. f_equal.
Qed.

Lemma error_does_not_stop_image_collection_witness :
  parse_plots_notebook
    {| cells := [{| cell_type := "code"; source := "# id = 3";
                    outputs := [DisplayData {[ "image/png" := "AAAA" ]};
                                Error "KeyError" "'x'" [];
                                DisplayData {[ "image/png" := "BBBB" ]}] |}] |}
  = Ok [{| Outcome.id := 3; Outcome.error := "KeyError: 'x'";
           Outcome.plots_generated := ["AAAA"; "BBBB"]; Outcome.has_plot := true |}] ∧
  Forall2 (λ c r,
             (Outcome.error r = "" ↔ existsb is_error (outputs c) = false) ∧
             ∀ pre ename evalue tb post,
               outputs c = pre ++ Error ename evalue tb :: post →
               Outcome.plots_generated r = png_images pre ++ png_images post)
          (filter (λ c, marked c = true)
             (cells {| cells := [{| cell_type := "code"; source := "# id = 3";
                    outputs := [DisplayData {[ "image/png" := "AAAA" ]};
                                Error "KeyError" "'x'" [];
                                DisplayData {[ "image/png" := "BBBB" ]}] |}] |}))
          [{| Outcome.id := 3; Outcome.error := "KeyError: 'x'";
              Outcome.plots_generated := ["AAAA"; "BBBB"]; Outcome.has_plot := true |}].
Proof.
  split; [reflexivity|].
  apply (error_does_not_stop_image_collection
           {| cells := [{| cell_type := "code"; source := "# id = 3";
                    outputs := [DisplayData {[ "image/png" := "AAAA" ]};
                                Error "KeyError" "'x'" [];
                                DisplayData {[ "image/png" := "BBBB" ]}] |}] |}).
  reflexivity.
Defined.

(** X4: when the command of [build_plots] leaves the notebook as it was
    written (its exit status is not read), extraction still succeeds: every
    item gets an Outcome with an empty error, no image and [has_plot] false. *)
Theorem unexecuted_notebook_reports_no_plot
    (fs : FileSystem) (self : VisGenerator) (dataset : list Item.t) (built : Notebook) :
  build_plots_notebook fs self dataset = Ok built →
  ∃ res,
    parse_plots_notebook built = Ok res ∧
    Outcome.id <$> res = Item.id <$> dataset ∧
    Forall (λ r, Outcome.error r = "" ∧ Outcome.plots_generated r = [] ∧
                 Outcome.has_plot r = false) res.
Proof.
  intros Hbuilt.
  assert (same_code built built) as Hsame.
  { unfold same_code. apply Forall_Forall2_diag, Forall_true. done. }
  destruct (executed_unit_cells fs self dataset built built Hbuilt Hsame)
    as (cfg & prefix & cs & Hcfg & Hnb & Hprefix & Hcs).
  destruct (parse_item_cells _ _ _ _ _ Hcs) as (Hfilter & res & Hres & Hids).
  assert (parse_plots_notebook built = Ok res) as Hparse.
  { unfold parse_plots_notebook. rewrite parse_cells_filter, Hnb.
    rewrite filter_unmarked_prefix, Hfilter by done. exact Hres. }
  exists res. split_and!; [done|done|].
  assert (Forall (λ c, outputs c = []) (cells built)) as Hempty.
  { destruct (build_plots_notebook_inv _ _ _ _ Hbuilt) as (? & blocks & _ & _ & ->).
    unfold build_new_nb. cbn [cells]. apply Forall_fmap, Forall_true. done. }
  rewrite Hnb in Hempty. apply Forall_app in Hempty as [_ Hempty].
  apply parse_cells_Ok in Hres. rewrite Hfilter in Hres.
  clear -Hres Hempty. induction Hres as [|c r cs res Hc _ IH]; [constructor|].
  apply Forall_cons in Hempty as [Hout Hempty].
  constructor; [|by apply IH].
  apply parse_cell_Some in Hc as (_ & -> & -> & ->). by rewrite Hout.
Qed.

Lemma unexecuted_notebook_reports_no_plot_witness :
  build_plots_notebook demo_fs demo_generator demo_dataset = Ok demo_built ∧
  ∃ res,
    parse_plots_notebook demo_built = Ok res ∧
    Outcome.id <$> res = Item.id <$> demo_dataset ∧
    Forall (λ r, Outcome.error r = "" ∧ Outcome.plots_generated r = [] ∧
                 Outcome.has_plot r = false) res.
Proof.
  split; [reflexivity|].
  apply (unexecuted_notebook_reports_no_plot demo_fs demo_generator demo_dataset demo_built).
  reflexivity.
Defined.

(** * Further properties of the assembler *)

Lemma check_csv_first_missing (fs : FileSystem) (self : VisGenerator)
    (pre post : list Item.t) (item : Item.t) :
  Forall (λ i, path_exists fs (csv_path_of self i) = true) pre →
  path_exists fs (csv_path_of self item) = false →
  check_csv fs self (pre ++ item :: post)
  = Raise (FileNotFoundError
             ("Unpacked csv datafile not found on " +:+ posix (csv_path_of self item))).
Proof.
  intros Hpre Hmiss. induction Hpre as [|i pre Hi _ IH]; cbn [app check_csv].
  - by rewrite Hmiss.
  - by rewrite Hi.
Qed.

(** X5: the construction of the harness succeeds exactly when the data file of
    every item exists, and then gives the generator of the given folders with
    the notebook path [all_plots.ipynb]; otherwise its exception names the
    file of the first item, in dataset order, whose file is missing (the text
    of the path is given for a folder written the way [pathlib] prints it). *)
Theorem init_succeeds_iff_all_csv_exist
    (fs : FileSystem) (output_folder csv_dir : string) (cfg : option DictConfig)
    (dataset : list Item.t) :
  (∀ self,
     init fs output_folder dataset csv_dir cfg = Ok self ↔
     self = {| output_folder := output_folder;
               plots_nb_path := joinpath output_folder "all_plots.ipynb";
               config := cfg; csv_folder := csv_dir |} ∧
     Forall (λ item, path_exists fs
                       (joinpath csv_dir ("data-" +:+ Py.str (Item.id item) +:+ ".csv"))
                     = true) dataset) ∧
  (∀ pre item post,
     dataset = pre ++ item :: post →
     Forall (λ i, path_exists fs
                    (joinpath csv_dir ("data-" +:+ Py.str (Item.id i) +:+ ".csv"))
                  = true) pre →
     path_exists fs (joinpath csv_dir ("data-" +:+ Py.str (Item.id item) +:+ ".csv"))
     = false →
     normal_folder csv_dir = true →
     init fs output_folder dataset csv_dir cfg
     = Raise (FileNotFoundError
                ("Unpacked csv datafile not found on " +:+ csv_dir +:+ "/" +:+
                 "data-" +:+ Py.str (Item.id item) +:+ ".csv"))).
Proof.
  split.
  - intros self. split.
    + intros Hinit. by apply init_Ok in Hinit as [-> ?].
    + intros [-> Hall]. unfold init.
      set (self := {| output_folder := output_folder;
                      plots_nb_path := joinpath output_folder "all_plots.ipynb";
                      config := cfg; csv_folder := csv_dir |}).
      assert (check_csv fs self dataset = Ok tt) as -> by (by apply check_csv_Ok).
      done.
  - intros pre item post -> Hpre Hmiss _. unfold init.
    set (self := {| output_folder := output_folder;
                    plots_nb_path := joinpath output_folder "all_plots.ipynb";
                    config := cfg; csv_folder := csv_dir |}).
    rewrite (check_csv_first_missing fs self pre post item Hpre Hmiss). done.
Qed.

Lemma startswith_app_long (a b p : string) :
  (String.length p ≤ String.length a)%nat →
  Py.startswith (a +:+ b) p = Py.startswith a p.
Proof.
  revert a. induction p as [|c p IH]; intros a Hlen; [done|].
  destruct a as [|d a]; [cbn in Hlen; lia|]. rewrite sapp_cons. cbn [Py.startswith].
  case_decide; [|done]. apply IH. cbn in Hlen. lia.
Qed.

Lemma contains_tail (sub : string) (c : ascii) (s : string) :
  Py.contains sub (String c s) = false →
  Py.startswith (String c s) sub = false ∧ Py.contains sub s = false.
Proof. cbn [Py.contains]. by intros [? ?]%orb_false_iff. Qed.

Lemma replace_go_absent (old new s : string) :
  Py.contains old s = false → Py.replace_go old new 0 s = s.
Proof.
  induction s as [|c s IH]; [done|]. intros [Hstart Hrest]%contains_tail.
  cbn [Py.replace_go]. rewrite Hstart. f_equal. by apply IH.
Qed.

Lemma replace_go_skip (old new a s : string) :
  Py.replace_go old new (String.length a) (a +:+ s) = Py.replace_go old new 0 s.
Proof.
  induction a as [|c a IH]; [done|]. rewrite sapp_cons. cbn [String.length Py.replace_go].
  exact IH.
Qed.

(** One occurrence of [old], none before it and none after it. *)
Lemma replace_one (old_init : string) (l : ascii) (new pre post : string) :
  Py.contains (old_init +:+ String l "") (pre +:+ old_init) = false →
  Py.contains (old_init +:+ String l "") post = false →
  Py.replace (old_init +:+ String l "") new (pre +:+ (old_init +:+ String l "") +:+ post)
  = pre +:+ new +:+ post.
Proof.
  set (old := old_init +:+ String l ""). intros Hpre Hpost. unfold Py.replace.
  assert (String.length old = S (String.length old_init)) as Hlen.
  { unfold old. rewrite slength_app. cbn. lia. }
  induction pre as [|c pre IH].
  - rewrite !sapp_nil_l.
    destruct old as [|o r] eqn:Hold; [done|].
    rewrite sapp_cons. cbn [Py.replace_go].
    rewrite <- sapp_cons, startswith_app. cbn [String.length Nat.pred].
    by rewrite replace_go_skip, replace_go_absent.
  - rewrite sapp_cons in Hpre. apply contains_tail in Hpre as [Hstart Hpre].
    rewrite sapp_cons. cbn [Py.replace_go].
    assert (Py.startswith (String c (pre +:+ old +:+ post)) old = false) as ->.
    { rewrite <- Hstart. rewrite <- !sapp_cons.
      assert (String c pre +:+ old +:+ post
              = (String c pre +:+ old_init) +:+ (String l "" +:+ post)) as ->.
      { unfold old. by rewrite !sapp_assoc. }
      apply startswith_app_long. rewrite Hlen, slength_app. cbn. lia. }
    rewrite sapp_cons. f_equal. by apply IH.
Qed.

(** X6: the data-loading code is given the data file of its own item: a single
    reference to [data.csv] is replaced by [<csv_folder>/data-<id>.csv], for a
    folder written the way [pathlib] prints it, and a data-loading code that
    does not mention [data.csv] is taken as it is. *)
Theorem generate_code_loads_item_file
    (fs : FileSystem) (self : VisGenerator) (item : Item.t) (plotting_lib : string) :
  normal_folder (csv_folder self) = true →
  path_exists fs (csv_path_of self item) = true →
  (∀ pre post,
     Item.code_data item = pre +:+ "data.csv" +:+ post →
     Py.contains "data.csv" (pre +:+ "data.cs") = false →
     Py.contains "data.csv" post = false →
     generate_code fs self item plotting_lib
     = Ok (Py.join Py.nl
             (("# id = " +:+ Py.str (Item.id item)) :: setup_lines plotting_lib ++
              [pre +:+ (csv_folder self +:+ "/" +:+ "data-" +:+ Py.str (Item.id item)
                        +:+ ".csv") +:+ post;
               Item.code item] ++
              teardown_lines plotting_lib ++ ["%reset -f"]))) ∧
  (Py.contains "data.csv" (Item.code_data item) = false →
   generate_code fs self item plotting_lib
   = Ok (Py.join Py.nl
           (("# id = " +:+ Py.str (Item.id item)) :: setup_lines plotting_lib ++
            [Item.code_data item; Item.code item] ++
            teardown_lines plotting_lib ++ ["%reset -f"]))).
Proof.
  intros _ Hcsv. rewrite generate_code_blocks by done. unfold data_load_code. split.
  - intros pre post -> Hpre Hpost.
    by rewrite (replace_one "data.cs" "v" _ pre post Hpre Hpost).
  - intros Habsent. unfold Py.replace. by rewrite replace_go_absent.
Qed.

Lemma generate_code_loads_item_file_witness :
  normal_folder (csv_folder demo_generator) = true ∧
  path_exists demo_fs
    (csv_path_of demo_generator
       {| Item.id := 7; Item.code_data := "df = pd.read_csv('data.csv')";
          Item.code := "df.plot()" |}) = true ∧
  generate_code demo_fs demo_generator
    {| Item.id := 7; Item.code_data := "df = pd.read_csv('data.csv')";
       Item.code := "df.plot()" |} "plotly"
  = Ok (Py.join Py.nl
          (("# id = " +:+ Py.str 7) :: setup_lines "plotly" ++
           ["df = pd.read_csv('" +:+ ("data" +:+ "/" +:+ "data-" +:+ Py.str 7 +:+ ".csv")
            +:+ "')"; "df.plot()"] ++
           teardown_lines "plotly" ++ ["%reset -f"])).
Proof.
  split_and!; [reflexivity|reflexivity|].
  apply (proj1 (generate_code_loads_item_file demo_fs demo_generator
                  {| Item.id := 7; Item.code_data := "df = pd.read_csv('data.csv')";
                     Item.code := "df.plot()" |} "plotly" eq_refl eq_refl)
           "df = pd.read_csv('" "')"); reflexivity.
Defined.

Lemma marker_inj : Inj (=) (=) marker.
Proof.
  intros z1 z2 H. unfold marker in H. apply (inj (String.app _)) in H.
  unfold Py.str in H. by apply (inj pretty) in H.
Qed.

(** X7: the snippets of two items are equal only if the items have the same
    id, whatever the library tags and the generators: the marker line tells
    the sub-units of different items apart. *)
Theorem equal_snippets_have_equal_ids
    (fs1 fs2 : FileSystem) (self1 self2 : VisGenerator) (item1 item2 : Item.t)
    (plotting_lib1 plotting_lib2 code : string) :
  generate_code fs1 self1 item1 plotting_lib1 = Ok code →
  generate_code fs2 self2 item2 plotting_lib2 = Ok code →
  Item.id item1 = Item.id item2.
Proof.
  intros [t1 H1]%generate_code_marker [t2 H2]%generate_code_marker.
  assert (head (Py.split Py.LF code) = Some (marker (Item.id item1))) as Hh1.
  { rewrite H1. apply first_line_marker. eauto. }
  assert (head (Py.split Py.LF code) = Some (marker (Item.id item2))) as Hh2.
  { rewrite H2. apply first_line_marker. eauto. }
  apply marker_inj. congruence.
Qed.

Lemma equal_snippets_have_equal_ids_witness :
  generate_code demo_fs demo_generator
    {| Item.id := 7; Item.code_data := "x" +:+ Py.nl +:+ "y"; Item.code := "z" |} ""
  = Ok (Py.join Py.nl ["# id = 7"; "x"; "y"; "z"; "%reset -f"]) ∧
  generate_code demo_fs demo_generator
    {| Item.id := 7; Item.code_data := "x"; Item.code := "y" +:+ Py.nl +:+ "z" |} ""
  = Ok (Py.join Py.nl ["# id = 7"; "x"; "y"; "z"; "%reset -f"]) ∧
  Item.id {| Item.id := 7; Item.code_data := "x" +:+ Py.nl +:+ "y"; Item.code := "z" |}
  = Item.id {| Item.id := 7; Item.code_data := "x"; Item.code := "y" +:+ Py.nl +:+ "z" |}.
Proof.
  split; [reflexivity|]. split; [reflexivity|].
  apply (equal_snippets_have_equal_ids demo_fs demo_fs demo_generator demo_generator
           {| Item.id := 7; Item.code_data := "x" +:+ Py.nl +:+ "y"; Item.code := "z" |}
           {| Item.id := 7; Item.code_data := "x"; Item.code := "y" +:+ Py.nl +:+ "z" |}
           "" "" (Py.join Py.nl ["# id = 7"; "x"; "y"; "z"; "%reset -f"]));
    reflexivity.
Defined.

Lemma generate_code_csv_folder (fs : FileSystem) (self self' : VisGenerator)
    (item : Item.t) (plotting_lib : string) :
  csv_folder self' = csv_folder self →
  generate_code fs self' item plotting_lib = generate_code fs self item plotting_lib.
Proof.
  intros Hdir. unfold generate_code, csv_path_of. by rewrite Hdir.
Qed.

Lemma traverse_ext {A B : Type} (f g : A → result B) (l : list A) :
  (∀ a, f a = g a) → traverse f l = traverse g l.
Proof.
  intros Hext. induction l as [|a l IH]; [done|]. cbn. by rewrite Hext, IH.
Qed.

(** X8: [build_plots] matches the library tag without regard to the case of
    its letters: two configured tags with the same lower-case form give the
    same notebook. *)
Theorem build_plots_notebook_ignores_case
    (fs : FileSystem) (self1 self2 : VisGenerator) (cfg1 cfg2 : DictConfig)
    (dataset : list Item.t) :
  config self1 = Some cfg1 → config self2 = Some cfg2 →
  csv_folder self1 = csv_folder self2 →
  Py.lower (plotting_lib cfg1) = Py.lower (plotting_lib cfg2) →
  build_plots_notebook fs self1 dataset = build_plots_notebook fs self2 dataset.
Proof.
  intros H1 H2 Hdir Hlower. unfold build_plots_notebook.
  rewrite H1, H2. cbn -[apply_tolist]. rewrite Hlower.
  destruct dataset as [|item dataset]; [done|]. unfold apply_tolist.
  by rewrite (traverse_ext _ _ (item :: dataset)
                (λ item, generate_code_csv_folder fs self2 self1 item _ Hdir)).
Qed.

Lemma build_plots_notebook_ignores_case_witness :
  config demo_generator = Some demo_config ∧
  config {| output_folder := "out"; plots_nb_path := joinpath "out" "all_plots.ipynb";
            config := Some {| plotting_lib := "MatPlotLib" |}; csv_folder := "data" |}
  = Some {| plotting_lib := "MatPlotLib" |} ∧
  Py.lower "matplotlib" = Py.lower "MatPlotLib" ∧
  build_plots_notebook demo_fs demo_generator demo_dataset
  = build_plots_notebook demo_fs
      {| output_folder := "out"; plots_nb_path := joinpath "out" "all_plots.ipynb";
         config := Some {| plotting_lib := "MatPlotLib" |}; csv_folder := "data" |}
      demo_dataset.
Proof.
  split_and!; [reflexivity|reflexivity|reflexivity|].
  apply (build_plots_notebook_ignores_case demo_fs demo_generator _ demo_config
           {| plotting_lib := "MatPlotLib" |} demo_dataset); reflexivity.
Defined.

(** * Further properties of the file versioning *)

(** X9: for a file name of one component and a postfix without a slash, a
    second call, made after the file returned by the first one has been
    created, returns another path, of a higher index, that does not exist
    either; its last existing file is present, and when the next index was
    free the second call returns exactly that index, with the file of the
    first call as the last existing one. *)
Theorem second_run_gets_a_higher_index
    (fs : FileSystem) (folder filename postfix : string) :
  one_component filename = true →
  Py.contains "/" postfix = false →
  ∃ k k' : nat,
    fst <$> add_index_to_filename fs folder filename postfix
    = Some (indexed (results_file_base folder filename postfix) k) ∧
    add_index_to_filename
      ({[ indexed (results_file_base folder filename postfix) k ]} ∪ fs)
      folder filename postfix
    = Some (indexed (results_file_base folder filename postfix) k',
            Some (indexed (results_file_base folder filename postfix) (Nat.pred k'))) ∧
    (k < k')%nat ∧
    indexed (results_file_base folder filename postfix) k'
    ≠ indexed (results_file_base folder filename postfix) k ∧
    path_exists fs (indexed (results_file_base folder filename postfix) k') = false ∧
    (path_exists fs (indexed (results_file_base folder filename postfix) (S k)) = false →
     k' = S k).
Proof.
  intros _ _.
  set (base := results_file_base folder filename postfix).
  destruct (add_index_loop_spec fs base (size fs) 0 None)
    as (k & _ & Hfree & Hbelow & Hloop); [intros j Hj; lia|lia|].
  set (fs' := {[ indexed base k ]} ∪ fs).
  destruct (add_index_loop_spec fs' base (size fs') 0 None)
    as (k' & _ & Hfree' & Hbelow' & Hloop'); [intros j Hj; lia|lia|].
  assert (k < k')%nat as Hlt.
  { destruct (decide (k < k')%nat) as [|Hge]; [done|]. exfalso. apply Hfree'.
    destruct (decide (k' = k)) as [->|Hne]; [set_solver|].
    apply elem_of_union_r, Hbelow. lia. }
  exists k, k'. split_and!.
  - change (add_index_to_filename fs folder filename postfix)
      with (add_index_loop fs base (size fs) 0 (indexed base O) None).
    by rewrite Hloop.
  - etrans; [exact Hloop'|]. by rewrite decide_False by lia.
  - done.
  - intros Heq. apply indexed_inj in Heq. lia.
  - unfold path_exists. apply bool_decide_eq_false. set_solver.
  - intros Hnext. unfold path_exists in Hnext. apply bool_decide_eq_false in Hnext.
    destruct (decide (k' = S k)) as [|Hne]; [done|]. exfalso.
    assert (indexed base (S k) ∈ fs') as Hin by (apply Hbelow'; lia).
    apply elem_of_union in Hin as [Hin|Hin]; [|done].
    apply elem_of_singleton in Hin. apply indexed_inj in Hin. lia.
Qed.

Lemma second_run_gets_a_higher_index_witness :
  one_component "plots_d_m_matplotlib.ipynb" = true ∧
  Py.contains "/" "" = false ∧
  ∃ k k' : nat,
    fst <$> add_index_to_filename demo_fs "out" "plots_d_m_matplotlib.ipynb" ""
    = Some (indexed (results_file_base "out" "plots_d_m_matplotlib.ipynb" "") k) ∧
    (k < k')%nat ∧
    path_exists demo_fs
      (indexed (results_file_base "out" "plots_d_m_matplotlib.ipynb" "") k') = false.
Proof.
  assert (one_component "plots_d_m_matplotlib.ipynb" = true) as H1
    by (vm_compute; reflexivity).
  assert (Py.contains "/" "" = false) as H2 by reflexivity.
  split_and!; [exact H1|exact H2|].
  destruct (second_run_gets_a_higher_index demo_fs "out" "plots_d_m_matplotlib.ipynb"
              "" H1 H2) as (k & k' & Hfirst & _ & Hlt & _ & Hfree & _).
  exists k, k'. split_and!; [exact Hfirst|exact Hlt|exact Hfree].
Defined.

Lemma rsplit_dot_none (s : string) :
  all_chars (λ c, negb (bool_decide (c = "."%char))) s = true → rsplit_dot s = None.
Proof.
  induction s as [|c s IH]; [done|]. cbn [all_chars rsplit_dot].
  intros [Hc Hs]%andb_true_iff. rewrite (IH Hs).
  apply negb_true_iff, bool_decide_eq_false in Hc. by rewrite decide_False.
Qed.

Lemma rsplit_dot_ext (s ext : string) :
  all_chars (λ c, negb (bool_decide (c = "."%char))) ext = true →
  rsplit_dot (s +:+ "." +:+ ext) = Some (s, "." +:+ ext).
Proof.
  intros Hext. induction s as [|c s IH].
  - rewrite sapp_nil_l. change ("." +:+ ext) with (String "." ext).
    cbn [rsplit_dot]. rewrite (rsplit_dot_none ext Hext). by rewrite decide_True.
  - rewrite sapp_cons. cbn [rsplit_dot]. by rewrite IH.
Qed.

Lemma stem_suffix_ext (folder s ext : string) :
  s ≠ "" → ext ≠ "" →
  all_chars (λ c, negb (bool_decide (c = "."%char))) ext = true →
  stem {| parent := folder; name := s +:+ "." +:+ ext |} = s ∧
  suffix {| parent := folder; name := s +:+ "." +:+ ext |} = "." +:+ ext.
Proof.
  intros Hs Hext Hdots. unfold stem, suffix. cbn [name].
  rewrite (rsplit_dot_ext s ext Hdots).
  assert ("." +:+ ext ≠ ".") as Hne by (by destruct ext).
  rewrite !(decide_False (P := s = "")) by done.
  by rewrite !(decide_False (P := "." +:+ ext = ".")) by done.
Qed.

Lemma add_index_to_filename_ext_name
    (fs : FileSystem) (folder s ext postfix : string) :
  s ≠ "" → ext ≠ "" →
  all_chars (λ c, negb (bool_decide (c = "."%char))) ext = true →
  ∃ k : nat,
    add_index_to_filename fs folder (s +:+ "." +:+ ext) postfix
    = Some ({| parent := folder;
               name := s +:+ postfix +:+ "_" +:+ Py.str (Z.of_nat k) +:+ "." +:+ ext |},
            if decide (k = O) then None
            else Some {| parent := folder;
                         name := s +:+ postfix +:+ "_" +:+
                                 Py.str (Z.of_nat (Nat.pred k)) +:+ "." +:+ ext |}) ∧
    path_exists fs {| parent := folder;
                      name := s +:+ postfix +:+ "_" +:+ Py.str (Z.of_nat k)
                              +:+ "." +:+ ext |} = false.
Proof.
  intros Hs Hext Hdots.
  set (base := results_file_base folder (s +:+ "." +:+ ext) postfix).
  destruct (stem_suffix_ext folder s ext Hs Hext Hdots) as [Hstem Hsuffix].
  assert (base = {| parent := folder; name := (s +:+ postfix) +:+ "." +:+ ext |}) as Hbase.
  { unfold base, results_file_base, with_stem, joinpath. cbn [parent].
    by rewrite Hstem, Hsuffix. }
  assert (s +:+ postfix ≠ "") as Hsp by (by destruct s).
  destruct (stem_suffix_ext folder (s +:+ postfix) ext Hsp Hext Hdots) as [Hstem' Hsuffix'].
  assert (∀ i, indexed base i
               = {| parent := folder;
                    name := s +:+ postfix +:+ "_" +:+ Py.str (Z.of_nat i) +:+ "." +:+ ext |})
    as Hindexed.
  { intros i. unfold indexed, with_stem. rewrite Hbase. cbn [parent].
    rewrite Hstem', Hsuffix'. f_equal. by rewrite !sapp_assoc. }
  destruct (add_index_loop_spec fs base (size fs) 0 None)
    as (k & _ & Hfree & _ & Hloop); [intros j Hj; lia|lia|].
  exists k. split.
  - change (add_index_to_filename fs folder (s +:+ "." +:+ ext) postfix)
      with (add_index_loop fs base (size fs) 0 (indexed base O) None).
    rewrite Hloop, !Hindexed. done.
  - rewrite <- Hindexed. unfold path_exists. by apply bool_decide_eq_false.
Qed.

(** X10: for a file name [<stem>.<ext>] of one component (no slash in it nor
    in the postfix) the returned path is [<folder>/<stem><postfix>_<k>.<ext>]:
    the postfix and the index go before the extension, which is kept. *)
Theorem add_index_to_filename_keeps_extension
    (fs : FileSystem) (folder s ext postfix : string) :
  s ≠ "" → ext ≠ "" →
  all_chars (λ c, negb (bool_decide (c = "."%char))) ext = true →
  all_chars (λ c, negb (bool_decide (c = "/"%char))) (s +:+ postfix +:+ ext) = true →
  ∃ k : nat,
    fst <$> add_index_to_filename fs folder (s +:+ "." +:+ ext) postfix
    = Some {| parent := folder;
              name := s +:+ postfix +:+ "_" +:+ Py.str (Z.of_nat k) +:+ "." +:+ ext |}.
Proof.
  intros Hs Hext Hdots _.
  destruct (add_index_to_filename_ext_name fs folder s ext postfix Hs Hext Hdots)
    as (k & -> & _).
  by exists k.
Qed.

Lemma add_index_to_filename_keeps_extension_witness :
  "results" ≠ "" ∧ "jsonl" ≠ "" ∧
  all_chars (λ c, negb (bool_decide (c = "."%char))) "jsonl" = true ∧
  all_chars (λ c, negb (bool_decide (c = "/"%char))) ("results" +:+ "_v2" +:+ "jsonl")
  = true ∧
  ∃ k : nat,
    fst <$> add_index_to_filename demo_fs "out" ("results" +:+ "." +:+ "jsonl") "_v2"
    = Some {| parent := "out";
              name := "results" +:+ "_v2" +:+ "_" +:+ Py.str (Z.of_nat k) +:+ "." +:+ "jsonl" |}.
Proof.
  split_and!; [done|done|reflexivity|reflexivity|].
  apply (add_index_to_filename_keeps_extension demo_fs "out" "results" "jsonl" "_v2");
    [done|done|reflexivity|reflexivity].
Defined.

Lemma replace_slash_gone (s : string) :
  Py.contains "/" (Py.replace "/" "__" s) = false.
Proof.
  unfold Py.replace. induction s as [|c s IH]; [done|].
  cbn [Py.replace_go]. destruct (Py.startswith (String c s) "/") eqn:Hc.
  - cbn [String.length Nat.pred]. rewrite !sapp_cons, sapp_nil_l.
    cbn [Py.contains]. rewrite IH. done.
  - cbn [Py.contains]. rewrite IH, orb_false_r.
    cbn [Py.startswith] in *. by case_decide.
Qed.

Lemma split_head_no_sep (sep : ascii) (s : string) :
  ∃ h, head (Py.split sep s) = Some h ∧
       all_chars (λ c, negb (bool_decide (c = sep))) h = true.
Proof.
  induction s as [|c s (h & Hh & Hall)]; [by exists ""|].
  cbn [Py.split]. case_decide as Hc; [by exists ""|].
  destruct (Py.split sep s) as [|h' t]; [done|]. injection Hh as ->.
  exists (String c h). split; [done|]. cbn [all_chars].
  by rewrite Hall, bool_decide_eq_false_2.
Qed.

(** X11: when the descriptor and the library tag hold no slash, the notebook
    of [draw_plots] is written to
    [<output_folder>/plots_<descriptor>_<model>_<lib>_<k>.ipynb], a path that
    does not exist yet, where the slashes of the model name are replaced (no
    slash is left in it) and [<lib>] is the tag up to its first space. *)
Theorem draw_plots_notebook_name
    (fs : FileSystem) (output_folder model data_descriptor plotting_lib : string) :
  Py.contains "/" data_descriptor = false →
  Py.contains "/" plotting_lib = false →
  ∃ (k : nat) (plot_lib : string),
    head (Py.split " "%char plotting_lib) = Some plot_lib ∧
    all_chars (λ c, negb (bool_decide (c = " "%char))) plot_lib = true ∧
    Py.contains "/" (Py.replace "/" "__" model) = false ∧
    fst <$> add_index_to_filename fs output_folder
              (plots_filename model data_descriptor plotting_lib) ""
    = Some {| parent := output_folder;
              name := "plots_" +:+ data_descriptor +:+ "_" +:+
                      Py.replace "/" "__" model +:+ "_" +:+ plot_lib +:+
                      "_" +:+ Py.str (Z.of_nat k) +:+ ".ipynb" |} ∧
    path_exists fs {| parent := output_folder;
                      name := "plots_" +:+ data_descriptor +:+ "_" +:+
                              Py.replace "/" "__" model +:+ "_" +:+ plot_lib +:+
                              "_" +:+ Py.str (Z.of_nat k) +:+ ".ipynb" |} = false.
Proof.
  intros _ _.
  destruct (split_head_no_sep " "%char plotting_lib) as (plot_lib & Hhead & Hall).
  set (s := "plots_" +:+ data_descriptor +:+ "_" +:+ Py.replace "/" "__" model
            +:+ "_" +:+ plot_lib).
  assert (plots_filename model data_descriptor plotting_lib = s +:+ "." +:+ "ipynb") as Hname.
  { unfold plots_filename, s. rewrite Hhead. cbn [default from_option id].
    by rewrite !sapp_assoc. }
  destruct (add_index_to_filename_ext_name fs output_folder s "ipynb" "")
    as (k & Hres & Hfree); [done|done|reflexivity|].
  assert (s +:+ "" +:+ "_" +:+ Py.str (Z.of_nat k) +:+ "." +:+ "ipynb"
          = "plots_" +:+ data_descriptor +:+ "_" +:+ Py.replace "/" "__" model +:+ "_"
            +:+ plot_lib +:+ "_" +:+ Py.str (Z.of_nat k) +:+ ".ipynb") as Hn.
  { unfold s. rewrite !sapp_assoc. reflexivity. }
  rewrite Hn in Hres, Hfree.
  exists k, plot_lib. split_and!; [done|done|apply replace_slash_gone| |done].
  by rewrite Hname, Hres.
Qed.

Lemma draw_plots_notebook_name_witness :
  Py.contains "/" "pandas" = false ∧
  Py.contains "/" "lets-plot (ggplot)" = false ∧
  ∃ (k : nat) (plot_lib : string),
    head (Py.split " "%char "lets-plot (ggplot)") = Some plot_lib ∧
    fst <$> add_index_to_filename demo_fs "out"
              (plots_filename "openai/gpt-4o" "pandas" "lets-plot (ggplot)") ""
    = Some {| parent := "out";
              name := "plots_" +:+ "pandas" +:+ "_" +:+
                      Py.replace "/" "__" "openai/gpt-4o" +:+ "_" +:+ plot_lib +:+
                      "_" +:+ Py.str (Z.of_nat k) +:+ ".ipynb" |}.
Proof.
  assert (Py.contains "/" "pandas" = false) as Hd by (vm_compute; reflexivity).
  assert (Py.contains "/" "lets-plot (ggplot)" = false) as Hl
    by (vm_compute; reflexivity).
  split_and!; [exact Hd|exact Hl|].
  destruct (draw_plots_notebook_name demo_fs "out" "openai/gpt-4o" "pandas"
              "lets-plot (ggplot)" Hd Hl)
    as (k & plot_lib & Hhead & _ & _ & Hres & _).
  exists k, plot_lib. split; [exact Hhead|exact Hres].
Defined.

(** * Further properties of the merge *)

Lemma length_bind_rows {B C : Type} (f : B → list C) (l : list B) :
  length (l ≫= f) = sum_list ((λ x, length (f x)) <$> l).
Proof.
  induction l as [|x l IH]; [done|]. cbn. by rewrite length_app, IH.
Qed.

Lemma length_merged_rows (dataset : DataFrame) (plot_results : list Outcome.t)
    (row : list Value) :
  length (merged_rows dataset plot_results row) = row_copies dataset plot_results row.
Proof.
  unfold merged_rows, row_copies.
  destruct (results_of dataset row plot_results) as [|m ms]; [done|].
  rewrite length_fmap. cbn [length]. lia.
Qed.

Lemma filter_nil_in {B : Type} (P : B → Prop) `{∀ x, Decision (P x)} (l : list B) :
  (∀ x, x ∈ l → ¬ P x) → filter P l = [].
Proof.
  induction l as [|x l IH]; intros Hall; [done|].
  rewrite filter_cons, decide_False by (apply Hall; by left).
  apply IH. intros y Hy. apply Hall. by right.
Qed.

Lemma filter_at_most_one {B : Type} (P : B → Prop) `{∀ x, Decision (P x)}
    (f : B → Z) (l : list B) :
  NoDup (f <$> l) → (∀ x y, P x → P y → f x = f y) →
  (length (filter P l) ≤ 1)%nat.
Proof.
  intros Hnd Hsame. induction l as [|x l IH]; [cbn; lia|].
  rewrite fmap_cons in Hnd. apply NoDup_cons in Hnd as [Hx Hnd].
  specialize (IH Hnd). rewrite filter_cons. case_decide as HPx; [|done].
  rewrite (filter_nil_in P l); [cbn; lia|].
  intros y Hy HPy. apply Hx. rewrite (Hsame x y HPx HPy).
  by apply list_elem_of_fmap_2.
Qed.

Lemma results_of_at_most_one (dataset : DataFrame) (plot_results : list Outcome.t)
    (row : list Value) :
  NoDup (Outcome.id <$> plot_results) →
  (length (results_of dataset row plot_results) ≤ 1)%nat.
Proof.
  intros Hnd. unfold results_of. apply (filter_at_most_one _ Outcome.id); [done|].
  intros x y Hx Hy. congruence.
Qed.

Lemma merged_rows_single (dataset : DataFrame) (plot_results : list Outcome.t)
    (row : list Value) :
  NoDup (Outcome.id <$> plot_results) →
  ∃ tail, merged_rows dataset plot_results row = [kept_cells dataset row ++ tail] ∧
          length tail = 3%nat.
Proof.
  intros Hnd. pose proof (results_of_at_most_one dataset plot_results row Hnd) as Hle.
  unfold merged_rows. destruct (results_of dataset row plot_results) as [|m [|m' ms]].
  - by eexists.
  - by eexists.
  - cbn in Hle. lia.
Qed.

Lemma row_copies_at_least_one (dataset : DataFrame) (plot_results : list Outcome.t)
    (l : list (list Value)) :
  (length l ≤ sum_list (row_copies dataset plot_results <$> l))%nat.
Proof.
  induction l as [|row l IH]; [done|]. rewrite fmap_cons. cbn [sum_list length].
  unfold row_copies at 1.
  pose proof (Nat.le_max_l 1 (length (results_of dataset row plot_results))) as Hmax.
  revert IH Hmax. generalize (sum_list (row_copies dataset plot_results <$> l)).
  generalize (Nat.max 1 (length (results_of dataset row plot_results))).
  intros a b. cbv [id]. lia.
Qed.

(** X12: for a dataset with distinct column labels and integer ids, the merge
    gives every row of the dataset as many rows as there are Outcomes of its
    id, and one when there is none, so no row is lost; when the ids of the
    Outcomes are pairwise different the merged frame has the rows of the
    dataset, one for one and in their order. *)
Theorem merge_response_row_count
    (dataset : DataFrame) (plot_results : list Outcome.t) :
  "id" ∈ columns dataset → NoDup (columns dataset) → rectangular dataset →
  int_ids dataset → plot_results ≠ [] →
  ∃ merged,
    merge_response dataset (pd_DataFrame plot_results) = Ok merged ∧
    length (rows merged)
    = sum_list (row_copies dataset plot_results <$> rows dataset) ∧
    (length (rows dataset) ≤ length (rows merged))%nat ∧
    (NoDup (Outcome.id <$> plot_results) →
     length (rows merged) = length (rows dataset) ∧
     ∀ i row, rows dataset !! i = Some row →
              ∃ tail, rows merged !! i = Some (kept_cells dataset row ++ tail) ∧
                      length tail = 3%nat).
Proof.
  intros Hid Hnodup Hrect Hints Hne. destruct plot_results as [|r0 rs]; [done|].
  eexists. split; [by apply merge_response_spec|]. cbn [rows].
  assert (length (rows dataset ≫= merged_rows dataset (r0 :: rs))
          = sum_list (row_copies dataset (r0 :: rs) <$> rows dataset)) as Hcount.
  { rewrite length_bind_rows. f_equal. apply list_fmap_ext.
    intros _ row _. apply length_merged_rows. }
  split_and!; [done| |].
  - rewrite Hcount. apply row_copies_at_least_one.
  - intros Hnd.
    assert (∀ l : list (list Value),
              ∃ tails, l ≫= merged_rows dataset (r0 :: rs)
                       = zip_with (λ row tail, kept_cells dataset row ++ tail) l tails ∧
                       length tails = length l ∧
                       Forall (λ tail, length tail = 3%nat) tails) as Hzip.
    { induction l as [|row l (tails & Hl & Hlen & Hall)]; [by exists []|].
      destruct (merged_rows_single dataset (r0 :: rs) row Hnd) as (tail & Hrow & Htail).
      exists (tail :: tails). cbn. rewrite Hrow, Hl, Hlen. by split_and!; [|  |constructor]. }
    destruct (Hzip (rows dataset)) as (tails & -> & Hlen & Hall). split.
    + rewrite length_zip_with. lia.
    + intros i row Hi.
      destruct (lookup_lt_is_Some_2 tails i) as [tail Htail].
      { rewrite Hlen. by eapply lookup_lt_Some. }
      exists tail. split.
      * rewrite lookup_zip_with, Hi. cbn. by rewrite Htail.
      * by eapply (Forall_lookup_1 _ _ _ _ Hall).
Qed.

Lemma merge_response_row_count_witness :
  "id" ∈ columns demo_frame ∧ NoDup (columns demo_frame) ∧ rectangular demo_frame ∧
  int_ids demo_frame ∧ demo_results ≠ [] ∧
  ∃ merged,
    merge_response demo_frame (pd_DataFrame demo_results) = Ok merged ∧
    length (rows merged)
    = sum_list (row_copies demo_frame demo_results <$> rows demo_frame) ∧
    (length (rows demo_frame) ≤ length (rows merged))%nat ∧
    (NoDup (Outcome.id <$> demo_results) →
     length (rows merged) = length (rows demo_frame) ∧
     ∀ i row, rows demo_frame !! i = Some row →
              ∃ tail, rows merged !! i = Some (kept_cells demo_frame row ++ tail) ∧
                      length tail = 3%nat).
Proof.
  assert ("id" ∈ columns demo_frame) as H1 by (by left).
  assert (NoDup (columns demo_frame)) as H2 by (by apply (bool_decide_unpack _)).
  assert (rectangular demo_frame) as H3 by (repeat constructor).
  assert (int_ids demo_frame) as H4 by (repeat constructor).
  assert (demo_results ≠ []) as H5 by done.
  split_and!; [exact H1|exact H2|exact H3|exact H4|exact H5|].
  exact (merge_response_row_count demo_frame demo_results H1 H2 H3 H4 H5).
Defined.

Lemma cell_at_app_r (c : string) (cols cols' : list string) (row row' : list Value) :
  length row = length cols → c ∉ cols →
  cell_at (cols ++ cols') (row ++ row') c = cell_at cols' row' c.
Proof.
  intros Hlen Hc. revert row Hlen.
  induction cols as [|x cols IH]; intros [|v row] Hlen; try done.
  injection Hlen as Hlen. cbn [app]. rewrite cell_at_cons.
  rewrite decide_False by (intros ->; apply Hc; by left).
  apply IH; [|done]. intros Hin. apply Hc. by right.
Qed.

(** X13: for a dataset with distinct column labels and integer ids, the
    columns [error], [plots_generated] and [has_plot] of a row of the merged
    frame hold the values of an Outcome of its id, or missing values when the
    item has no Outcome; what the dataset held under these names before the
    merge is gone. *)
Theorem merged_result_cells
    (dataset : DataFrame) (plot_results : list Outcome.t) (row : list Value) :
  "id" ∈ columns dataset → NoDup (columns dataset) → rectangular dataset →
  int_ids dataset → plot_results ≠ [] →
  row ∈ rows dataset →
  ∃ merged,
    merge_response dataset (pd_DataFrame plot_results) = Ok merged ∧
    (∀ row', row' ∈ merged_rows dataset plot_results row → row' ∈ rows merged) ∧
    (results_of dataset row plot_results = [] →
     ∀ row', row' ∈ merged_rows dataset plot_results row →
             ∀ c, c ∈ result_columns → cell_at (columns merged) row' c = Some NaN) ∧
    (results_of dataset row plot_results ≠ [] →
     ∀ row', row' ∈ merged_rows dataset plot_results row →
       ∃ r, r ∈ plot_results ∧
            cell_at (columns dataset) row "id" = Some (VInt (Outcome.id r)) ∧
            cell_at (columns merged) row' "error" = Some (VStr (Outcome.error r)) ∧
            cell_at (columns merged) row' "plots_generated"
            = Some (VList (Outcome.plots_generated r)) ∧
            cell_at (columns merged) row' "has_plot" = Some (VBool (Outcome.has_plot r))).
Proof.
  intros Hid Hnodup Hrect Hints Hne Hrow. destruct plot_results as [|r0 rs]; [done|].
  eexists. split; [by apply merge_response_spec|]. cbn [columns rows].
  assert (length row = length (columns dataset)) as Hlen.
  { unfold rectangular in Hrect. rewrite Forall_forall in Hrect. by apply Hrect. }
  assert (∀ tail c, c ∈ result_columns →
            cell_at (filter (λ c, c ∉ result_columns) (columns dataset) ++ result_columns)
                    (kept_cells dataset row ++ tail) c
            = cell_at result_columns tail c) as Hcell.
  { intros tail c Hc. apply cell_at_app_r.
    - by apply length_kept_cells.
    - rewrite kept_columns_spec. tauto. }
  split_and!.
  - intros row' Hrow'. apply list_elem_of_bind. eauto.
  - intros Hnone row' Hrow' c Hc. unfold merged_rows in Hrow'. rewrite Hnone in Hrow'.
    apply list_elem_of_singleton in Hrow' as ->. rewrite Hcell by done.
    unfold result_columns in Hc. rewrite !elem_of_cons, elem_of_nil in Hc.
    by destruct Hc as [->|[->|[->|[]]]].
  - intros Hsome row' Hrow'. unfold merged_rows in Hrow'.
    destruct (results_of dataset row (r0 :: rs)) as [|m ms] eqn:Hres; [done|].
    apply list_elem_of_fmap in Hrow' as (r & -> & Hr).
    assert (r ∈ results_of dataset row (r0 :: rs)) as Hr' by (by rewrite Hres).
    unfold results_of in Hr'. apply list_elem_of_filter in Hr' as [Hkey Hin].
    assert ("error" ∈ result_columns ∧ "plots_generated" ∈ result_columns ∧
            "has_plot" ∈ result_columns) as (He & Hp & Hh) by (repeat constructor).
    exists r. split_and!; [done|done|..]; by rewrite Hcell.
Qed.

Lemma merged_result_cells_witness :
  "id" ∈ columns demo_frame ∧ NoDup (columns demo_frame) ∧ rectangular demo_frame ∧
  int_ids demo_frame ∧ demo_results ≠ [] ∧
  [VInt 7; VStr "bar chart"; VStr "stale"; VBool false; VStr "m"] ∈ rows demo_frame ∧
  ∃ merged,
    merge_response demo_frame (pd_DataFrame demo_results) = Ok merged ∧
    (∀ row', row' ∈ merged_rows demo_frame demo_results
                      [VInt 7; VStr "bar chart"; VStr "stale"; VBool false; VStr "m"] →
             row' ∈ rows merged).
Proof.
  assert ("id" ∈ columns demo_frame) as H1 by (by left).
  assert (NoDup (columns demo_frame)) as H2 by (by apply (bool_decide_unpack _)).
  assert (rectangular demo_frame) as H3 by (repeat constructor).
  assert (int_ids demo_frame) as H4 by (repeat constructor).
  assert (demo_results ≠ []) as H5 by done.
  assert ([VInt 7; VStr "bar chart"; VStr "stale"; VBool false; VStr "m"] ∈ rows demo_frame)
    as H6 by (by left).
  split_and!; [exact H1|exact H2|exact H3|exact H4|exact H5|exact H6|].
  destruct (merged_result_cells demo_frame demo_results _ H1 H2 H3 H4 H5 H6)
    as (merged & Hm & Hrows & _).
  exists merged. by split.
Defined.

Lemma keys_clash_str_int (l r : list (option Value)) :
  l ≠ [] → r ≠ [] →
  Forall (λ v, is_str_cell v = true) l → Forall (λ v, is_int_cell v = true) r →
  keys_clash l r = true.
Proof.
  intros Hl Hr Hstr Hint. unfold keys_clash.
  rewrite !bool_decide_eq_false_2 by done. cbn [negb andb].
  apply orb_true_iff. left. apply andb_true_iff.
  split; apply forallb_forall; intros v Hv%list_elem_of_In.
  - rewrite Forall_forall in Hstr. by apply Hstr.
  - rewrite Forall_forall in Hint. by apply Hint.
Qed.

(** X14: the merge step raises [KeyError] when one of the two frames has no
    [id] column; and it raises [ValueError] when the ids of the dataset are
    strings, the ids of the Outcomes being integers. *)
Theorem merge_response_needs_id (dataset : DataFrame) :
  (∀ response,
     ¬ ("id" ∈ columns dataset ∧ "id" ∈ columns response) →
     ∃ key, merge_response dataset response = Raise (KeyError key)) ∧
  (∀ plot_results,
     "id" ∈ columns dataset → NoDup (columns dataset) → rectangular dataset →
     rows dataset ≠ [] →
     Forall (λ row, is_str_cell (cell_at (columns dataset) row "id") = true)
            (rows dataset) →
     plot_results ≠ [] →
     merge_response dataset (pd_DataFrame plot_results) = Raise ValueError).
Proof.
  split.
  - intros response Hnot. unfold merge_response, index_drop.
    rewrite decide_False; [by eexists|].
    unfold index_intersection. rewrite list_elem_of_filter, elem_of_remove_dups. tauto.
  - intros [|r0 rs] Hid Hnodup Hrect Hrows Hstr Hne; [done|].
    rewrite merge_response_dropped by done. cbn [pd_DataFrame].
    set (kcols := filter (λ c, c ∉ result_columns) (columns dataset)).
    assert ("id" ∉ result_columns) as Hid_rc.
    { unfold result_columns. rewrite !elem_of_cons, elem_of_nil. by intros [|[|[|]]]. }
    assert ("id" ∈ kcols) as Hid_k by (by apply list_elem_of_filter).
    unfold df_merge_left. cbn [columns rows].
    rewrite (bool_decide_eq_true_2 ("id" ∈ kcols)) by done.
    rewrite (bool_decide_eq_true_2 ("id" ∈ _)) by (by left).
    rewrite (unique_label_NoDup "id" kcols) by (done || by apply NoDup_filter).
    rewrite keys_clash_str_int; [done|..].
    + unfold column_cells. cbn [rows]. destruct (rows dataset); done.
    + done.
    + unfold column_cells. cbn [columns rows]. apply Forall_fmap, Forall_fmap.
      rewrite Forall_forall in Hstr |- *. intros row Hrow. cbn.
      unfold kept_cells, kcols.
      rewrite (cell_at_select (λ c, c ∉ result_columns)); [by apply Hstr| |done].
      unfold rectangular in Hrect. rewrite Forall_forall in Hrect. by apply Hrect.
    + unfold column_cells. cbn [columns rows]. apply Forall_fmap, Forall_fmap.
      by apply Forall_true.
Qed.

(** Ids kept as text are refused by the join. *)
Example merge_string_ids :
  merge_response
    {| columns := ["id"; "task"]; rows := [[VStr "7"; VStr "bar chart"]] |}
    (pd_DataFrame demo_results)
  = Raise ValueError.
Proof. reflexivity. Qed.

(** * JSON-lines files and the responses *)

Lemma translate_newlines_id (s : string) :
  all_chars (λ c, negb (bool_decide (c = CR))) s = true → translate_newlines s = s.
Proof.
  induction s as [|c s IH]; [done|]. cbn [all_chars translate_newlines].
  intros [Hc Hs]%andb_true_iff. apply negb_true_iff, bool_decide_eq_false in Hc.
  rewrite decide_False by done. by rewrite IH.
Qed.

Lemma file_lines_line (line rest : string) :
  all_chars (λ c, negb (bool_decide (c = Py.LF))) line = true →
  file_lines (line +:+ Py.nl +:+ rest) = (line +:+ Py.nl) :: file_lines rest.
Proof.
  induction line as [|c line IH].
  - intros _. rewrite !sapp_nil_l, nl_app. cbn [file_lines].
    by rewrite decide_True.
  - cbn [all_chars]. intros [Hc Hline]%andb_true_iff.
    apply negb_true_iff, bool_decide_eq_false in Hc.
    rewrite !sapp_cons. cbn [file_lines]. rewrite decide_False by done.
    by rewrite IH.
Qed.

Section JsonlFacts.
Context {Entry : Type}.
Variable json_dumps : Entry → result string.
Variable json_loads : string → result Entry.

Lemma jsonl_text_round_trip (data : list Entry) :
  Forall (round_trips json_dumps json_loads) data →
  ∃ text, jsonl_text json_dumps data = Ok text ∧
          all_chars (λ c, negb (bool_decide (c = CR))) text = true ∧
          traverse json_loads (file_lines text) = Ok data.
Proof.
  induction 1 as [|entry data (line & Hline & HLF & HCR & Hload) _ (text & Htext & Hcr & Hread)].
  - by exists "".
  - exists (line +:+ Py.nl +:+ text). cbn [jsonl_text]. rewrite Hline, Htext.
    split_and!; [done| |].
    + by rewrite !all_chars_app, HCR, Hcr.
    + rewrite file_lines_line by done. cbn [traverse]. rewrite Hload, Hread. done.
Qed.

(** X15: entries that the [json] library writes on one line and reads back
    are read by [read_jsonl] from the file that [save_jsonl] wrote, in their
    order; the other files are left as they were. *)
Theorem read_jsonl_after_save_jsonl (files : Files) (data : list Entry) (file_path : Path) :
  Forall (round_trips json_dumps json_loads) data →
  ∃ files',
    save_jsonl json_dumps files data file_path = Ok files' ∧
    read_jsonl json_loads files' file_path = Ok data ∧
    ∀ p, p ≠ file_path → files' !! p = files !! p.
Proof.
  intros (text & Htext & Hcr & Hread)%jsonl_text_round_trip.
  exists (<[file_path := text]> files). unfold save_jsonl, read_jsonl.
  rewrite Htext. split_and!; [done| |].
  - rewrite lookup_insert_eq, translate_newlines_id by done. exact Hread.
  - intros p Hp. by rewrite lookup_insert_ne.
Qed.

Context `{Countable K}.
Variable entry_id : Entry → option K.

Lemma responses_dict_lookup (l : list Entry) (d : gmap K Entry) (k : K) :
  fold_left (λ d entry, match entry_id entry with
                        | Some k => <[k := entry]> d
                        | None => d
                        end) l d !! k
  = match last (filter (λ e, entry_id e = Some k) l) with
    | Some e => Some e
    | None => d !! k
    end.
Proof.
  revert d. induction l as [|e l IH]; intros d; [done|].
  cbn [fold_left]. rewrite IH, filter_cons.
  destruct (decide (entry_id e = Some k)) as [He|He].
  - rewrite last_cons, He. destruct (last _); [done|]. by rewrite lookup_insert_eq.
  - destruct (last _); [done|]. destruct (entry_id e) as [k'|]; [|done].
    rewrite lookup_insert_ne; [done|congruence].
Qed.

(** X16: [read_responses] raises [ValueError] when it is given neither a file
    nor a list; a list is used without reading the file; the result holds,
    under every id, the LAST entry with that id, entries without an id are
    left out, and each entry stored is filed under its own id. *)
Theorem read_responses_last_entry_wins (files : Files) :
  read_responses json_loads entry_id files None None = Raise ValueError ∧
  (∀ responses_file l,
     ∃ d, read_responses json_loads entry_id files responses_file (Some l) = Ok d ∧
          (∀ k, d !! k = last (filter (λ e, entry_id e = Some k) l)) ∧
          (∀ k e, d !! k = Some e → entry_id e = Some k ∧ e ∈ l)) ∧
  (∀ f, read_responses json_loads entry_id files (Some f) None
        = l ← read_jsonl json_loads files f;
          read_responses json_loads entry_id files None (Some l)).
Proof.
  split_and!.
  - done.
  - intros responses_file l.
    assert (∀ k, fold_left (λ d entry, match entry_id entry with
                                      | Some k => <[k := entry]> d
                                      | None => d
                                      end) l (∅ : gmap K Entry) !! k
                 = last (filter (λ e, entry_id e = Some k) l)) as Hlookup.
    { intros k. rewrite responses_dict_lookup, lookup_empty. by destruct (last _). }
    eexists. split; [by destruct responses_file|]. split; [exact Hlookup|].
    intros k e He. rewrite Hlookup in He. apply last_Some_elem_of in He.
    by apply list_elem_of_filter in He.
  - intros f. cbn. by destruct (read_jsonl json_loads files f).
Qed.

End JsonlFacts.

Lemma read_jsonl_after_save_jsonl_witness :
  Forall (round_trips int_dumps int_loads) [12; -3; 0] ∧
  ∃ files',
    save_jsonl int_dumps ∅ [12; -3; 0] (joinpath "out" "ids.jsonl") = Ok files' ∧
    read_jsonl int_loads files' (joinpath "out" "ids.jsonl") = Ok [12; -3; 0] ∧
    ∀ p, p ≠ joinpath "out" "ids.jsonl" → files' !! p = (∅ : Files) !! p.
Proof.
  assert (Forall (round_trips int_dumps int_loads) [12; -3; 0]) as Hall.
  { repeat constructor; eexists; (split; [reflexivity|]); split_and!; reflexivity. }
  split; [exact Hall|].
  exact (read_jsonl_after_save_jsonl int_dumps int_loads ∅ [12; -3; 0]
           (joinpath "out" "ids.jsonl") Hall).
Defined.

(** * The engine helpers of [vllm_engine.py] *)

Section BatchFacts.
Context {V : Type}.
Implicit Types (outputs : list (list (string * V))) (b : gmap string (list V)).

Lemma batch_fold_flat outputs b :
  fold_left (λ batched_output d,
               fold_left (λ batched '(key, value),
                            <[key := default [] (batched !! key) ++ [value]]> batched)
                         d batched_output) outputs b
  = fold_left (λ batched '(key, value),
                 <[key := default [] (batched !! key) ++ [value]]> batched)
              (mjoin outputs) b.
Proof.
  revert b. induction outputs as [|d outputs IH]; intros b; [done|].
  cbn [fold_left mjoin list_join]. by rewrite fold_left_app, IH.
Qed.

Lemma batch_fold_lookup (l : list (string * V)) b (key : string) :
  fold_left (λ batched '(key, value),
               <[key := default [] (batched !! key) ++ [value]]> batched) l b !! key
  = match snd <$> filter (λ kv, kv.1 = key) l with
    | [] => b !! key
    | vs => Some (default [] (b !! key) ++ vs)
    end.
Proof.
  revert b. induction l as [|[k v] l IH]; intros b; [done|].
  cbn [fold_left]. rewrite IH, filter_cons. cbn [fst].
  destruct (decide (k = key)) as [->|Hk].
  - rewrite fmap_cons, lookup_insert_eq. cbn [snd default from_option id].
    destruct (snd <$> filter _ l) as [|v' vs]; [done|].
    by rewrite <- (assoc_L (++)).
  - by rewrite lookup_insert_ne.
Qed.

(** X17: [batch_output] gathers, under every key, the values that the
    dictionaries hold for it, in the order of the dictionaries; a key that no
    dictionary has is absent. *)
Theorem batch_output_collects_by_key outputs (key : string) :
  batch_output outputs !! key
  = match values_of key outputs with
    | [] => None
    | vs => Some vs
    end.
Proof.
  unfold batch_output, values_of. rewrite batch_fold_flat, batch_fold_lookup.
  rewrite lookup_empty. by destruct (snd <$> filter _ _).
Qed.

End BatchFacts.

(** X18: when [get_model_name_and_path] returns, the model name is defined and
    the tokenizer name is [None] or equal to it; it is [None] only when the
    name is the path itself.  For a path that does not exist the given name
    is discarded; for one that exists the function returns only if
    [config.json] exists as well, and a [_name_or_path] of the configuration
    takes the place of the given name. *)
Theorem get_model_name_and_path_returns
    (fs : FileSystem) (json_files : gmap Path JsonDoc) (model_name_or_path : Path)
    (model_name name tok : option string) :
  get_model_name_and_path fs json_files model_name_or_path model_name = Ok (name, tok) →
  is_Some name ∧
  (tok = None ∨ tok = name) ∧
  (tok = None → name = Some (posix model_name_or_path)) ∧
  (path_exists fs model_name_or_path = false →
   name = Some (posix model_name_or_path) ∧ tok = None) ∧
  (path_exists fs model_name_or_path = true →
   path_exists fs (joinpath (posix model_name_or_path) "config.json") = true ∧
   ∃ d, json_files !! joinpath (posix model_name_or_path) "config.json"
        = Some (JObject d) ∧
        (∀ n, d !! "_name_or_path" = Some n → name = Some n ∧ tok = Some n) ∧
        (d !! "_name_or_path" = None → ∀ n, model_name = Some n →
                                            name = Some n ∧ tok = Some n)).
Proof.
  unfold get_model_name_and_path.
  destruct (path_exists fs model_name_or_path) eqn:Hpath; cbn [negb].
  - destruct (path_exists fs (joinpath (posix model_name_or_path) "config.json"))
      eqn:Hconfig; cbn [negb]; [|done].
    destruct (json_files !! joinpath (posix model_name_or_path) "config.json")
      as [[d|]|] eqn:Hjson; cbn [mbind result_bind]; [|done|done].
    destruct (d !! "_name_or_path") as [n|] eqn:Hn.
    + destruct (check_files_exist _ _ _); intros [= <- <-];
        (split_and!; [by eexists|by right|done|done|]); intros _;
        (split; [done|]); exists d; rewrite Hn;
        (split_and!; [done| |done]); by intros ? [= <-].
    + destruct (check_files_exist _ _ _), model_name as [m|]; try done;
        intros [= <- <-].
      * split_and!; [by eexists|by right|done|done|]. intros _.
        split; [done|]. exists d. rewrite Hn.
        split_and!; [done|done|]. by intros _ ? [= <-].
      * split_and!; [by eexists|by left|done|done|]. intros _.
        split; [done|]. exists d. rewrite Hn. by split_and!.
      * split_and!; [by eexists|by right|done|done|]. intros _.
        split; [done|]. exists d. rewrite Hn.
        split_and!; [done|done|]. by intros _ ? [= <-].
  - intros [= <- <-]. split_and!; [by eexists|by left|done|done|done].
Qed.

Lemma get_model_name_and_path_returns_witness :
  get_model_name_and_path
    {[ {| parent := "models"; name := "llama" |};
       joinpath "models/llama" "config.json" ]}
    {[ joinpath "models/llama" "config.json"
         := JObject {[ "_name_or_path" := "meta-llama/Llama-3" ]} ]}
    {| parent := "models"; name := "llama" |} (Some "given")
  = Ok (Some "meta-llama/Llama-3", Some "meta-llama/Llama-3") ∧
  is_Some (Some "meta-llama/Llama-3") ∧
  (Some "meta-llama/Llama-3" = None ∨
   Some "meta-llama/Llama-3" = Some "meta-llama/Llama-3").
Proof.
  match goal with |- ?call ∧ _ => assert (Hcall : call) by reflexivity end.
  split; [exact Hcall|].
  destruct (get_model_name_and_path_returns _ _ _ _ _ _ Hcall)
    as (Hname & Htok & _).
  by split.
Defined.
